(** * SyntheticDocuments: the dataset packaging pipeline and the Document class

    A shallow embedding of [crop_documents.py] ([convert], [split_into_sets],
    [create_lmdb]) and of [document.py] ([Document.create], [save],
    [save_ground_truth], [_add_text]).

    Conventions.
    - Python code that raises is modelled in a state-and-exception monad: an
      exception keeps the side effects made before it.
    - OpenCV, the random module's generator, the directory enumeration order
      and the word-layout tracker are collaborators of the code; they enter
      as Section variables or as fields of a class.
    - cv2.imwrite fails as OpenCV does: cv2.error for None, for an empty
      array and for a name without an encoder, False when the file cannot be
      opened.
    - The Document works on a file system whose names are resolved component
      by component, as Linux does on a tree without links; os.makedirs and
      shutil.copy2 are transcribed from the standard library.
    - Python floats are binary64; they are Rocq's primitive floats, and the
      decimal literals of the source are written in hexadecimal, as
      [float.hex] prints them. *)

From Stdlib Require Import ZArith Lia Bool Ascii String.
From Stdlib Require Import Floats.PrimFloat Floats.FloatOps Floats.SpecFloat.
From stdpp Require Import base tactics option list strings pretty gmap.

Open Scope Z_scope.

#[local] Arguments String.append !_ _ / : simpl nomatch.

(** ** Python floats *)

Module PyFloat.

(** [float(n)] for a Python int: round to nearest, ties to even. *)
Definition of_int (z : Z) : float :=
  SF2Prim (binary_normalize prec emax z 0 false).

(** The literals [0.01], [.6] and [.8], as the parser rounds them. *)
Definition lit_0_01 : float := 0x1.47ae147ae147bp-7%float.
Definition lit_0_6 : float := 0x1.3333333333333p-1%float.
Definition lit_0_8 : float := 0x1.999999999999ap-1%float.

(** Python compares an int with a float exactly (float_richcompare never
    rounds the int).  [int_gt c x] is [c > x], [int_lt c x] is [c < x]. *)
Definition int_gt (c : Z) (x : float) : bool :=
  match Prim2SF x with
  | S754_zero _ => 0 <? c
  | S754_infinity s => s
  | S754_nan => false
  | S754_finite s m e =>
      let v := if s then Z.neg m else Z.pos m in
      if 0 <=? e then v * 2 ^ e <? c else v <? c * 2 ^ (- e)
  end.

Definition int_lt (c : Z) (x : float) : bool :=
  match Prim2SF x with
  | S754_zero _ => c <? 0
  | S754_infinity s => negb s
  | S754_nan => false
  | S754_finite s m e =>
      let v := if s then Z.neg m else Z.pos m in
      if 0 <=? e then c <? v * 2 ^ e else c * 2 ^ (- e) <? v
  end.

(** [math.floor] of a finite float, as an integer. *)
Definition floor_Z (x : float) : option Z :=
  match Prim2SF x with
  | S754_zero _ => Some 0
  | S754_finite s m e =>
      let v := if s then Z.neg m else Z.pos m in
      Some (if 0 <=? e then v * 2 ^ e else v / 2 ^ (- e))
  | _ => None
  end.

(** C's [fmod] on finite floats with a non-zero divisor: the exact
    remainder, with the sign of the dividend. *)
Definition fmod (x y : float) : float :=
  match Prim2SF x, Prim2SF y with
  | S754_finite sx mx ex, S754_finite _ my ey =>
      let e := Z.min ex ey in
      let r := Z.rem (Z.pos mx * 2 ^ (ex - e)) (Z.pos my * 2 ^ (ey - e)) in
      if r =? 0 then (if sx then (-0)%float else 0%float)
      else SF2Prim (binary_normalize prec emax (if sx then - r else r) e false)
  | S754_zero _, S754_finite _ _ _ => x
  | S754_finite _ _ _, S754_infinity _ => x
  | S754_zero _, S754_infinity _ => x
  | _, _ => nan
  end.

Definition floor (x : float) : float :=
  match floor_Z x with
  | Some z => if z =? 0 then (if PrimFloat.ltb x 0 then (-0)%float else 0%float)
              else of_int z
  | None => x
  end.

Definition is_zero (x : float) : bool := PrimFloat.eqb x 0.
Definition copysign_zero (x : float) : float :=
  match Prim2SF x with
  | S754_zero true | S754_finite true _ _ | S754_infinity true => (-0)%float
  | _ => 0%float
  end.

(** [vx // wx] on floats, as CPython computes it (floatobject.c,
    _float_div_mod); [None] is ZeroDivisionError. *)
Definition floordiv (vx wx : float) : option float :=
  if is_zero wx then None else
  let md := fmod vx wx in
  let dv := ((vx - md) / wx)%float in
  let dv := if is_zero md then dv
            else if xorb (PrimFloat.ltb wx 0) (PrimFloat.ltb md 0)
                 then (dv - 1)%float else dv in
  Some (if is_zero dv then copysign_zero (vx / wx)%float
        else let fl := floor dv in
             if PrimFloat.ltb 0x1p-1%float (dv - fl)%float
             then (fl + 1)%float else fl).

End PyFloat.

(** ** Python strings and os.path *)

Module PyStr.

Definition len (s : string) : nat := String.length s.

(** [sub in s] *)
Fixpoint contains (sub s : string) : bool :=
  String.prefix sub s ||
  match s with
  | EmptyString => false
  | String _ r => contains sub r
  end.

(** [s[:-4]] and [s[-4:]] *)
Definition drop_last4 (s : string) : string := String.substring 0 (len s - 4) s.
Definition last4 (s : string) : string := String.substring (len s - 4) 4 s.

(** [os.path.basename]: what follows the last slash. *)
Fixpoint basename_from (acc p : string) : string :=
  match p with
  | EmptyString => acc
  | String c r =>
      if Ascii.eqb c "/"%char then basename_from EmptyString r
      else basename_from (acc +:+ String c EmptyString) r
  end.
Definition basename (p : string) : string := basename_from EmptyString p.

(** [os.path.join a p] for two components (posixpath). *)
Definition join (a p : string) : string :=
  if String.prefix "/" p then p
  else if (String.eqb a "" || String.eqb (String.substring (len a - 1) 1 a) "/")%bool
       then a +:+ p
       else a +:+ "/" +:+ p.

(** [os.path.splitext(p)[0]] for a name without directory part: cut at the
    last dot, unless only dots precede it. *)
Fixpoint all_dots (s : string) : bool :=
  match s with
  | EmptyString => true
  | String c r => Ascii.eqb c "."%char && all_dots r
  end.
Fixpoint rfind_dot (s : string) : option nat :=
  match s with
  | EmptyString => None
  | String c r =>
      match rfind_dot r with
      | Some i => Some (S i)
      | None => if Ascii.eqb c "."%char then Some O else None
      end
  end.
Definition splitext_root (p : string) : string :=
  match rfind_dot p with
  | Some i => if all_dots (String.substring 0 i p) then p
              else String.substring 0 i p
  | None => p
  end.

(** [s.rstrip('/')] and [s.endswith('/')] *)
Fixpoint rstrip_slash (s : string) : string :=
  match s with
  | EmptyString => EmptyString
  | String c r =>
      match rstrip_slash r with
      | EmptyString => if Ascii.eqb c "/"%char then EmptyString
                       else String c EmptyString
      | r' => String c r'
      end
  end.
Definition ends_with_slash (s : string) : bool :=
  String.eqb (String.substring (len s - 1) 1 s) "/".

(** [os.path.split] (posixpath): the tail is what follows the last slash;
    the head is what precedes it, without its trailing slashes unless it
    consists of slashes only. *)
Definition split (p : string) : string * string :=
  let tail := basename p in
  let head := String.substring 0 (len p - len tail) p in
  (match rstrip_slash head with
   | EmptyString => head
   | stripped => stripped
   end, tail).

(** [s.split('/')] *)
Fixpoint components (s : string) : list string :=
  match s with
  | EmptyString => [EmptyString]
  | String c r =>
      if Ascii.eqb c "/"%char then EmptyString :: components r
      else match components r with
           | [] => [String c EmptyString]
           | x :: xs => String c x :: xs
           end
  end.

End PyStr.

(** ** Exceptions and the state monad *)

Inductive exn : Type :=
| AttributeError      (* an attribute of None *)
| ValueError          (* random.randint on an empty range *)
| ZeroDivisionError
| Cv2Error            (* cv2.error *)
| OSError (errno : Z) (* and its subclasses FileNotFoundError, ... *)
| SameFileError       (* shutil *)
| IndexError
| RuntimeError
| TypeError
| CalledProcessError
| Diverges            (* not an exception: a [while True] loop ran out of fuel *).

Inductive res (A : Type) : Type :=
| Ok (a : A)
| Raise (e : exn).
Arguments Ok {A} a.
Arguments Raise {A} e.

Definition M (W A : Type) : Type := W → res A * W.

Definition ret {W A} (a : A) : M W A := λ w, (Ok a, w).
Definition raise {W A} (e : exn) : M W A := λ w, (Raise e, w).
Definition bind {W A B} (m : M W A) (k : A → M W B) : M W B :=
  λ w, match m w with
       | (Ok a, w') => k a w'
       | (Raise e, w') => (Raise e, w')
       end.
Definition get {W} : M W W := λ w, (Ok w, w).
Definition modify {W} (f : W → W) : M W unit := λ w, (Ok tt, f w).

Global Instance M_ret {W} : MRet (M W) := λ A, @ret W A.
Global Instance M_bind {W} : MBind (M W) := λ A B k m, @bind W A B m k.

(** Running a computation: its outcome and the state it leaves. *)
Definition outcome {W A} (m : M W A) (w : W) : res A := fst (m w).
Definition final {W A} (m : M W A) (w : W) : W := snd (m w).

(** ** Images *)

(** A numpy array of shape (rows, columns[, 3]) is the list of its rows.
    [shape1] of an array without rows reads 0; the source multiplies it by
    [shape0] or ignores it on such arrays. *)
Definition pixel : Type := Z * Z * Z.           (* B, G, R *)
Definition image : Type := list (list pixel).
Definition gray : Type := list (list Z).

Definition shape0 {A} (a : list (list A)) : nat := length a.
Definition shape1 {A} (a : list (list A)) : nat :=
  match a with
  | [] => O
  | r :: _ => length r
  end.

(** Every row has [w] entries and there are [h] rows. *)
Definition has_shape {A} (h w : nat) (a : list (list A)) : Prop :=
  length a = h ∧ Forall (λ r, length r = w) a.

(** [l[a:b]] for [0 <= a <= b]: Python clips the slice to the list. *)
Definition slice {A} (a b : nat) (l : list A) : list A := take (b - a) (drop a l).

(** [arr[r0:r1, c0:c1]] *)
Definition slice2 {A} (r0 r1 c0 c1 : nat) (arr : list (list A)) : list (list A) :=
  map (slice c0 c1) (slice r0 r1 arr).

(** [arr[:,:,1]] *)
Definition channel1 (img : image) : gray := map (map (λ p : pixel, snd (fst p))) img.

(** [np.clip(g, 0, 1)] *)
Definition clip01 (g : gray) : gray := map (map (λ v, Z.max 0 (Z.min v 1))) g.

(** [1 - g] on uint8 *)
Definition one_minus (g : gray) : gray := map (map (λ v, (1 - v) mod 256)) g.

(** [128 * np.ones_like(img)] and then [[:,:,1]] *)
Definition ones_like_128 (img : image) : image :=
  map (map (λ _ : pixel, (128 * 1 mod 256, 128 * 1 mod 256, 128 * 1 mod 256))) img.

(** What cv2.imwrite is given. *)
Inductive ndarray : Type :=
| Color (img : image)
| Mono (g : gray).

(** An array without rows or without columns; OpenCV calls it empty. *)
Definition empty (a : ndarray) : bool :=
  match a with
  | Color img => (shape0 img =? 0)%nat || (shape1 img =? 0)%nat
  | Mono g => (shape0 g =? 0)%nat || (shape1 g =? 0)%nat
  end.

(** ** crop_documents.py *)

Module Crop.

Definition ORIGINAL_DIR : string := "/data/synthetic_trial_results/".
Definition RESULTS_DIR : string := "/data/synthetic_trial_final/".
Definition GARBAGE_DIR : string := "/data/garbage/".
Definition FULL_DIR : string := RESULTS_DIR +:+ "full/".
Definition TRAIN_DIR : string := RESULTS_DIR +:+ "train/".
Definition VAL_DIR : string := RESULTS_DIR +:+ "val/".
Definition TEST_DIR : string := RESULTS_DIR +:+ "test/".
Definition LABELS_DIR : string := RESULTS_DIR +:+ "labels/".
Definition ORIGINAL_SUBDIR : string := "original_images/".
Definition GT_SUBDIR : string := "processed_gt/".
Definition RECALL_SUBDIR : string := "recall_weights/".
Definition PRECISION_SUBDIR : string := "precision_weights/".

(** The state [convert] works on: the generator of the random module and
    the files written by cv2.imwrite, oldest first. *)
Record world (rng : Type) : Type := World {
  rand : rng;
  written : list (string * ndarray)
}.
Arguments World {rng} rand written.
Arguments rand {rng} w.
Arguments written {rng} w.

(** How the [for x in range(5)] loop of [convert] is left. *)
Inductive loop_exit : Type :=
| Break (file gt_file : string) (original : image) (gt : gray)
| Return
| Exhausted (file gt_file : string) (original : image) (gt : option image).

Section Convert.
Context {rng : Type}.
(** [random._randbelow n] *)
Variable randbelow : Z → rng → Z * rng.
(** [cv2.imread]: None for a file that cannot be read *)
Variable imread : string → option image.
(** [cv2.countNonZero(cv2.Canny(img, 100, 200))]; None when OpenCV raises *)
Variable Canny_count : image → option Z.
(** [cv2.cvtColor(img, cv2.COLOR_BGR2GRAY)] *)
Variable cvtColor_BGR2GRAY : image → gray.
(** [cv2.haveImageWriter(file)]: OpenCV has an encoder for the extension *)
Variable haveImageWriter : string → bool.
(** Whether [file] can be opened for writing: its directory exists and the
    file may be created or overwritten there. *)
Variable writable : string → bool.

Local Abbreviation W := (world rng).

(** [random.randint(a, b)] is [a + _randbelow(b - a + 1)]. *)
Definition randint (a b : Z) : M W Z :=
  if b - a + 1 <=? 0 then raise ValueError
  else λ w, let '(r, g) := randbelow (b - a + 1) (rand w) in
            (Ok (a + r), World g (written w)).

(** [cv2.imwrite]: it raises cv2.error when it is handed None or an empty
    array, and when the name has no extension it can encode; it returns
    False, and writes nothing, when the file cannot be opened. *)
Definition imwrite (file : string) (arr : option ndarray) : M W bool :=
  match arr with
  | None => raise Cv2Error
  | Some a =>
      if empty a then raise Cv2Error
      else if negb (haveImageWriter file) then raise Cv2Error
      else if writable file
           then modify (λ w, World (rand w) (written w ++ [(file, a)]));;
                mret true
           else mret false
  end.

(** [pixel_count > 0.01 * original.shape[0] * original.shape[1]] *)
Definition threshold (h w : nat) : float :=
  (PyFloat.lit_0_01 * PyFloat.of_int (Z.of_nat h) * PyFloat.of_int (Z.of_nat w))%float.
Definition enough_edges (pixel_count : Z) (crop : image) : bool :=
  PyFloat.int_gt pixel_count (threshold (shape0 crop) (shape1 crop)).

(** The crop of one attempt: both slices of both arrays go from
    [top_left_y] to [bottom_right_y]. *)
Definition crop_original (original : image) (top_left_y : nat) : image :=
  slice2 top_left_y (top_left_y + 256) top_left_y (top_left_y + 256) original.
Definition crop_gt (gt : image) (top_left_y : nat) : gray :=
  one_minus (clip01 (channel1
    (slice2 top_left_y (top_left_y + 256) top_left_y (top_left_y + 256) gt))).

(** The loop, over the values [x] still to come. *)
Fixpoint attempts (xs : list nat) (file gt_file : string)
    (original : image) (gt : option image) : M W loop_exit :=
  match xs with
  | [] => mret (Exhausted file gt_file original gt)
  | x :: xs' =>
      top_left_x ← randint 0 (Z.of_nat (shape0 original) - 256);
      top_left_y ← randint 0 (Z.of_nat (shape1 original) - 256);
      let bottom_right_x := top_left_x + 256 in
      let bottom_right_y := top_left_y + 256 in
      let old_original := original in
      match gt with
      | None => raise AttributeError
      | Some gt_arr =>
          let old_gt := gt_arr in
          let original := crop_original original (Z.to_nat top_left_y) in
          let gt := crop_gt gt_arr (Z.to_nat top_left_y) in
          match Canny_count original with
          | None => raise Cv2Error
          | Some pixel_count =>
              if enough_edges pixel_count original
              then mret (Break file gt_file original gt)
              else if Nat.eqb x 4 then
                let file := GARBAGE_DIR +:+ PyStr.basename file in
                let gt_file := GARBAGE_DIR +:+ PyStr.basename gt_file in
                imwrite file (Some (Color original));;
                imwrite gt_file (Some (Mono gt));;
                mret Return
              else attempts xs' file gt_file old_original (Some old_gt)
          end
      end
  end.

(** What follows the loop. *)
Definition emit (grayscale : bool) (file : string) (original : image)
    (gt : option ndarray) : M W unit :=
  let file := FULL_DIR +:+ ORIGINAL_SUBDIR +:+ PyStr.basename file in
  let gt_file := FULL_DIR +:+ GT_SUBDIR +:+ PyStr.basename file in
  let recall_file := FULL_DIR +:+ RECALL_SUBDIR +:+ PyStr.basename file in
  let precision_file := FULL_DIR +:+ PRECISION_SUBDIR +:+ PyStr.basename file in
  let weighted_image := channel1 (ones_like_128 original) in
  let original := if grayscale then Mono (cvtColor_BGR2GRAY original)
                  else Color original in
  imwrite file (Some original);;
  imwrite gt_file gt;;
  imwrite recall_file (Some (Mono weighted_image));;
  imwrite precision_file (Some (Mono weighted_image));;
  mret tt.

Definition convert (file : string) (grayscale : bool) : M W unit :=
  if PyStr.contains "gt" file then mret tt else
  let file := ORIGINAL_DIR +:+ file in
  let gt_file := PyStr.drop_last4 file +:+ "_gt" +:+ PyStr.last4 file in
  let original := imread file in
  let gt := imread gt_file in
  match original with
  | None => raise AttributeError
  | Some original =>
      if (shape0 original <? 256)%nat || (shape1 original <? 256)%nat
      then mret tt
      else
        ex ← attempts (seq 0 5) file gt_file original gt;
        match ex with
        | Return => mret tt
        | Break file gt_file original gt =>
            emit grayscale file original (Some (Mono gt))
        | Exhausted file gt_file original gt =>
            emit grayscale file original (Color <$> gt)
        end
  end.

End Convert.

(** *** split_into_sets *)

(** What a file holds. *)
Inductive content : Type :=
| Image (a : ndarray)
| Text (s : string).

(** The directories the splitter works on: a directory path is mapped to
    its entries.  Every path of [split_into_sets] is a directory constant
    followed by a name that [os.listdir] returned. *)
Record disk (rng : Type) : Type := Disk {
  drand : rng;
  tree : gmap string (gmap string content)
}.
Arguments Disk {rng} drand tree.
Arguments drand {rng} d.
Arguments tree {rng} d.

Definition newline : string := String "010"%char EmptyString.

Section Split.
Context {rng : Type}.
Variable randbelow : Z → rng → Z * rng.
(** The order in which the operating system enumerates a directory. *)
Variable listdir_order : list string → list string.

Local Abbreviation W := (disk rng).

Definition listdir (d : string) : M W (list string) :=
  λ w, match tree w !! d with
       | None => (Raise (OSError 2), w)
       | Some entries => (Ok (listdir_order (elements (dom entries))), w)
       end.

Definition randbelow_m (n : Z) : M W Z :=
  λ w, let '(r, g) := randbelow n (drand w) in (Ok r, Disk g (tree w)).

(** [x[i], x[j] = x[j], x[i]] *)
Definition swap (x : list nat) (i j : nat) : M W (list nat) :=
  match x !! i, x !! j with
  | Some xi, Some xj => mret (<[j := xi]> (<[i := xj]> x))
  | _, _ => raise IndexError
  end.

(** [random.shuffle(x)]:
    for i in reversed(range(1, len(x))): j = randbelow(i + 1); swap *)
Fixpoint shuffle_from (i : nat) (x : list nat) : M W (list nat) :=
  match i with
  | O => mret x
  | S i' =>
      j ← randbelow_m (Z.of_nat i + 1);
      x ← swap x i (Z.to_nat j);
      shuffle_from i' x
  end.
Definition shuffle (x : list nat) : M W (list nat) :=
  shuffle_from (length x - 1) x.

(** [n // (1 / lit)] with [n] an int *)
Definition cut_off (n : nat) (lit : float) : M W float :=
  match PyFloat.floordiv (PyFloat.of_int (Z.of_nat n)) (1 / lit)%float with
  | Some c => mret c
  | None => raise ZeroDivisionError
  end.

(** [shutil.move(src_dir + file, dst_dir + file)] *)
Definition move (src_dir dst_dir file : string) : M W unit :=
  λ w, match tree w !! src_dir, tree w !! dst_dir with
       | Some src, Some dst =>
           match src !! file with
           | Some c =>
               (Ok tt, Disk (drand w)
                         (<[dst_dir := <[file := c]> dst]>
                            (<[src_dir := delete file src]> (tree w))))
           | None => (Raise (OSError 2), w)
           end
       | _, _ => (Raise (OSError 2), w)
       end.

Definition move_four (dst : string) (file : string) : M W unit :=
  move (FULL_DIR +:+ ORIGINAL_SUBDIR) (dst +:+ ORIGINAL_SUBDIR) file;;
  move (FULL_DIR +:+ GT_SUBDIR) (dst +:+ GT_SUBDIR) file;;
  move (FULL_DIR +:+ RECALL_SUBDIR) (dst +:+ RECALL_SUBDIR) file;;
  move (FULL_DIR +:+ PRECISION_SUBDIR) (dst +:+ PRECISION_SUBDIR) file.

(** Where the file met as number [count] goes. *)
Definition destination (train_cut_off val_cut_off : float) (count : nat) : string :=
  if PyFloat.int_lt (Z.of_nat count) train_cut_off then TRAIN_DIR
  else if PyFloat.int_lt (Z.of_nat count) val_cut_off then VAL_DIR
  else TEST_DIR.

(** [for count, index in enumerate(sequence)], from [count] on. *)
Fixpoint distribute (files : list string) (train_cut_off val_cut_off : float)
    (count : nat) (sequence : list nat) : M W unit :=
  match sequence with
  | [] => mret tt
  | index :: rest =>
      match files !! index with
      | None => raise IndexError
      | Some file =>
          move_four (destination train_cut_off val_cut_off count) file;;
          distribute files train_cut_off val_cut_off (S count) rest
      end
  end.

(** [open(path, 'w')] and the writes to it. *)
Definition write_text (d name text : string) : M W unit :=
  λ w, match tree w !! d with
       | None => (Raise (OSError 2), w)
       | Some entries =>
           (Ok tt, Disk (drand w) (<[d := <[name := Text text]> entries]> (tree w)))
       end.

Definition manifest_text (files : list string) : string :=
  foldr (λ file acc, "./" +:+ file +:+ newline +:+ acc) "" files.

Definition label_file (name d : string) : M W unit :=
  write_text LABELS_DIR (name +:+ ".txt") "";;
  files ← listdir (d +:+ ORIGINAL_SUBDIR);
  write_text LABELS_DIR (name +:+ ".txt") (manifest_text files).

Definition split_into_sets : M W unit :=
  files ← listdir (FULL_DIR +:+ ORIGINAL_SUBDIR);
  sequence ← shuffle (seq 0 (length files));
  train_cut_off ← cut_off (length files) PyFloat.lit_0_6;
  val_cut_off ← cut_off (length files) PyFloat.lit_0_8;
  distribute files train_cut_off val_cut_off 0 sequence;;
  label_file "train" TRAIN_DIR;;
  label_file "test" TEST_DIR;;
  label_file "val" VAL_DIR.

End Split.

(** *** create_lmdb *)

(** The image part of a caffe DocumentDatum. *)
Record DocumentDatum : Type := Datum {
  channels : Z;
  width : Z;
  height : Z;
  encoding : string;
  data : string
}.

(** What [create_lmdb] prints. *)
Inductive line : Type :=
| Processed (x : nat)
| Stat (entries : nat)
| Info
| Exc (e : exn)
| Traceback (e : exn)
| ErrorOccuredOn (im_file : string)
| DoneProcessing.

(** The environment of one store: the committed records, and stdout. *)
Record store : Type := Store {
  committed : gmap string string;
  stdout : list line
}.

Section CreateLmdb.
(** [os.listdir]; None when the directory is missing *)
Variable listdir : string → option (list string).
(** [cv2.imread(f, cv2.IMREAD_UNCHANGED)] *)
Variable imread_unchanged : string → option ndarray.
(** [plt.imsave] into a buffer; the flag is [cmap='gray'] *)
Variable imsave : ndarray → bool → string.
(** [doc_datum.SerializeToString()] *)
Variable SerializeToString : DocumentDatum → string.

Local Abbreviation W := store.

Definition print (l : line) : M W unit :=
  modify (λ w, Store (committed w) (stdout w ++ [l])).

Definition process_im (im_file : string) : option ndarray :=
  imread_unchanged im_file.

Definition package (im : option ndarray) : M W DocumentDatum :=
  match im with
  | None => raise AttributeError
  | Some (Color img) =>
      mret (Datum 3 (Z.of_nat (shape1 img)) (Z.of_nat (shape0 img)) "png"
              (imsave (Color img) false))
  | Some (Mono g) =>
      mret (Datum 1 (Z.of_nat (shape1 g)) (Z.of_nat (shape0 g)) "png"
              (imsave (Mono g) true))
  end.

(** ["%d:%d:%s" % (76547000 + x * 37, x, stem)] *)
Definition key (x : nat) (im_file : string) : string :=
  pretty (76547000 + Z.of_nat x * 37) +:+ ":" +:+ pretty (Z.of_nat x) +:+ ":"
    +:+ PyStr.splitext_root (PyStr.basename im_file).

(** A write transaction is the view it would commit. *)
Definition commit (txn : gmap string string) : M W unit :=
  modify (λ w, Store txn (stdout w)).
Definition begin : M W (gmap string string) :=
  λ w, (Ok (committed w), w).

(** [try: m except Exception as e: h e; raise] *)
Definition try_reraise {A} (m : M W A) (h : exn → M W unit) : M W A :=
  λ w, match m w with
       | (Ok a, w') => (Ok a, w')
       | (Raise e, w') =>
           match h e w' with
           | (Ok _, w'') => (Raise e, w'')
           | (Raise e', w'') => (Raise e', w'')
           end
       end.

(** The loop of [create_lmdb], from index [x] on. *)
Fixpoint records (images : string) (x : nat) (names : list string)
    (txn : gmap string string) : M W (gmap string string) :=
  match names with
  | [] => mret txn
  | imname :: rest =>
      (if negb (x =? 0)%nat && (x mod 10 =? 0)%nat
       then print (Processed x) else mret tt);;
      let im_file := PyStr.join images imname in
      txn ← try_reraise
              (let im := process_im im_file in
               doc_datum ← package im;
               let txn := <[key x im_file := SerializeToString doc_datum]> txn in
               if (x mod 10 =? 0)%nat then
                 commit txn;;
                 w ← get;
                 print (Stat (size (committed w)));;
                 print Info;;
                 begin
               else mret txn)
              (λ e, print (Exc e);; print (Traceback e);;
                    print (ErrorOccuredOn im_file));
      records images (S x) rest txn
  end.

Definition create_lmdb (images : string) : M W unit :=
  txn ← begin;
  match listdir images with
  | None => raise (OSError 2)
  | Some names =>
      txn ← records images 0 names txn;
      print DoneProcessing;;
      commit txn
  end.

End CreateLmdb.

End Crop.

(** ** document.py *)

Module Doc.
Import Crop.

(** The fields of a Document. *)
Record Document : Type := Fields {
  stain_level : Z;
  text_noisy_level : Z;
  result : option string;
  result_ground_truth : option string;
  output_dir : string;
  random_seed : Z;
  word_image_folder_list : list string
}.

(** What the degradation script says: the input alias, one
    gradient-degradations block and the save target. *)
Record script : Type := Script {
  alias_value : string;
  strength : string;
  density : string;
  iterations : string;
  source : string;
  save_file : string
}.

(** What [_generate_degradation_xml] returns: the two paths when the script
    was saved, None otherwise (the function ends without a return). *)
Inductive xml_result : Type :=
| Paths (xml_full_path output_full_path : string)
| NoPaths.

(** A file or a directory of the file system, known by the names that lead
    to it from the root. *)
Definition path : Type := list string.

(** What a path leads to. *)
Inductive kind : Type :=
| Absent
| Folder
| Regular.

(** The state of a worker process: the regular files and the directories
    of the file system, the two generators, what was printed, and the
    Document at hand. *)
Record state (rng : Type) : Type := State {
  files : gmap path content;
  folders : gset path;
  py_rand : rng;
  np_rand : rng;
  out : list string;
  err : list string;
  self : Document
}.
Arguments State {rng} files folders py_rand np_rand out err self.
Arguments files {rng} s.
Arguments folders {rng} s.
Arguments py_rand {rng} s.
Arguments np_rand {rng} s.
Arguments out {rng} s.
Arguments err {rng} s.
Arguments self {rng} s.

Definition ENOENT : Z := 2.
Definition EEXIST : Z := 17.
Definition ENOTDIR : Z := 20.
Definition EISDIR : Z := 21.

(** *** Pathname resolution

    Names are resolved as Linux resolves them, on a tree without symbolic or
    hard links in which every directory may be searched and written:
    component by component, from the root for a name that starts with a
    slash and from the working directory otherwise.  Every component but
    the last must lead to a directory. *)

Section Resolve.
Variable cwd : path.
Variable fl : gmap path content.
Variable fd : gset path.

Definition kind_of (p : path) : kind :=
  match p with
  | [] => Folder
  | _ :: _ =>
      if bool_decide (p ∈ fd) then Folder
      else if bool_decide (p ∈ dom fl) then Regular
      else Absent
  end.

Fixpoint walk (cur : path) (names : list string) : res path :=
  match names with
  | [] => Ok cur
  | name :: rest =>
      match kind_of cur with
      | Folder =>
          if (String.eqb name "" || String.eqb name ".")%bool then walk cur rest
          else if String.eqb name ".." then walk (removelast cur) rest
          else walk (cur ++ [name]) rest
      | Regular => Raise (OSError ENOTDIR)
      | Absent => Raise (OSError ENOENT)
      end
  end.

Definition resolve (name : string) : res path :=
  match name with
  | EmptyString => Raise (OSError ENOENT)
  | String c rest =>
      if Ascii.eqb c "/"%char then walk [] (PyStr.components rest)
      else walk cwd (PyStr.components name)
  end.

End Resolve.

(** A name without its trailing slashes, as [mkdir] takes it; a name of
    slashes only is the root. *)
Definition trim (name : string) : string :=
  match PyStr.rstrip_slash name with
  | EmptyString => name
  | stripped => stripped
  end.

(** The literals [0.1], [0.3] and [2] of the source. *)
Definition lit_0_1 : float := 0x1.999999999999ap-4%float.
Definition lit_0_3 : float := 0x1.3333333333333p-2%float.

(** What the class works with: the settings, the worker's number, the two
    generators, the corpora, the word-layout tracker, the image helpers and
    the degradation tool. *)
Class Env (rng tws rgba layer : Type) : Type := {
  (** settings.ini *)
  HANDWRITTEN_WORDS_DIR : string;
  BACKGROUND_IMAGES_DIR : string;
  STAIN_IMAGES_DIR : string;
  DEFAULT_BASE_OUTPUT_DIR : string;
  TMP_DIR : string;
  (** [os.getcwd()], which the code never changes *)
  cwd : path;
  (** [multiprocessing.current_process()._identity] *)
  identity : list Z;
  (** random: [_randbelow], [random()], [seed(n)] and the state [seed()]
      takes from the operating system *)
  randbelow : Z → rng → Z * rng;
  random_unit : rng → float * rng;
  seed_rng : Z → rng;
  urandom_rng : rng;
  (** numpy.random: [random()], [randint(-2, 3, size=3)], [seed(n)] *)
  np_random : rng → float * rng;
  np_randint3 : rng → (Z * Z * Z) * rng;
  np_seed_rng : Z → rng;
  (** [os.listdir] on the corpora, which the code only reads *)
  listdir : string → option (list string);
  (** text_writer_state.TextWriterState: the constructor and its two
      methods; the tracker may draw from both generators *)
  TextWriterState : nat * nat → tws;
  get_next_word_pos :
    nat * nat → tws * rng * rng → option (nat * nat) * (tws * rng * rng);
  get_padded_image : rgba → tws → layer * tws;
  (** image_util and OpenCV *)
  add_alpha_channel : option image → res rgba;
  rgba_shape : rgba → nat * nat;
  white_to_alpha : rgba → Z * Z * Z → rgba;
  GaussianBlur : rgba → rgba;
  alpha_composite : image → layer → image;
  cvtColor_BGR2GRAY : image → gray;
  (** [cv2.haveImageWriter(file)]: OpenCV has an encoder for the extension *)
  haveImageWriter : string → bool;
  (** [java -jar DivaDid.jar xml]: the files it leaves, None for a non-zero
      exit code *)
  DivaDid : string → gmap path content → option (gmap path content);
  (** [etree.tostring(root, pretty_print=True).decode("utf-8")] and
      ["{:.2f}".format] *)
  tostring : script → string;
  format_2f : float → string
}.

Section Document.
Context {rng tws rgba layer : Type} `{E : Env rng tws rgba layer}.

Local Abbreviation W := (state rng).

Definition set_self (f : Document → Document) : M W unit :=
  modify (λ s, State (files s) (folders s) (py_rand s) (np_rand s) (out s) (err s)
                 (f (self s))).
Definition set_files (f : gmap path content → gmap path content) : M W unit :=
  modify (λ s, State (f (files s)) (folders s) (py_rand s) (np_rand s) (out s)
                 (err s) (self s)).
Definition set_py_rand (g : rng) : M W unit :=
  modify (λ s, State (files s) (folders s) g (np_rand s) (out s) (err s) (self s)).
Definition set_np_rand (g : rng) : M W unit :=
  modify (λ s, State (files s) (folders s) (py_rand s) g (out s) (err s) (self s)).
Definition this : M W Document := λ s, (Ok (self s), s).

(** [dprint]: the line starts with the number of the worker, which only a
    pool worker has. *)
Definition dprint (to_stderr : bool) (text : string) : M W unit :=
  match identity with
  | [] => raise IndexError
  | i :: _ =>
      let l := pretty i +:+ ": " +:+ text in
      modify (λ s, if to_stderr
                   then State (files s) (folders s) (py_rand s) (np_rand s) (out s)
                          (err s ++ [l]) (self s)
                   else State (files s) (folders s) (py_rand s) (np_rand s)
                          (out s ++ [l]) (err s) (self s))
  end.

Definition print (text : string) : M W unit :=
  modify (λ s, State (files s) (folders s) (py_rand s) (np_rand s)
                 (out s ++ [text]) (err s) (self s)).

(** [random.randint(a, b)] and [random.choice(seq)] *)
Definition randint (a b : Z) : M W Z :=
  if b - a + 1 <=? 0 then raise ValueError
  else λ s, let '(r, g) := randbelow (b - a + 1) (py_rand s) in
            (Ok (a + r), State (files s) (folders s) g (np_rand s) (out s) (err s)
                           (self s)).
Definition choice (l : list string) : M W string :=
  match l with
  | [] => raise IndexError
  | _ => λ s, let '(r, g) := randbelow (Z.of_nat (length l)) (py_rand s) in
              match l !! Z.to_nat r with
              | Some x => (Ok x, State (files s) (folders s) g (np_rand s) (out s)
                                   (err s) (self s))
              | None => (Raise IndexError, s)
              end
  end.
Definition random_random : M W float :=
  λ s, let '(x, g) := random_unit (py_rand s) in
       (Ok x, State (files s) (folders s) g (np_rand s) (out s) (err s) (self s)).
(** [random.uniform(a, b)] is [a + (b - a) * random()] *)
Definition uniform (a b : float) : M W float :=
  x ← random_random; mret (a + (b - a) * x)%float.
Definition np_random_random : M W float :=
  λ s, let '(x, g) := np_random (np_rand s) in
       (Ok x, State (files s) (folders s) (py_rand s) g (out s) (err s) (self s)).

Definition os_listdir (d : string) : M W (list string) :=
  match listdir d with
  | Some l => mret l
  | None => raise (OSError ENOENT)
  end.
(** *** The calls into the file system *)

Definition lookup_name (name : string) (s : W) : res path :=
  resolve cwd (files s) (folders s) name.
Definition kind_at (p : path) (s : W) : kind := kind_of (files s) (folders s) p.

(** [os.stat]: what the name leads to; the three [os.path] tests take a
    name that does not resolve for a name that leads nowhere. *)
Definition stat (name : string) : M W kind :=
  λ s, match lookup_name name s with
       | Ok p => (Ok (kind_at p s), s)
       | Raise e => (Raise e, s)
       end.
Definition stat_or_absent (name : string) : M W kind :=
  λ s, match stat name s with
       | (Ok k, s') => (Ok k, s')
       | (Raise _, s') => (Ok Absent, s')
       end.
Definition path_exists (name : string) : M W bool :=
  k ← stat_or_absent name;
  mret match k with
       | Absent => false
       | _ => true
       end.
Definition isfile (name : string) : M W bool :=
  k ← stat_or_absent name;
  mret match k with
       | Regular => true
       | _ => false
       end.
Definition isdir (name : string) : M W bool :=
  k ← stat_or_absent name;
  mret match k with
       | Folder => true
       | _ => false
       end.

(** [os.mkdir(name)] *)
Definition mkdir (name : string) : M W unit :=
  λ s, match lookup_name (trim name) s with
       | Raise e => (Raise e, s)
       | Ok p =>
           match kind_at p s with
           | Absent =>
               (Ok tt, State (files s) ({[p]} ∪ folders s) (py_rand s) (np_rand s)
                         (out s) (err s) (self s))
           | _ => (Raise (OSError EEXIST), s)
           end
       end.

(** [os.makedirs(name)], with [exist_ok=False]: the missing directories
    above [name] are made first; a FileExistsError from making them is
    passed over.  Every call goes on with a proper prefix of its name, so
    the length of the name bounds the depth. *)
Fixpoint makedirs_from (fuel : nat) (name : string) : M W unit :=
  match fuel with
  | O => raise Diverges
  | S fuel' =>
      let '(head, tail) := PyStr.split name in
      let '(head, tail) := if String.eqb tail "" then PyStr.split head
                           else (head, tail) in
      let above : M W bool :=
        if (negb (String.eqb head "") && negb (String.eqb tail ""))%bool
        then
          path_exists head ≫= λ found : bool,
          if found then mret true
          else
            ((λ s, match makedirs_from fuel' head s with
                   | (Raise (OSError errno), s') =>
                       if errno =? EEXIST then (Ok tt, s')
                       else (Raise (OSError errno), s')
                   | r => r
                   end) : M W unit);;
            mret (negb (String.eqb tail "."))
        else mret true in
      above ≫= λ go : bool,
      if go then mkdir name else mret tt
  end.
Definition makedirs (name : string) : M W unit :=
  makedirs_from (S (PyStr.len name)) name.

(** [open(name, 'rb').read()] *)
Definition read_file (name : string) : M W content :=
  λ s, match lookup_name name s with
       | Raise e => (Raise e, s)
       | Ok p =>
           match kind_at p s, files s !! p with
           | Regular, Some c => (Ok c, s)
           | Folder, _ => (Raise (OSError EISDIR), s)
           | _, _ => (Raise (OSError ENOENT), s)
           end
       end.

(** [open(name, 'wb').write(c)]: the file is made, or overwritten. *)
Definition write_file (name : string) (c : content) : M W unit :=
  λ s, if PyStr.ends_with_slash name then
         match lookup_name (trim name) s with
         | Raise e => (Raise e, s)
         | Ok p =>
             match kind_at p s with
             | Regular => (Raise (OSError ENOTDIR), s)
             | _ => (Raise (OSError EISDIR), s)
             end
         end
       else
         match lookup_name name s with
         | Raise e => (Raise e, s)
         | Ok p =>
             match kind_at p s with
             | Folder => (Raise (OSError EISDIR), s)
             | _ =>
                 (Ok tt, State (<[p := c]> (files s)) (folders s) (py_rand s)
                           (np_rand s) (out s) (err s) (self s))
             end
         end.

(** [os.remove(name)] *)
Definition remove (name : string) : M W unit :=
  λ s, match lookup_name name s with
       | Raise e => (Raise e, s)
       | Ok p =>
           match kind_at p s with
           | Regular =>
               (Ok tt, State (delete p (files s)) (folders s) (py_rand s)
                         (np_rand s) (out s) (err s) (self s))
           | Folder => (Raise (OSError EISDIR), s)
           | Absent => (Raise (OSError ENOENT), s)
           end
       end.

(** [os.path.samefile], False when either name cannot be examined *)
Definition samefile (src dst : string) : M W bool :=
  λ s, (Ok match lookup_name src s, lookup_name dst s with
           | Ok p, Ok q =>
               match kind_at p s with
               | Absent => false
               | _ => bool_decide (p = q)
               end
           | _, _ => false
           end, s).

(** [shutil.copyfile(src, dst)] and [shutil.copy2(src, dst)] *)
Definition copyfile (src dst : string) : M W unit :=
  samefile src dst ≫= λ same : bool,
  if same then raise SameFileError
  else
    c ← read_file src;
    write_file dst c.
Definition copy2 (src dst : string) : M W unit :=
  isdir dst ≫= λ d : bool,
  let dst := if d then PyStr.join dst (PyStr.basename src) else dst in
  copyfile src dst.

(** [cv2.imread(path)]: three channels, None when there is no image *)
Definition imread (path : string) : M W (option image) :=
  λ s, (Ok match read_file path s with
           | (Ok (Image (Color img)), _) => Some img
           | (Ok (Image (Mono g)), _) => Some (map (map (λ v, (v, v, v))) g)
           | _ => None
           end, s).

(** [cv2.imwrite(path, img)]: it raises cv2.error when it is handed None or
    an empty array, and when the name has no extension it can encode; it
    returns False, and writes nothing, when the file cannot be opened. *)
Definition imwrite (path : string) (img : option ndarray) : M W bool :=
  match img with
  | None => raise Cv2Error
  | Some a =>
      if empty a then raise Cv2Error
      else if negb (haveImageWriter path) then raise Cv2Error
      else λ s, match write_file path (Image a) s with
                | (Ok _, s') => (Ok true, s')
                | (Raise _, s') => (Ok false, s')
                end
  end.

(** [open(path, 'w').write(text)] *)
Definition write_text (path text : string) : M W unit :=
  write_file path (Text text).

(** [try: os.makedirs(d) except OSError as e: if e.errno != EEXIST: raise] *)
Definition makedirs_exist_ok (d : string) : M W unit :=
  λ s, match makedirs d s with
       | (Raise (OSError errno), s') =>
           if errno =? EEXIST then (Ok tt, s') else (Raise (OSError errno), s')
       | r => r
       end.

(** *** _assign_random_seed *)

(** The [while condition] loop; [tries] counts the iterations done. *)
Fixpoint assign_loop (fuel : nat) (tries : Z) : M W unit :=
  match fuel with
  | O => raise Diverges
  | S fuel' =>
      if 10 <? tries then raise RuntimeError
      else
        seed ← randint 10000 100000;
        set_self (λ d, Fields (stain_level d) (text_noisy_level d) (result d)
                         (result_ground_truth d) (output_dir d) seed
                         (word_image_folder_list d));;
        d ← this;
        let file := "img_" +:+ pretty seed +:+ ".png" in
        let file := output_dir d +:+ "/" +:+ file in
        isfile file ≫= λ condition : bool,
        if condition then assign_loop fuel' (tries + 1) else mret tt
  end.

Definition _assign_random_seed (fuel : nat) : M W unit :=
  set_py_rand urandom_rng;;
  assign_loop fuel 0.

(** *** _gather_data_sources *)

Definition _gather_data_sources : M W unit :=
  set_self (λ d, Fields (stain_level d) (text_noisy_level d) (result d)
                   (result_ground_truth d) (output_dir d) (random_seed d)
                   [HANDWRITTEN_WORDS_DIR]).

(** *** __init__ *)

(** [raise OSError(message)] carries no errno; it is written [OSError 0]. *)
Definition __init__ (fuel : nat) (stain_level noise_level : Z) (seed : option Z)
    (output_loc : string) : M W unit :=
  d1 ← isdir HANDWRITTEN_WORDS_DIR;
  if negb d1 then raise (OSError 0) else
  d2 ← isdir BACKGROUND_IMAGES_DIR;
  if negb d2 then raise (OSError 0) else
  d3 ← isdir STAIN_IMAGES_DIR;
  if negb d3 then raise (OSError 0) else
  set_self (λ _, Fields stain_level noise_level None None output_loc 0 []);;
  dprint false ("Output_dir: " +:+ output_loc);;
  match seed with
  | Some n =>
      set_self (λ d, Fields (Doc.stain_level d) (text_noisy_level d) (result d)
                       (result_ground_truth d) (output_dir d) n
                       (word_image_folder_list d))
  | None => _assign_random_seed fuel
  end;;
  d ← this;
  set_py_rand (seed_rng (random_seed d));;
  (if (0 <=? random_seed d) && (random_seed d <? 2 ^ 32)
   then set_np_rand (np_seed_rng (random_seed d))
   else raise ValueError);;
  dprint false ("Using seed " +:+ pretty (random_seed d));;
  _gather_data_sources.

(** *** _generate_degradation_xml *)

Definition _generate_degradation_xml (base_image : string) (index : Z)
    (save : bool) (save_location : option string) : M W xml_result :=
  d ← this;
  let output_file_name :=
    "degraded_" +:+ pretty (random_seed d) +:+ "_" +:+ pretty index +:+ ".png" in
  let xml_file_name :=
    "degradation_script_" +:+ pretty (random_seed d) +:+ "_" +:+ pretty index
      +:+ ".xml" in
  let level := PyFloat.of_int (Doc.stain_level d) in
  let stain_strength_low_bound := (lit_0_1 * level)%float in
  let stain_strength_high_bound := (lit_0_1 + lit_0_1 * level)%float in
  let stain_density_low_bound := (2 + lit_0_1 * level)%float in
  let stain_density_high_bound := (2 + lit_0_1 * level)%float in
  let '(xml_full_path, output_full_path) :=
    match save_location with
    | None => (PyStr.join "data/xml/" xml_file_name,
               PyStr.join "data/output/" output_file_name)
    | Some loc => (PyStr.join loc xml_file_name, PyStr.join loc output_file_name)
    end in
  strength ← uniform stain_strength_low_bound stain_strength_high_bound;
  density ← uniform stain_density_low_bound stain_density_high_bound;
  let root := Script base_image (format_2f strength) (format_2f density) "750"
                STAIN_IMAGES_DIR output_full_path in
  if save then
    write_text xml_full_path (tostring root);;
    mret (Paths xml_full_path output_full_path)
  else mret NoPaths.

(** *** _add_text_fade and _add_text *)

Definition add3 (c d : Z * Z * Z) : Z * Z * Z :=
  let '(c0, c1, c2) := c in let '(d0, d1, d2) := d in (c0 + d0, c1 + d1, c2 + d2).

(** [np.full((h + 50, w + 50, 3), 255)] with the word pasted at (25, 25) *)
Definition white : pixel := (255, 255, 255).
Definition pad25 (word : image) : image :=
  let w := shape1 word in
  repeat (repeat white (w + 50)) 25
  ++ map (λ row, repeat white 25 ++ row ++ repeat white 25) word
  ++ repeat (repeat white (w + 50)) 25.

Definition tracker_step (shape : nat * nat) (state : tws) : M W (option (nat * nat) * tws) :=
  λ s, let '(pos, (state', g, n)) :=
         get_next_word_pos shape (state, py_rand s, np_rand s) in
       (Ok (pos, state'),
        State (files s) (folders s) g n (out s) (err s) (self s)).

Definition color_step (color : Z * Z * Z) : M W (Z * Z * Z) :=
  λ s, let '(d, g) := np_randint3 (np_rand s) in
       (Ok (add3 color d),
        State (files s) (folders s) (py_rand s) g (out s) (err s) (self s)).

Definition lift_res {A} (r : res A) : M W A :=
  match r with
  | Ok a => mret a
  | Raise e => raise e
  end.

(** The [while True] loop of [_add_text_fade]. *)
Fixpoint fade_words (fuel : nat) (word_rand_folder : string) (color : Z * Z * Z)
    (state : tws) (all_words : option layer) : M W (option layer) :=
  match fuel with
  | O => raise Diverges
  | S fuel' =>
      names ← os_listdir word_rand_folder;
      word_image_name ← choice names;
      let word_full_path := PyStr.join word_rand_folder word_image_name in
      word ← imread word_full_path;
      match word with
      | None => raise AttributeError
      | Some word =>
          word ← lift_res (add_alpha_channel (Some (pad25 word)));
          '(pos, state) ← tracker_step (rgba_shape word) state;
          match pos with
          | None => mret all_words
          | Some _ =>
              color ← color_step color;
              let word := white_to_alpha word color in
              let word := GaussianBlur word in
              let '(all_words, state) := get_padded_image word state in
              fade_words fuel' word_rand_folder color state (Some all_words)
          end
      end
  end.

Definition _add_text_fade (fuel : nat) (img : image) : M W image :=
  let color := (53, 52, 46) in
  let state := TextWriterState (shape0 img, shape1 img) in
  d ← this;
  word_rand_folder ← choice (word_image_folder_list d);
  all_words ← fade_words fuel word_rand_folder color state None;
  match all_words with
  | Some all_words => mret (alpha_composite img all_words)
  | None => mret img
  end.

(** The [while True] loop of [_add_text]. *)
Fixpoint text_words (fuel : nat) (word_rand_folder : string) (color : Z * Z * Z)
    (state : tws) (all_words : option layer) : M W (option layer) :=
  match fuel with
  | O => raise Diverges
  | S fuel' =>
      names ← os_listdir word_rand_folder;
      word_image_name ← choice names;
      let word_full_path := PyStr.join word_rand_folder word_image_name in
      word ← imread word_full_path;
      word ← lift_res (add_alpha_channel word);
      '(pos, state) ← tracker_step (rgba_shape word) state;
      match pos with
      | None => mret all_words
      | Some _ =>
          color ← color_step color;
          let word := white_to_alpha word color in
          let '(all_words, state) := get_padded_image word state in
          text_words fuel' word_rand_folder color state (Some all_words)
      end
  end.

(** [cv2.threshold(g, 10, 1, cv2.THRESH_BINARY)] *)
Definition threshold_10_1 (g : gray) : gray :=
  map (map (λ v, if 10 <? v then 1 else 0)) g.

(** [np.ones((h, w, 3), np.uint8)] *)
Definition ones (h w : nat) : image := repeat (repeat (1, 1, 1) w) h.

Definition _add_text (fuel : nat) (img : image) : M W (option image) :=
  let color := (53, 52, 46) in
  let state := TextWriterState (shape0 img, shape1 img) in
  let ground_truth := ones (shape0 img) (shape1 img) in
  d ← this;
  word_rand_folder ← choice (word_image_folder_list d);
  all_words ← text_words fuel word_rand_folder color state None;
  match all_words with
  | None => print "GOODBYE";; mret None
  | Some all_words =>
      let ground_truth_word := all_words in
      let img := alpha_composite img all_words in
      let ground_truth := alpha_composite ground_truth ground_truth_word in
      let ground_truth := cvtColor_BGR2GRAY ground_truth in
      let ground_truth := threshold_10_1 ground_truth in
      d ← this;
      let path := PyStr.join TMP_DIR (pretty (random_seed d) +:+ "_gt.png") in
      set_self (λ d, Fields (stain_level d) (text_noisy_level d) (result d)
                       (Some path) (output_dir d) (random_seed d)
                       (word_image_folder_list d));;
      imwrite path (Some (Mono ground_truth));;
      mret (Some img)
  end.

(** *** create *)

Definition set_result (path : string) : M W unit :=
  set_self (λ d, Fields (stain_level d) (text_noisy_level d) (Some path)
                   (result_ground_truth d) (output_dir d) (random_seed d)
                   (word_image_folder_list d)).

Definition check_call_DivaDid (xml : string) : M W unit :=
  λ s, match DivaDid xml (files s) with
       | Some fs => (Ok tt, State fs (folders s) (py_rand s) (np_rand s) (out s)
                              (err s) (self s))
       | None => (Raise CalledProcessError, s)
       end.

(** [if np.random.random() < 0.3: img = self._add_text_fade(img)] and then
    [img = self._add_text(img)] *)
Definition add_layers (fuel : nat) (img : image) : M W (option image) :=
  x ← np_random_random;
  img ← (if PrimFloat.ltb x lit_0_3 then _add_text_fade fuel img else mret img);
  _add_text fuel img.

Definition unpack (r : xml_result) : M W (string * string) :=
  match r with
  | Paths a b => mret (a, b)
  | NoPaths => raise TypeError
  end.

Definition create (fuel : nat) (bypass : bool) : M W unit :=
  let base_working_dir := TMP_DIR in
  names ← os_listdir BACKGROUND_IMAGES_DIR;
  bg_image_name ← choice names;
  let bg_full_path := PyStr.join BACKGROUND_IMAGES_DIR bg_image_name in
  if bypass then
    dprint false ("Adding text to image " +:+ bg_full_path);;
    img ← imread bg_full_path;
    match img with
    | None => mret tt
    | Some img =>
        img ← add_layers fuel img;
        d ← this;
        let filename := pretty (random_seed d) +:+ "_augmented.png" in
        let path := PyStr.join base_working_dir filename in
        imwrite path (Color <$> img);;
        set_result path
    end
  else
    dprint false "- Generating degraded image - pass 1";;
    r ← _generate_degradation_xml bg_full_path 1 true (Some base_working_dir);
    '(first_xml, first_image) ← unpack r;
    check_call_DivaDid first_xml;;
    d ← this;
    dprint false ("-" +:+ pretty (random_seed d) +:+ " Adding text to image "
                    +:+ bg_full_path +:+ " -");;
    img ← imread first_image;
    match img with
    | None => remove first_xml;; remove first_image
    | Some img =>
        img ← add_layers fuel img;
        let filename := pretty (random_seed d) +:+ "_augmented.png" in
        let path := PyStr.join base_working_dir filename in
        imwrite path (Color <$> img);;
        dprint false "- Generating degraded image - pass 2";;
        r ← _generate_degradation_xml path 2 true (Some base_working_dir);
        '(second_xml, second_image) ← unpack r;
        check_call_DivaDid second_xml;;
        set_result second_image;;
        remove first_xml;;
        remove second_xml;;
        remove first_image
    end.

(** *** save and save_ground_truth *)

Definition save (file : option string) : M W unit :=
  d ← this;
  match result d with
  | None => dprint true "Trying to save document before it has been generated."
  | Some res_path =>
      let file := match file with
                  | None => "img_" +:+ pretty (random_seed d) +:+ ".png"
                  | Some f => f
                  end in
      let file := PyStr.join (output_dir d) file in
      makedirs_exist_ok (output_dir d);;
      copy2 res_path file;;
      dprint false ("File saved to " +:+ file);;
      remove res_path
  end.

Definition save_ground_truth (file : option string) : M W unit :=
  d ← this;
  match result d with
  | None => dprint true "Trying to save document before it has been generated."
  | Some _ =>
      let file := match file with
                  | None => "img_" +:+ pretty (random_seed d) +:+ "_gt.png"
                  | Some f => f
                  end in
      let file := PyStr.join (output_dir d) file in
      makedirs_exist_ok (output_dir d);;
      match result_ground_truth d with
      | None => raise TypeError
      | Some gt_path => copy2 gt_path file
      end;;
      dprint false ("File saved to " +:+ file)
  end.

End Document.

End Doc.

(** * Properties *)

(** ** Floats *)

Module PyFloatFacts.
Import PyFloat.

Lemma gt_floor (c v k q : Z) :
  0 < k → v / k = q → (v <? c * k) = (q <? c).
Proof.
  intros Hk <-.
  destruct (Z.ltb_spec v (c * k)) as [H|H]; symmetry.
  - apply Z.ltb_lt. apply Z.div_lt_upper_bound; lia.
  - apply Z.ltb_ge. apply Z.div_le_lower_bound; lia.
Qed.

Lemma hundredth (q c : Z) : (q / 100 <? c) = (q <? 100 * c).
Proof.
  pose proof (Z.div_mod q 100 ltac:(lia)).
  pose proof (Z.mod_pos_bound q 100 ltac:(lia)).
  destruct (Z.ltb_spec (q / 100) c), (Z.ltb_spec q (100 * c)); auto; lia.
Qed.

(** The float [x] is not negative and its integer part is [q]. *)
Definition floor_is (x : float) (q : Z) : bool :=
  match Prim2SF x with
  | S754_zero _ => q =? 0
  | S754_finite false m e =>
      if 0 <=? e then Z.pos m * 2 ^ e =? q else Z.pos m / 2 ^ (- e) =? q
  | _ => false
  end.

Lemma int_gt_floor (x : float) (q c : Z) :
  floor_is x q = true → int_gt c x = (q <? c).
Proof.
  unfold floor_is, int_gt. destruct (Prim2SF x) as [s|s| |[] m e]; try done.
  - intros ->%Z.eqb_eq. done.
  - destruct (Z.leb_spec 0 e); intros <-%Z.eqb_eq; [done|].
    apply gt_floor; [|done]. apply Z.pow_pos_nonneg; lia.
Qed.

End PyFloatFacts.

(** ** Strings *)

Module PyStrFacts.
Import PyStr.

Lemma prefix_app (a b : string) : String.prefix a (a +:+ b) = true.
Proof.
  induction a as [|c a IH]; simpl; [by destruct b|].
  destruct (ascii_dec c c); [done|congruence].
Qed.

Lemma contains_prefix (sub s : string) :
  String.prefix sub s = true → contains sub s = true.
Proof. destruct s; simpl; intros ->; done. Qed.

Lemma contains_app (sub a b : string) : contains sub (a +:+ sub +:+ b) = true.
Proof.
  induction a as [|c a IH].
  - change ("" +:+ sub +:+ b) with (sub +:+ b). apply contains_prefix, prefix_app.
  - simpl. rewrite IH. apply orb_true_r.
Qed.

Lemma prefix_inv (a s : string) :
  String.prefix a s = true → ∃ b, s = a +:+ b.
Proof.
  revert s. induction a as [|c a IH]; intros s.
  - exists s. done.
  - destruct s as [|d s]; simpl; [discriminate|].
    destruct (ascii_dec c d) as [->|]; [|discriminate].
    intros [b ->]%IH. by exists b.
Qed.

Lemma contains_inv (sub s : string) :
  contains sub s = true → ∃ a b, s = a +:+ sub +:+ b.
Proof.
  induction s as [|c s IH]; cbn [contains].
  - rewrite orb_false_r. intros [b Hb]%prefix_inv. by exists "", b.
  - intros [[b Hb]%prefix_inv | [a [b ->]]%IH]%orb_true_iff.
    + exists "", b. done.
    + exists (String c a), b. done.
Qed.

Lemma str_app_assoc (a b c : string) : (a +:+ b) +:+ c = a +:+ (b +:+ c).
Proof. induction a; simpl; congruence. Qed.

Lemma str_app_empty_r (a : string) : a +:+ "" = a.
Proof. induction a; simpl; congruence. Qed.

(** A name without a slash is its own basename, after any directory. *)
Lemma basename_from_plain (acc f : string) :
  contains "/" f = false → basename_from acc f = acc +:+ f.
Proof.
  revert acc. induction f as [|c f IH]; intros acc; simpl.
  - by rewrite str_app_empty_r.
  - intros [H1 H2]%orb_false_iff.
    destruct (Ascii.eqb_spec c "/") as [->|_].
    + simpl in H1. by destruct f.
    + rewrite IH by done. by rewrite str_app_assoc.
Qed.

Lemma basename_from_dir (acc d f : string) :
  basename_from acc (d +:+ "/" +:+ f) = basename_from "" f.
Proof.
  revert acc. induction d as [|c d IH]; intros acc; simpl; [done|].
  destruct (Ascii.eqb c "/"); apply IH.
Qed.

Lemma basename_in_dir (d f : string) :
  contains "/" f = false → basename (d +:+ "/" +:+ f) = f.
Proof.
  intros H. unfold basename. rewrite basename_from_dir.
  by rewrite basename_from_plain.
Qed.

Lemma prefix_char (c d : ascii) (s : string) :
  String.prefix (String c "") (String d s) = bool_decide (c = d).
Proof.
  simpl. destruct (ascii_dec c d), s; symmetry;
    (by apply bool_decide_eq_true) || (by apply bool_decide_eq_false).
Qed.

Lemma contains_char_app (c : ascii) (a b : string) :
  contains (String c "") (a +:+ b)
  = contains (String c "") a || contains (String c "") b.
Proof.
  induction a as [|d a IH]; [done|].
  cbn [String.append contains]. rewrite !prefix_char, IH. by rewrite orb_assoc.
Qed.

Lemma basename_from_no_slash (acc p : string) :
  contains "/" acc = false → contains "/" (basename_from acc p) = false.
Proof.
  revert acc. induction p as [|c p IH]; intros acc Hacc; simpl; [done|].
  destruct (Ascii.eqb_spec c "/") as [->|Hc]; apply IH; [done|].
  rewrite contains_char_app, Hacc. cbn [contains orb].
  rewrite prefix_char, bool_decide_false by congruence. done.
Qed.

(** [basename] is idempotent. *)
Lemma basename_idem (p : string) : basename (basename p) = basename p.
Proof.
  unfold basename at 1. rewrite basename_from_plain; [done|].
  by apply basename_from_no_slash.
Qed.

End PyStrFacts.

(** ** os.path.split *)

Module PathFacts.
Import PyStr.

Lemma len_app (a b : string) : len (a +:+ b) = (len a + len b)%nat.
Proof. unfold len. induction a as [|c a IH]; [done|]. cbn. by rewrite IH. Qed.

Lemma len_basename_from (acc p : string) :
  (len (basename_from acc p) ≤ len acc + len p)%nat.
Proof.
  revert acc. induction p as [|c p IH]; intros acc; cbn [basename_from].
  - unfold len. cbn. lia.
  - destruct (Ascii.eqb c "/").
    + specialize (IH ""). unfold len in *. cbn in *. lia.
    + specialize (IH (acc +:+ String c "")). rewrite len_app in IH.
      unfold len in *. cbn in *. lia.
Qed.

Lemma len_substring (n : nat) (s : string) :
  (len (String.substring 0 n s) ≤ n)%nat.
Proof.
  revert n. induction s as [|c s IH]; intros [|n]; cbn; try lia.
  specialize (IH n). unfold len in *. lia.
Qed.

Lemma len_rstrip_slash (s : string) : (len (rstrip_slash s) ≤ len s)%nat.
Proof.
  induction s as [|c s IH]; [done|]. cbn [rstrip_slash].
  destruct (rstrip_slash s) as [|d r].
  - destruct (Ascii.eqb c "/"); unfold len in *; cbn in *; lia.
  - unfold len in *. cbn in *. lia.
Qed.

(** The two parts [os.path.split] gives are no longer than the path. *)
Lemma len_split (p : string) :
  (len (fst (split p)) + len (snd (split p)) ≤ len p)%nat.
Proof.
  unfold split. cbn [fst snd].
  pose proof (len_basename_from "" p) as Hb. fold (basename p) in Hb.
  change (len "") with 0%nat in Hb.
  pose proof (len_substring (len p - len (basename p)) p) as Hs.
  pose proof (len_rstrip_slash (String.substring 0 (len p - len (basename p)) p)) as Hr.
  destruct (rstrip_slash _); lia.
Qed.

End PathFacts.

(** ** Arrays *)

Module ArrayFacts.

Lemma length_slice {A} (a b : nat) (l : list A) :
  length (slice a b l) = ((b - a) `min` (length l - a))%nat.
Proof. unfold slice. by rewrite length_take, length_drop. Qed.

Lemma has_shape_slice2 {A} (h w r c : nat) (arr : list (list A)) :
  has_shape h w arr →
  has_shape (256 `min` (h - r))%nat (256 `min` (w - c))%nat
    (slice2 r (r + 256) c (c + 256) arr).
Proof.
  intros [Hh Hw]. unfold has_shape, slice2. split.
  - rewrite length_map, length_slice, Hh. lia.
  - apply Forall_map. unfold slice at 2.
    apply Forall_take, Forall_drop.
    eapply Forall_impl; [exact Hw|]. intros row Hrow. cbv beta in *.
    rewrite length_slice, Hrow. lia.
Qed.

Lemma has_shape_map {A B} (f : A → B) (h w : nat) (arr : list (list A)) :
  has_shape h w arr → has_shape h w (map (map f) arr).
Proof.
  intros [Hh Hw]. split; [by rewrite length_map|].
  apply Forall_map. eapply Forall_impl; [exact Hw|].
  intros row. simpl. by rewrite length_map.
Qed.

Lemma has_shape_shape0 {A} (h w : nat) (arr : list (list A)) :
  has_shape h w arr → shape0 arr = h.
Proof. by intros [? _]. Qed.

Lemma has_shape_shape1 {A} (h w : nat) (arr : list (list A)) :
  has_shape h w arr → (0 < h)%nat → shape1 arr = w.
Proof.
  intros [Hh Hw] Hpos. destruct arr as [|row arr]; simpl in *; [lia|].
  by inversion Hw.
Qed.

End ArrayFacts.

(** ** convert *)

Module ConvertFacts.
Import Crop PyFloatFacts PyStrFacts ArrayFacts.

(** The double [0.01 * h * 256] has the integer part of [256 h / 100], for
    every height a crop can have. *)
Definition threshold_floor_ok (h : nat) : bool :=
  floor_is (threshold h 256) (Z.of_nat h * 256 / 100).

Lemma threshold_floor_all : forallb threshold_floor_ok (seq 0 257) = true.
Proof. vm_compute. reflexivity. Qed.

Lemma threshold_empty : floor_is (threshold 0 0) 0 = true.
Proof. vm_compute. reflexivity. Qed.

(** On the crops [convert] can make, the float comparison of the source
    decides [pixel_count > area / 100] exactly. *)
Lemma enough_edges_exact (h : nat) (crop : image) (c : Z) :
  (h ≤ 256)%nat → has_shape h 256 crop →
  enough_edges c crop
  = (Z.of_nat (shape0 crop) * Z.of_nat (shape1 crop) <? 100 * c).
Proof.
  intros Hh Hs. unfold enough_edges.
  destruct (decide (h = 0%nat)) as [->|Hpos].
  - destruct Hs as [Hlen _]. destruct crop; [|done]. simpl shape0. simpl shape1.
    rewrite (int_gt_floor _ 0 c threshold_empty).
    change (Z.of_nat 0 * Z.of_nat 0) with 0.
    destruct (Z.ltb_spec 0 c), (Z.ltb_spec 0 (100 * c)); auto; lia.
  - rewrite (has_shape_shape0 _ _ _ Hs), (has_shape_shape1 _ _ _ Hs) by lia.
    pose proof threshold_floor_all as Hall.
    rewrite forallb_forall in Hall.
    specialize (Hall h). rewrite (int_gt_floor _ _ c (Hall ltac:(apply in_seq; lia))).
    rewrite hundredth. done.
Qed.

Section Facts.
Context {rng : Type}.
Variable randbelow : Z → rng → Z * rng.
Variable imread : string → option image.
Variable Canny_count : image → option Z.
Variable cvtColor_BGR2GRAY : image → gray.
Variable haveImageWriter : string → bool.
Variable writable : string → bool.

Local Abbreviation imwrite := (imwrite haveImageWriter writable).
Local Abbreviation attempts := (attempts randbelow Canny_count haveImageWriter writable).
Local Abbreviation emit := (emit cvtColor_BGR2GRAY haveImageWriter writable).
Local Abbreviation convert :=
  (convert randbelow imread Canny_count cvtColor_BGR2GRAY haveImageWriter writable).

(** The offset one attempt uses, and the generator after its two draws. *)
Definition draw (original : image) (g : rng) : nat * rng :=
  let '(_, g1) := randbelow (Z.of_nat (shape0 original) - 256 - 0 + 1) g in
  let '(r, g2) := randbelow (Z.of_nat (shape1 original) - 256 - 0 + 1) g1 in
  (Z.to_nat (0 + r), g2).

(** The generator after [n] attempts that did not end the loop. *)
Fixpoint rng_after (n : nat) (original : image) (g : rng) : rng :=
  match n with
  | O => g
  | S n' => rng_after n' original (snd (draw original g))
  end.

(** The offset, the image crop and the ground-truth crop of attempt [k]
    (counted from 0), when the attempts before it did not end the loop. *)
Definition offset (k : nat) (original : image) (g : rng) : nat :=
  fst (draw original (rng_after k original g)).
Definition crop_at (k : nat) (original : image) (g : rng) : image :=
  crop_original original (offset k original g).
Definition gt_at (k : nat) (original gt : image) (g : rng) : gray :=
  crop_gt gt (offset k original g).

(** Attempt [k] finds too few edge pixels: at most one hundredth of the
    crop's area. *)
Definition sparse (k : nat) (original : image) (g : rng) : Prop :=
  ∃ c, Canny_count (crop_at k original g) = Some c ∧
       100 * c ≤ Z.of_nat (shape0 (crop_at k original g))
                 * Z.of_nat (shape1 (crop_at k original g)).

Lemma rng_after_S (n : nat) (original : image) (g : rng) :
  rng_after (S n) original g = snd (draw original (rng_after n original g)).
Proof.
  revert g. induction n as [|n IH]; intros g; [done|].
  change (rng_after (S (S n)) original g)
    with (rng_after (S n) original (snd (draw original g))).
  by rewrite IH.
Qed.

(** The four files of an accepted patch. *)
Definition patch_files (file : string) (grayscale : bool) (crop : image) (gtc : gray)
    : list (string * ndarray) :=
  let weights := Mono (map (map (λ _, 128)) crop) in
  [ (FULL_DIR +:+ ORIGINAL_SUBDIR +:+ file,
     if grayscale then Mono (cvtColor_BGR2GRAY crop) else Color crop);
    (FULL_DIR +:+ GT_SUBDIR +:+ file, Mono gtc);
    (FULL_DIR +:+ RECALL_SUBDIR +:+ file, weights);
    (FULL_DIR +:+ PRECISION_SUBDIR +:+ file, weights) ].

(** [cv2.imwrite] stores this array under this name: the array is not
    empty, the name has an extension OpenCV encodes, and the file can be
    opened for writing. *)
Definition writes (file : string) (a : ndarray) : Prop :=
  empty a = false ∧ haveImageWriter file = true ∧ writable file = true.

(** All four files of a patch can be written. *)
Definition patch_writable (file : string) (grayscale : bool) (crop : image)
    (gtc : gray) : Prop :=
  Forall (λ fa, writes (fst fa) (snd fa)) (patch_files file grayscale crop gtc).

Lemma imwrite_writes file a (w : world rng) :
  writes file a →
  imwrite file (Some a) w = (Ok true, World (rand w) (written w ++ [(file, a)])).
Proof. intros (He & Hc & Hw). unfold Crop.imwrite. by rewrite He, Hc, Hw. Qed.



(** Whatever [cv2.imwrite] does, it writes this one file or nothing, and
    leaves the generator alone. *)
Lemma imwrite_cases file arr (w : world rng) :
  (∃ r, imwrite file arr w = (r, w))
  ∨ (∃ a, arr = Some a
          ∧ imwrite file arr w
            = (Ok true, World (rand w) (written w ++ [(file, a)]))).
Proof.
  unfold Crop.imwrite. destruct arr as [a|]; [|left; by eexists].
  destruct (empty a); [left; by eexists|].
  destruct (haveImageWriter file); [|left; by eexists].
  destruct (writable file); [right; by eexists|left; by eexists].
Qed.

(** One attempt, unfolded. *)
Lemma attempts_cons x xs file gt_file original gt w :
  (256 ≤ shape0 original)%nat → (256 ≤ shape1 original)%nat →
  attempts (x :: xs) file gt_file original (Some gt) w =
  let '(y, g) := draw original (rand w) in
  let crop := crop_original original y in
  let gtc := crop_gt gt y in
  match Canny_count crop with
  | None => (Raise Cv2Error, World g (written w))
  | Some c =>
      if enough_edges c crop
      then (Ok (Break file gt_file crop gtc), World g (written w))
      else if (x =? 4)%nat
      then (imwrite (GARBAGE_DIR +:+ PyStr.basename file) (Some (Color crop));;
            imwrite (GARBAGE_DIR +:+ PyStr.basename gt_file) (Some (Mono gtc));;
            mret Return) (World g (written w))
      else attempts xs file gt_file original (Some gt) (World g (written w))
  end.
Proof.
  intros H0 H1. unfold draw. cbn [Crop.attempts].
  unfold mbind, M_bind, bind, randint.
  destruct (Z.leb_spec (Z.of_nat (shape0 original) - 256 - 0 + 1) 0); [lia|].
  destruct (randbelow _ (rand w)) as [r1 g1].
  destruct (Z.leb_spec (Z.of_nat (shape1 original) - 256 - 0 + 1) 0); [lia|].
  cbn [rand written].
  destruct (randbelow _ g1) as [r2 g2]. cbn [rand written].
  destruct (Canny_count _) as [c|]; [|done].
  destruct (enough_edges c _); [done|].
  by destruct (x =? 4)%nat.
Qed.

(** The generator keeps its contract: [_randbelow n] is in [0, n). *)
Hypothesis randbelow_range :
  ∀ n g, 0 < n → 0 ≤ fst (randbelow n g) < n.

Lemma draw_range (original : image) (g : rng) :
  (256 ≤ shape0 original)%nat → (256 ≤ shape1 original)%nat →
  (fst (draw original g) + 256 ≤ shape1 original)%nat.
Proof.
  intros H0 H1. unfold draw.
  destruct (randbelow _ g) as [r1 g1].
  pose proof (randbelow_range (Z.of_nat (shape1 original) - 256 - 0 + 1) g1
                ltac:(lia)) as Hr.
  destruct (randbelow _ g1) as [r2 g2]. simpl in *. lia.
Qed.

(** Every crop has 256 columns and at most 256 rows. *)
Lemma crop_shape (h wd y : nat) (original : image) :
  has_shape h wd original → (y + 256 ≤ wd)%nat →
  has_shape (256 `min` (h - y))%nat 256 (crop_original original y).
Proof.
  intros Hs Hy. unfold crop_original.
  pose proof (has_shape_slice2 h wd y y original Hs) as Hc.
  by replace (256 `min` (wd - y))%nat with 256%nat in Hc by lia.
Qed.

Lemma crop_at_shape (h wd k : nat) (original : image) (g : rng) :
  has_shape h wd original → (256 ≤ h)%nat → (256 ≤ wd)%nat →
  ∃ h', (h' ≤ 256)%nat ∧ has_shape h' 256 (crop_at k original g).
Proof.
  intros Hs Hh Hw. exists (256 `min` (h - offset k original g))%nat.
  split; [lia|]. apply (crop_shape h wd); [done|].
  pose proof (has_shape_shape0 _ _ _ Hs).
  pose proof (has_shape_shape1 _ _ _ Hs ltac:(lia)).
  unfold offset.
  pose proof (draw_range original (rng_after k original g)). lia.
Qed.

(** On every attempt the test is [100 * pixel_count > area], exactly. *)
Lemma enough_edges_at (h wd k : nat) (original : image) (g : rng) (c : Z) :
  has_shape h wd original → (256 ≤ h)%nat → (256 ≤ wd)%nat →
  enough_edges c (crop_at k original g)
  = (Z.of_nat (shape0 (crop_at k original g))
     * Z.of_nat (shape1 (crop_at k original g)) <? 100 * c).
Proof.
  intros Hs Hh Hw.
  destruct (crop_at_shape h wd k original g Hs Hh Hw) as (h' & Hh' & Hs').
  apply (enough_edges_exact h' _ c Hh' Hs').
Qed.

(** Attempts that find too few edges are passed over. *)
Lemma attempts_skip (n x0 : nat) (xs : list nat) (h wd : nat) file gt_file original gt w :
  has_shape h wd original → (256 ≤ h)%nat → (256 ≤ wd)%nat →
  (x0 + n ≤ 4)%nat →
  (∀ j, (j < n)%nat → sparse j original (rand w)) →
  attempts (seq x0 n ++ xs) file gt_file original (Some gt) w
  = attempts xs file gt_file original (Some gt)
      (World (rng_after n original (rand w)) (written w)).
Proof.
  intros Hs Hh Hw.
  pose proof (has_shape_shape0 _ _ _ Hs) as E0.
  pose proof (has_shape_shape1 _ _ _ Hs ltac:(lia)) as E1.
  revert x0 w. induction n as [|n IH]; intros x0 w Hx Hsparse.
  - by destruct w.
  - cbn [seq app]. rewrite attempts_cons by lia.
    destruct (Hsparse 0%nat ltac:(lia)) as (c & Hc & Hle).
    unfold crop_at, offset in Hc, Hle. cbn [rng_after] in Hc, Hle.
    destruct (draw original (rand w)) as [y g] eqn:Hd. cbn [fst] in Hc, Hle.
    cbv zeta. rewrite Hc.
    destruct (crop_at_shape h wd 0 original (rand w) Hs Hh Hw) as (h' & Hh' & Hs').
    unfold crop_at, offset in Hs'. cbn [rng_after] in Hs'. rewrite Hd in Hs'.
    cbn [fst] in Hs'.
    rewrite (enough_edges_exact h' _ c Hh' Hs').
    destruct (Z.ltb_spec (Z.of_nat (shape0 (crop_original original y))
                          * Z.of_nat (shape1 (crop_original original y))) (100 * c));
      [lia|].
    destruct (Nat.eqb_spec x0 4); [lia|].
    rewrite (IH (S x0) (World g (written w))); [|lia|].
    + cbn [rand written rng_after]. by rewrite Hd.
    + intros j Hj. specialize (Hsparse (S j) ltac:(lia)).
      unfold sparse, crop_at, offset in *. cbn [rng_after rand] in *.
      by rewrite Hd in Hsparse.
Qed.

(** The path [convert] reads the ground truth from. *)
Definition gt_path (file : string) : string :=
  PyStr.drop_last4 (ORIGINAL_DIR +:+ file) +:+ "_gt"
    +:+ PyStr.last4 (ORIGINAL_DIR +:+ file).

(** [convert] gets past its guards with this image pair. *)
Definition ready (file : string) (original gt : image) (h wd : nat) : Prop :=
  PyStr.contains "gt" file = false ∧
  imread (ORIGINAL_DIR +:+ file) = Some original ∧
  imread (gt_path file) = Some gt ∧
  has_shape h wd original ∧ (256 ≤ h)%nat ∧ (256 ≤ wd)%nat.

Lemma basename_original (file : string) :
  PyStr.basename (ORIGINAL_DIR +:+ file) = PyStr.basename file.
Proof.
  unfold PyStr.basename.
  change (ORIGINAL_DIR +:+ file)
    with ("/data/synthetic_trial_results" +:+ "/" +:+ file).
  apply basename_from_dir.
Qed.

Lemma basename_full (file : string) :
  PyStr.basename (FULL_DIR +:+ ORIGINAL_SUBDIR +:+ PyStr.basename file)
  = PyStr.basename file.
Proof.
  change (FULL_DIR +:+ ORIGINAL_SUBDIR +:+ PyStr.basename file)
    with ("/data/synthetic_trial_final/full/original_images" +:+ "/"
            +:+ PyStr.basename file).
  unfold PyStr.basename at 1. rewrite basename_from_dir. apply basename_idem.
Qed.

Lemma weights_128 (crop : image) :
  channel1 (ones_like_128 crop) = map (map (λ _, 128)) crop.
Proof.
  unfold channel1, ones_like_128. rewrite map_map.
  apply map_ext. intros row. by rewrite map_map.
Qed.

(** What [convert] does once a crop is accepted, with the names spelled
    out. *)
Lemma emit_paths grayscale file crop gt (w : world rng) :
  emit grayscale (ORIGINAL_DIR +:+ file) crop gt w
  = (imwrite (FULL_DIR +:+ ORIGINAL_SUBDIR +:+ PyStr.basename file)
       (Some (if grayscale then Mono (cvtColor_BGR2GRAY crop) else Color crop));;
     imwrite (FULL_DIR +:+ GT_SUBDIR +:+ PyStr.basename file) gt;;
     imwrite (FULL_DIR +:+ RECALL_SUBDIR +:+ PyStr.basename file)
       (Some (Mono (map (map (λ _, 128)) crop)));;
     imwrite (FULL_DIR +:+ PRECISION_SUBDIR +:+ PyStr.basename file)
       (Some (Mono (map (map (λ _, 128)) crop)));;
     mret tt) w.
Proof.
  unfold Crop.emit. by rewrite basename_original, weights_128, basename_full.
Qed.

Lemma emit_patch grayscale file crop gtc (w : world rng) :
  patch_writable (PyStr.basename file) grayscale crop gtc →
  emit grayscale (ORIGINAL_DIR +:+ file) crop (Some (Mono gtc)) w
  = (Ok tt, World (rand w)
              (written w ++ patch_files (PyStr.basename file) grayscale crop gtc)).
Proof.
  intros Hw. unfold patch_writable, patch_files in Hw.
  apply Forall_cons in Hw as [H1 Hw]. apply Forall_cons in Hw as [H2 Hw].
  apply Forall_cons in Hw as [H3 Hw]. apply Forall_cons in Hw as [H4 _].
  cbn [fst snd] in *. rewrite emit_paths. unfold mbind, M_bind, bind.
  rewrite (imwrite_writes _ _ _ H1), (imwrite_writes _ _ _ H2),
    (imwrite_writes _ _ _ H3), (imwrite_writes _ _ _ H4).
  cbn [rand written]. unfold patch_files. by rewrite <- !app_assoc.
Qed.

(** Whatever happens to the four writes, nothing but files of the patch is
    written, in their order, and the generator is left alone. *)
Lemma emit_sub grayscale file crop gtc (w : world rng) :
  ∃ l, written (snd (emit grayscale (ORIGINAL_DIR +:+ file) crop (Some (Mono gtc)) w))
       = written w ++ l
       ∧ l `sublist_of` patch_files (PyStr.basename file) grayscale crop gtc.
Proof.
  rewrite emit_paths. unfold mbind, M_bind, bind, patch_files.
  set (f1 := FULL_DIR +:+ ORIGINAL_SUBDIR +:+ PyStr.basename file).
  set (f2 := FULL_DIR +:+ GT_SUBDIR +:+ PyStr.basename file).
  set (f3 := FULL_DIR +:+ RECALL_SUBDIR +:+ PyStr.basename file).
  set (f4 := FULL_DIR +:+ PRECISION_SUBDIR +:+ PyStr.basename file).
  set (a1 := if grayscale then Mono (cvtColor_BGR2GRAY crop) else Color crop).
  set (a3 := Mono (map (map (λ _ : pixel, 128)) crop)).
  repeat (match goal with
          | |- context [Crop.imwrite _ _ ?f (Some ?a) ?w0] =>
              destruct (imwrite_cases f (Some a) w0)
                as [[[?|?] ->]|(? & [= <-] & ->)];
              cbv beta iota
          end);
    (eexists; split;
     [cbn [snd written mret M_ret ret]; rewrite <- ?app_assoc; cbn [app];
      first [reflexivity | symmetry; apply app_nil_r]
     |repeat first [apply sublist_nil | apply sublist_skip | apply sublist_cons]]).
Qed.

Lemma convert_ready file grayscale original gt h wd (w : world rng) :
  ready file original gt h wd →
  convert file grayscale w
  = match attempts (seq 0 5) (ORIGINAL_DIR +:+ file) (gt_path file)
            original (Some gt) w with
    | (Ok Return, w') => (Ok tt, w')
    | (Ok (Break f _ crop gtc), w') =>
        emit grayscale f crop (Some (Mono gtc)) w'
    | (Ok (Exhausted f _ o g), w') =>
        emit grayscale f o (Color <$> g) w'
    | (Raise e, w') => (Raise e, w')
    end.
Proof.
  intros (Hname & Hro & Hrg & Hs & Hh & Hw). unfold Crop.convert.
  rewrite Hname, Hro. fold (gt_path file). rewrite Hrg.
  rewrite (has_shape_shape0 _ _ _ Hs), (has_shape_shape1 _ _ _ Hs) by lia.
  destruct (Nat.ltb_spec h 256); [lia|]. destruct (Nat.ltb_spec wd 256); [lia|].
  cbn [orb]. unfold mbind, M_bind, bind.
  destruct (attempts _ _ _ _ _ w) as [[[]|] w']; done.
Qed.

(** The crop of attempt [k] is accepted when the attempts before it found
    too few edges and this one finds more than a hundredth of its area: it
    is this crop, and the generator after [k + 1] attempts, that the four
    writes get. *)
Lemma convert_accepts file grayscale original gt h wd (w : world rng) k c :
  ready file original gt h wd → (k < 5)%nat →
  (∀ j, (j < k)%nat → sparse j original (rand w)) →
  Canny_count (crop_at k original (rand w)) = Some c →
  Z.of_nat (shape0 (crop_at k original (rand w)))
    * Z.of_nat (shape1 (crop_at k original (rand w))) < 100 * c →
  convert file grayscale w
  = emit grayscale (ORIGINAL_DIR +:+ file) (crop_at k original (rand w))
      (Some (Mono (gt_at k original gt (rand w))))
      (World (rng_after (S k) original (rand w)) (written w)).
Proof.
  intros Hready Hk Hsparse Hc Hdense.
  rewrite (convert_ready _ _ _ _ _ _ _ Hready).
  destruct Hready as (_ & _ & _ & Hs & Hh & Hw).
  replace (seq 0 5) with (seq 0 k ++ k :: seq (S k) (4 - k)).
  2:{ change (k :: seq (S k) (4 - k)) with (seq k (S (4 - k))).
      rewrite <- seq_app. f_equal. lia. }
  rewrite (attempts_skip k 0 _ h wd) by (done || lia).
  pose proof (has_shape_shape0 _ _ _ Hs) as E0.
  pose proof (has_shape_shape1 _ _ _ Hs ltac:(lia)) as E1.
  rewrite attempts_cons by lia. cbn [rand written].
  destruct (crop_at_shape h wd k original (rand w) Hs Hh Hw) as (h' & Hh' & Hs').
  unfold gt_at, crop_at, offset in *. rewrite rng_after_S.
  destruct (draw original (rng_after k original (rand w))) as [y g].
  cbn [fst snd] in *. cbv zeta. rewrite Hc.
  rewrite (enough_edges_exact h' _ c Hh' Hs').
  destruct (Z.ltb_spec (Z.of_nat (shape0 (crop_original original y))
                        * Z.of_nat (shape1 (crop_original original y))) (100 * c));
    [|lia].
  done.
Qed.


(** ** The claims about [convert] *)

(** C9. A file whose name contains "gt" anywhere is skipped at once:
    [convert] returns without reading, drawing or writing anything, whatever
    the file holds. *)
Theorem convert_skips_gt_names (file : string) (grayscale : bool) (w : world rng) :
  (∃ a b, file = a +:+ "gt" +:+ b) →
  convert file grayscale w = (Ok tt, w).
Proof.
  intros (a & b & ->). unfold Crop.convert. by rewrite contains_app.
Qed.

(** C7. [convert] accepts the first crop whose count of edge pixels is more
    than a hundredth of the crop's area: when the attempts before attempt
    [k] found at most a hundredth (the exact boundary included) and attempt
    [k] finds more, it is the crop pair of attempt [k] that is written as
    the patch.  The test is the same on every attempt: a count passes if
    and only if a hundred times the count exceeds the area, so a count
    exactly on the boundary never passes. *)
Theorem convert_accepts_first_dense_crop
    file grayscale original gt h wd (w : world rng) (k : nat) (c : Z) :
  ready file original gt h wd → (k < 5)%nat →
  (∀ j, (j < k)%nat → sparse j original (rand w)) →
  Canny_count (crop_at k original (rand w)) = Some c →
  Z.of_nat (shape0 (crop_at k original (rand w)))
    * Z.of_nat (shape1 (crop_at k original (rand w))) < 100 * c →
  let crop := crop_at k original (rand w) in
  let gtc := gt_at k original gt (rand w) in
  let g := rng_after (S k) original (rand w) in
  convert file grayscale w
  = emit grayscale (ORIGINAL_DIR +:+ file) crop (Some (Mono gtc))
      (World g (written w))
  ∧ (patch_writable (PyStr.basename file) grayscale crop gtc →
     convert file grayscale w
     = (Ok tt,
        World g (written w ++ patch_files (PyStr.basename file) grayscale crop gtc)))
  ∧ (∀ j c',
       enough_edges c' (crop_at j original (rand w))
       = (Z.of_nat (shape0 (crop_at j original (rand w)))
          * Z.of_nat (shape1 (crop_at j original (rand w))) <? 100 * c'))
  ∧ (∀ j c',
       100 * c' = Z.of_nat (shape0 (crop_at j original (rand w)))
                  * Z.of_nat (shape1 (crop_at j original (rand w))) →
       enough_edges c' (crop_at j original (rand w)) = false).
Proof.
  intros Hready Hk Hsparse Hc Hdense crop gtc g.
  pose proof (convert_accepts _ grayscale _ _ _ _ _ _ _ Hready Hk Hsparse Hc Hdense)
    as Hrun.
  destruct Hready as (_ & _ & _ & Hs & Hh & Hw).
  split; [done|]. split; [|split].
  - intros Hwr. rewrite Hrun. by rewrite emit_patch.
  - intros j c'. by apply (enough_edges_at h wd).
  - intros j c' Hb. rewrite (enough_edges_at h wd) by done. apply Z.ltb_ge. lia.
Qed.


(** C10. The artifacts of an accepted patch all carry the basename of the
    original.  Whatever cv2.imwrite does with them, [convert] writes nothing
    but files of the patch, in their order; when all four can be written,
    [convert] returns normally and has written exactly the four, one in each
    of the four subdirectories of full/ and each under the name of the
    original: the ground truth is read from the "_gt" companion but written
    under the original's name. *)
Theorem convert_patch_names
    file grayscale original gt h wd (w : world rng) (k : nat) (c : Z) :
  ready file original gt h wd → (k < 5)%nat →
  (∀ j, (j < k)%nat → sparse j original (rand w)) →
  Canny_count (crop_at k original (rand w)) = Some c →
  Z.of_nat (shape0 (crop_at k original (rand w)))
    * Z.of_nat (shape1 (crop_at k original (rand w))) < 100 * c →
  let base := PyStr.basename file in
  let crop := crop_at k original (rand w) in
  let gtc := gt_at k original gt (rand w) in
  let names := [FULL_DIR +:+ ORIGINAL_SUBDIR +:+ base; FULL_DIR +:+ GT_SUBDIR +:+ base;
                FULL_DIR +:+ RECALL_SUBDIR +:+ base;
                FULL_DIR +:+ PRECISION_SUBDIR +:+ base] in
  let run := convert file grayscale w in
  Forall (λ name, PyStr.basename name = base) names
  ∧ (∃ l, written (snd run) = written w ++ l
          ∧ l `sublist_of` patch_files base grayscale crop gtc
          ∧ map fst l `sublist_of` names)
  ∧ (patch_writable base grayscale crop gtc →
     fst run = Ok tt
     ∧ written (snd run) = written w ++ patch_files base grayscale crop gtc
     ∧ map fst (written (snd run)) = map fst (written w) ++ names).
Proof.
  intros Hready Hk Hsparse Hc Hdense base crop gtc names run.
  pose proof (convert_accepts _ grayscale _ _ _ _ _ _ _ Hready Hk Hsparse Hc Hdense)
    as Hrun.
  fold crop gtc in Hrun. split; [|split].
  - unfold names, base.
    assert (∀ d : string,
              PyStr.basename (d +:+ "/" +:+ PyStr.basename file)
              = PyStr.basename file) as Hb.
    { intros d. unfold PyStr.basename at 1. rewrite basename_from_dir.
      apply basename_idem. }
    repeat apply Forall_cons_2; [| | | |apply Forall_nil_2].
    + apply (Hb "/data/synthetic_trial_final/full/original_images").
    + apply (Hb "/data/synthetic_trial_final/full/processed_gt").
    + apply (Hb "/data/synthetic_trial_final/full/recall_weights").
    + apply (Hb "/data/synthetic_trial_final/full/precision_weights").
  - unfold run. rewrite Hrun.
    destruct (emit_sub grayscale file crop gtc
                (World (rng_after (S k) original (rand w)) (written w)))
      as (l & Hl & Hsub).
    exists l. split; [done|]. split; [done|].
    by apply (fmap_sublist fst) in Hsub.
  - intros Hwr. unfold run. rewrite Hrun, emit_patch by done.
    cbn [fst snd written]. split; [done|]. split; [done|].
    by rewrite map_app.
Qed.

Lemma crop_rows (h wd y : nat) (original : image) :
  has_shape h wd original → (y + 256 ≤ wd)%nat →
  shape0 (crop_original original y) = (256 `min` (h - y))%nat.
Proof. intros Hs Hy. by destruct (crop_shape h wd y original Hs Hy). Qed.

(** C1, on an image wider than tall. The rows of the crop are cut at the
    offset drawn for the columns: on a 256 x 512 image and the offset 100 the
    accepted patch has 156 rows, not 256. *)
Theorem convert_wide_image_short_patch
    file grayscale original gt (w : world rng) (c : Z) :
  ready file original gt 256 512 →
  offset 0 original (rand w) = 100%nat →
  Canny_count (crop_at 0 original (rand w)) = Some c →
  156 * 256 < 100 * c →
  patch_writable (PyStr.basename file) grayscale (crop_at 0 original (rand w))
    (gt_at 0 original gt (rand w)) →
  convert file grayscale w
  = (Ok tt,
     World (rng_after 1 original (rand w))
       (written w ++ patch_files (PyStr.basename file) grayscale
                       (crop_at 0 original (rand w))
                       (gt_at 0 original gt (rand w))))
  ∧ shape0 (crop_at 0 original (rand w)) = 156%nat
  ∧ shape1 (crop_at 0 original (rand w)) = 256%nat.
Proof.
  intros Hready Hoff Hc Hdense Hwr.
  pose proof Hready as (_ & _ & _ & Hs & _ & _).
  assert (has_shape 156 256 (crop_at 0 original (rand w))) as Hcrop.
  { unfold crop_at. rewrite Hoff.
    exact (crop_shape 256 512 100 original Hs ltac:(lia)). }
  pose proof (has_shape_shape0 _ _ _ Hcrop) as E0.
  pose proof (has_shape_shape1 _ _ _ Hcrop ltac:(lia)) as E1.
  split; [|done].
  rewrite (convert_accepts _ grayscale _ _ 256 512 _ 0%nat c) by (done || lia).
  by rewrite emit_patch.
Qed.

End Facts.
End ConvertFacts.

(** ** Concrete runs of [convert] *)

Module ConvertRuns.
Import Crop ConvertFacts ArrayFacts.

(** A generator that answers every [_randbelow n] with [d mod n]. *)
Definition fixed_randbelow (d : Z) (n : Z) (g : unit) : Z * unit := (d mod n, g).

Lemma fixed_randbelow_range (d : Z) :
  ∀ n g, 0 < n → 0 ≤ fst (fixed_randbelow d n g) < n.
Proof. intros n g Hn. simpl. by apply Z.mod_pos_bound. Qed.

(** A generator that answers from a script, each answer reduced modulo the
    bound. *)
Definition scripted_randbelow (n : Z) (g : list Z) : Z * list Z :=
  match g with
  | [] => (0, [])
  | d :: g' => (d mod n, g')
  end.

Lemma scripted_randbelow_range :
  ∀ n g, 0 < n → 0 ≤ fst (scripted_randbelow n g) < n.
Proof.
  intros n [|d g] Hn; simpl; [lia|]. by apply Z.mod_pos_bound.
Qed.

(** An OpenCV that encodes PNG only, a disk on which every file can be
    written, and one on which none can. *)
Definition png_only (file : string) : bool := String.eqb (PyStr.last4 file) ".png".
Definition everywhere (file : string) : bool := true.
Definition nowhere (file : string) : bool := false.

(** An image of one colour. *)
Definition flat (h w : nat) (v : Z) : image := repeat (repeat (v, v, v) w) h.

Lemma has_shape_flat (h w : nat) (v : Z) : has_shape h w (flat h w v).
Proof.
  split; [apply repeat_length|].
  apply Forall_forall. intros row Hrow%list_elem_of_In%repeat_spec. subst.
  apply repeat_length.
Qed.

(** A directory in which every file reads as [original], except the
    ground-truth companions, which read as [gt]. *)
Definition read (original gt : image) (file : string) : option image :=
  if PyStr.contains "_gt" file then Some gt else Some original.

Definition start : world unit := World tt [].

(** An edge detector that finds [few] edge pixels in a crop of 100 rows and
    [many] in any other. *)
Definition edges (few many : Z) (crop : image) : option Z :=
  if (shape0 crop =? 100)%nat then Some few else Some many.

Lemma ready_flat (h w : nat) (o g : Z) :
  (256 ≤ h)%nat → (256 ≤ w)%nat →
  ready (read (flat h w o) (flat h w g)) "a.png" (flat h w o) (flat h w g) h w.
Proof.
  intros Hh Hw. repeat split; try done; apply has_shape_flat.
Qed.


(** The files of these runs can be written. *)
Lemma patch_writable_square :
  patch_writable channel1 png_only everywhere "a.png" true
    (crop_at (fixed_randbelow 0) 0 (flat 256 256 0) tt)
    (gt_at (fixed_randbelow 0) 0 (flat 256 256 0) (flat 256 256 255) tt).
Proof. repeat constructor. Qed.

Lemma patch_writable_wide :
  patch_writable channel1 png_only everywhere "a.png" true
    (crop_at (fixed_randbelow 100) 0 (flat 256 512 0) tt)
    (gt_at (fixed_randbelow 100) 0 (flat 256 512 0) (flat 256 512 255) tt).
Proof. repeat constructor. Qed.

Lemma patch_writable_second :
  patch_writable channel1 png_only everywhere "a.png" true
    (crop_at scripted_randbelow 1 (flat 256 512 0) [0; 156; 0; 0])
    (gt_at scripted_randbelow 1 (flat 256 512 0) (flat 256 512 255) [0; 156; 0; 0]).
Proof. repeat constructor. Qed.


(** The first crop of the scripted run has 100 rows, the second is full. *)
Lemma scripted_first :
  has_shape 100 256 (crop_at scripted_randbelow 0 (flat 256 512 0) [0; 156; 0; 0]).
Proof.
  apply (crop_shape 256 512 156 (flat 256 512 0)); [apply has_shape_flat|lia].
Qed.

Lemma scripted_second :
  has_shape 256 256 (crop_at scripted_randbelow 1 (flat 256 512 0) [0; 156; 0; 0]).
Proof.
  apply (crop_shape 256 512 0 (flat 256 512 0)); [apply has_shape_flat|lia].
Qed.

(** C9 at the name of a ground-truth file. *)
Lemma convert_skips_gt_names_witness :
  convert (fixed_randbelow 0) (read (flat 300 300 0) (flat 300 300 255))
    (λ _, Some 0) channel1 png_only everywhere "img_7_gt.png" true start
  = (Ok tt, start).
Proof.
  apply convert_skips_gt_names. exists "img_7_", ".png". reflexivity.
Defined.

(** C7 on a 256 x 512 page: the first crop has 100 rows and 256 edge pixels,
    exactly a hundredth of its area, and is passed over; the second is full
    and has 1000, and is written as the patch. *)
Lemma convert_accepts_first_dense_crop_witness :
  let original := flat 256 512 0 in
  let gt := flat 256 512 255 in
  let script := [0; 156; 0; 0] in
  let first := crop_at scripted_randbelow 0 original script in
  let second := crop_at scripted_randbelow 1 original script in
  (edges 256 1000 first = Some 256
   ∧ 100 * 256 = Z.of_nat (shape0 first) * Z.of_nat (shape1 first)
   ∧ enough_edges 256 first = false)
  ∧ (edges 256 1000 second = Some 1000
     ∧ Z.of_nat (shape0 second) * Z.of_nat (shape1 second) < 100 * 1000
     ∧ enough_edges 1000 second = true)
  ∧ convert scripted_randbelow (read original gt) (edges 256 1000) channel1
      png_only everywhere "a.png" true (World script [])
    = (Ok tt,
       World (rng_after scripted_randbelow 2 original script)
         (patch_files channel1 (PyStr.basename "a.png") true second
            (gt_at scripted_randbelow 1 original gt script))).
Proof.
  cbv zeta.
  pose proof (has_shape_shape0 _ _ _ scripted_first) as E0.
  pose proof (has_shape_shape1 _ _ _ scripted_first ltac:(lia)) as E1.
  pose proof (has_shape_shape0 _ _ _ scripted_second) as F0.
  pose proof (has_shape_shape1 _ _ _ scripted_second ltac:(lia)) as F1.
  assert (edges 256 1000 (crop_at scripted_randbelow 0 (flat 256 512 0) [0; 156; 0; 0])
          = Some 256) as Hfirst.
  { unfold edges. by rewrite E0. }
  assert (edges 256 1000 (crop_at scripted_randbelow 1 (flat 256 512 0) [0; 156; 0; 0])
          = Some 1000) as Hsecond.
  { unfold edges. by rewrite F0. }
  destruct (convert_accepts_first_dense_crop scripted_randbelow
              (read (flat 256 512 0) (flat 256 512 255)) (edges 256 1000) channel1
              png_only everywhere scripted_randbelow_range "a.png" true
              (flat 256 512 0) (flat 256 512 255) 256 512 (World [0; 156; 0; 0] [])
              1 1000)
    as (_ & Hrun & Htest & Hboundary).
  - apply ready_flat; lia.
  - lia.
  - intros j Hj. replace j with 0%nat by lia. exists 256.
    split; [exact Hfirst|]. cbn [rand]. rewrite E0, E1. lia.
  - exact Hsecond.
  - cbn [rand]. rewrite F0, F1. lia.
  - cbn [rand written] in *. split; [|split].
    + split; [exact Hfirst|]. split; [rewrite E0, E1; lia|].
      apply Hboundary. rewrite E0, E1. lia.
    + split; [exact Hsecond|]. split; [rewrite F0, F1; lia|].
      rewrite Htest, F0, F1. reflexivity.
    + apply Hrun. apply patch_writable_second.
Defined.



(** C10 at a 256 x 256 page whose first crop is accepted. *)
Lemma convert_patch_names_witness :
  let run := convert (fixed_randbelow 0) (read (flat 256 256 0) (flat 256 256 255))
               (λ _, Some 1000) channel1 png_only everywhere "a.png" true start in
  fst run = Ok tt
  ∧ map fst (written (snd run))
    = ["/data/synthetic_trial_final/full/original_images/a.png";
       "/data/synthetic_trial_final/full/processed_gt/a.png";
       "/data/synthetic_trial_final/full/recall_weights/a.png";
       "/data/synthetic_trial_final/full/precision_weights/a.png"].
Proof.
  cbv zeta.
  destruct (convert_patch_names (fixed_randbelow 0)
              (read (flat 256 256 0) (flat 256 256 255)) (λ _, Some 1000) channel1
              png_only everywhere (fixed_randbelow_range 0) "a.png" true
              (flat 256 256 0) (flat 256 256 255) 256 256 start 0 1000)
    as (_ & _ & Hall).
  - apply ready_flat; lia.
  - lia.
  - intros j Hj. lia.
  - reflexivity.
  - reflexivity.
  - destruct (Hall patch_writable_square) as (Hok & _ & Hnames).
    split; [exact Hok|exact Hnames].
Defined.

(** C1 at a 256 x 512 page and the offset 100. *)
Lemma convert_wide_image_short_patch_witness :
  let original := flat 256 512 0 in
  let gt := flat 256 512 255 in
  let crop := crop_at (fixed_randbelow 100) 0 original tt in
  convert (fixed_randbelow 100) (read original gt) (λ _, Some 1000) channel1
    png_only everywhere "a.png" true start
  = (Ok tt,
     World (rng_after (fixed_randbelow 100) 1 original tt)
       (patch_files channel1 (PyStr.basename "a.png") true crop
          (gt_at (fixed_randbelow 100) 0 original gt tt)))
  ∧ shape0 crop = 156%nat ∧ shape1 crop = 256%nat.
Proof.
  apply (convert_wide_image_short_patch (fixed_randbelow 100)
           (read (flat 256 512 0) (flat 256 512 255)) (λ _, Some 1000) channel1
           png_only everywhere (fixed_randbelow_range 100) "a.png" true
           (flat 256 512 0) (flat 256 512 255) start 1000).
  - apply ready_flat; lia.
  - reflexivity.
  - reflexivity.
  - lia.
  - apply patch_writable_wide.
Defined.

End ConvertRuns.

(** ** create_lmdb *)

Module LmdbFacts.
Import Crop PyStrFacts.

(** Decimal numerals have no colon. *)
Lemma pretty_N_char_colon (x : N) : pretty_N_char x ≠ ":"%char.
Proof. unfold pretty_N_char. by repeat case_match. Qed.

Lemma pretty_N_go_colon (x : N) (s : string) :
  PyStr.contains ":" s = false → PyStr.contains ":" (pretty_N_go x s) = false.
Proof.
  revert s. induction (N.lt_wf_0 x) as [x _ IH]; intros s Hs.
  destruct (decide (x = 0%N)) as [->|Hx].
  - by rewrite pretty_N_go_0.
  - rewrite pretty_N_go_step by lia. apply IH.
    + apply N.div_lt; lia.
    + cbn [PyStr.contains]. rewrite prefix_char, Hs.
      rewrite bool_decide_false; [done|].
      intros H. by apply (pretty_N_char_colon (x `mod` 10)%N).
Qed.

Lemma pretty_Z_colon (z : Z) : 0 ≤ z → PyStr.contains ":" (pretty z) = false.
Proof.
  intros Hz. destruct z as [|p|p]; [done| |lia].
  unfold pretty, pretty_Z, pretty, pretty_positive, pretty, pretty_N.
  destruct (decide (N.pos p = 0%N)); [done|]. by apply pretty_N_go_colon.
Qed.

(** Two strings without a colon that are followed by a colon in the same
    string are the same. *)
Lemma before_colon (a a' r r' : string) :
  PyStr.contains ":" a = false → PyStr.contains ":" a' = false →
  a +:+ ":" +:+ r = a' +:+ ":" +:+ r' → a = a'.
Proof.
  revert a'. induction a as [|c a IH]; intros [|c' a'] Ha Ha' Heq; try done.
  - cbn in Heq. injection Heq as <- _. cbn [PyStr.contains] in Ha'.
    rewrite prefix_char, bool_decide_true in Ha' by done. done.
  - cbn in Heq. injection Heq as -> _. cbn [PyStr.contains] in Ha.
    rewrite prefix_char, bool_decide_true in Ha by done. done.
  - cbn in Heq. injection Heq as -> Heq.
    cbn [PyStr.contains] in Ha, Ha'.
    apply orb_false_iff in Ha as [_ Ha]. apply orb_false_iff in Ha' as [_ Ha'].
    f_equal. by apply IH.
Qed.

(** Keys of different indices differ, whatever the file names. *)
Lemma key_inj (x y : nat) (f g : string) : key x f = key y g → x = y.
Proof.
  unfold key. intros Heq.
  apply before_colon in Heq; [|apply pretty_Z_colon; lia..].
  apply (inj pretty) in Heq. lia.
Qed.

Section Facts.
Variable listdir : string → option (list string).
Variable imread_unchanged : string → option ndarray.
Variable imsave : ndarray → bool → string.
Variable SerializeToString : DocumentDatum → string.

Local Abbreviation records := (records imread_unchanged imsave SerializeToString).
Local Abbreviation create_lmdb :=
  (create_lmdb listdir imread_unchanged imsave SerializeToString).

(** The record of a readable file. *)
Definition datum_of (a : ndarray) : DocumentDatum :=
  match a with
  | Color img => Datum 3 (Z.of_nat (shape1 img)) (Z.of_nat (shape0 img)) "png"
                   (imsave (Color img) false)
  | Mono g => Datum 1 (Z.of_nat (shape1 g)) (Z.of_nat (shape0 g)) "png"
                (imsave (Mono g) true)
  end.

(** Every file of the list can be read. *)
Definition readable (images : string) (names : list string) : Prop :=
  Forall (λ n, is_Some (imread_unchanged (PyStr.join images n))) names.

(** The store after the files [names], numbered from [x] on, were put. *)
Fixpoint put_all (images : string) (x : nat) (names : list string)
    (txn : gmap string string) : gmap string string :=
  match names with
  | [] => txn
  | imname :: rest =>
      match imread_unchanged (PyStr.join images imname) with
      | Some a =>
          put_all images (S x) rest
            (<[key x (PyStr.join images imname) := SerializeToString (datum_of a)]> txn)
      | None => txn
      end
  end.

(** What the loop prints for the files numbered from [x] on, given the
    number of records in the transaction before them. *)
Fixpoint printed (x : nat) (n : nat) (entries : nat) : list line :=
  match n with
  | O => []
  | S n' =>
      (if negb (x =? 0)%nat && (x mod 10 =? 0)%nat then [Processed x] else [])
      ++ (if (x mod 10 =? 0)%nat then [Stat (S entries); Info] else [])
      ++ printed (S x) n' (S entries)
  end.

(** The keys of a transaction carry indices below [x]. *)
Definition keys_below (x : nat) (txn : gmap string string) : Prop :=
  ∀ k, k ∈ dom txn → ∃ i f, (i < x)%nat ∧ k = key i f.

Lemma keys_below_fresh x f txn : keys_below x txn → txn !! key x f = None.
Proof.
  intros Hb. apply not_elem_of_dom. intros (i & g & Hi & Heq)%Hb.
  apply key_inj in Heq. lia.
Qed.

Lemma keys_below_insert x f v txn :
  keys_below x txn → keys_below (S x) (<[key x f := v]> txn).
Proof.
  intros Hb k. rewrite dom_insert_L, elem_of_union, elem_of_singleton.
  intros [->|(i & g & Hi & ->)%Hb]; [exists x, f | exists i, g]; split; done || lia.
Qed.

Lemma package_readable (a : ndarray) (w : store) :
  package imsave (Some a) w = (Ok (datum_of a), w).
Proof. by destruct a. Qed.

Lemma put_all_size images names x txn :
  readable images names → keys_below x txn → size txn = x →
  size (put_all images x names txn) = (x + length names)%nat
  ∧ keys_below (x + length names) (put_all images x names txn).
Proof.
  revert x txn. induction names as [|n names IH]; intros x txn Hr Hb Hs.
  - cbn. rewrite !Nat.add_0_r. done.
  - apply Forall_cons in Hr as [[a Ha] Hr]. cbn [put_all length]. rewrite Ha.
    replace (x + S (length names))%nat with (S x + length names)%nat by lia.
    apply IH; [done|by apply keys_below_insert|].
    rewrite map_size_insert_None by by apply keys_below_fresh. by rewrite Hs.
Qed.

(** With readable files the loop puts every record and prints a line of
    statistics after each record whose index is a multiple of 10. *)
Lemma records_readable images names x txn w :
  readable images names → keys_below x txn → size txn = x →
  fst (records images x names txn w) = Ok (put_all images x names txn)
  ∧ stdout (snd (records images x names txn w))
    = stdout w ++ printed x (length names) x.
Proof.
  revert x txn w. induction names as [|n names IH]; intros x txn w Hr Hb Hs.
  - cbn. by rewrite app_nil_r.
  - apply Forall_cons in Hr as [[a Ha] Hr].
    cbn [Crop.records put_all length printed]. rewrite Ha.
    set (txn' := <[key x (PyStr.join images n) := SerializeToString (datum_of a)]> txn).
    assert (size txn' = S x) as Hs'.
    { unfold txn'. rewrite map_size_insert_None by by apply keys_below_fresh.
      by rewrite Hs. }
    assert (keys_below (S x) txn') as Hb' by by apply keys_below_insert.
    unfold mbind, M_bind, bind, try_reraise, process_im.
    rewrite Ha.
    destruct (negb (x =? 0)%nat && (x mod 10 =? 0)%nat) eqn:Hp;
      cbn [print modify mret M_ret ret fst snd stdout committed];
      rewrite package_readable; fold txn';
      destruct (x mod 10 =? 0)%nat eqn:Hc;
      cbn [commit get begin print modify mret M_ret ret fst snd stdout committed];
      match goal with
      | |- context [records images (S x) names txn' ?w'] =>
          destruct (IH (S x) txn' w' Hr Hb' Hs') as [E1 E2];
          destruct (records images (S x) names txn' w') as [r w'']
      end;
      cbn [fst snd stdout committed] in *; subst r; rewrite E2;
      rewrite ?Hs', <- ?app_assoc; done.
Qed.

Lemma put_all_keeps images names x txn k :
  is_Some (txn !! k) → is_Some (put_all images x names txn !! k).
Proof.
  revert x txn. induction names as [|n names IH]; intros x txn Hk; [done|].
  cbn [put_all]. destruct (imread_unchanged _); [|done].
  apply IH. rewrite lookup_insert_is_Some. destruct (decide (key x (PyStr.join images n) = k)); auto.
Qed.

Lemma put_all_lookup images names x txn i name :
  readable images names → names !! i = Some name →
  is_Some (put_all images x names txn !! key (x + i) (PyStr.join images name)).
Proof.
  revert x txn i. induction names as [|n names IH]; intros x txn i Hr Hi; [done|].
  apply Forall_cons in Hr as [[a Ha] Hr]. cbn [put_all]. rewrite Ha.
  destruct i as [|i]; cbn in Hi.
  - injection Hi as ->. rewrite Nat.add_0_r. apply put_all_keeps.
    rewrite lookup_insert_eq. done.
  - replace (x + S i)%nat with (S x + i)%nat by lia. by apply IH.
Qed.

(** The run of [create_lmdb] over readable files, from an empty store. *)
Lemma create_lmdb_readable images names :
  listdir images = Some names → readable images names →
  let run := create_lmdb images (Store ∅ []) in
  fst run = Ok tt
  ∧ stdout (snd run) = printed 0 (length names) 0 ++ [DoneProcessing]
  ∧ committed (snd run) = put_all images 0 names ∅
  ∧ size (committed (snd run)) = length names
  ∧ (∀ i name, names !! i = Some name →
       is_Some (committed (snd run) !! key i (PyStr.join images name)))
  ∧ (∀ k, k ∈ dom (committed (snd run)) →
       ∃ i f, (i < length names)%nat ∧ k = key i f).
Proof.
  intros Hl Hr.
  assert (keys_below 0 (∅ : gmap string string)) as Hb.
  { intros k Hk. by rewrite dom_empty_L in Hk. }
  pose proof (records_readable images names 0 ∅ (Store ∅ []) Hr Hb (map_size_empty))
    as [E1 E2].
  pose proof (put_all_size images names 0 ∅ Hr Hb (map_size_empty)) as [E3 E4].
  unfold Crop.create_lmdb. rewrite Hl.
  unfold mbind, M_bind, bind, begin. cbn [committed].
  destruct (records images 0 names ∅ (Store ∅ [])) as [r w'].
  cbn [fst snd stdout] in *. subst r.
  cbn [print commit modify fst snd stdout committed]. rewrite E2.
  repeat split; try done.
  intros i name Hi. by apply (put_all_lookup images names 0 ∅ i name).
Qed.

(** C2, as the code has it. When every file of the directory can be read,
    [create_lmdb] on an empty store returns normally; it commits after each
    write whose index is a multiple of 10 (the first write included) and
    once more at the end, printing the statistics [x + 1] entries at the
    commit after index [x]; the store then holds one record per file, under
    pairwise different keys whose indices are exactly 0 .. n - 1. *)
Theorem create_lmdb_commits images names :
  listdir images = Some names → readable images names →
  let run := create_lmdb images (Store ∅ []) in
  fst run = Ok tt
  ∧ stdout (snd run) = printed 0 (length names) 0 ++ [DoneProcessing]
  ∧ committed (snd run) = put_all images 0 names ∅
  ∧ size (committed (snd run)) = length names
  ∧ (∀ i name, names !! i = Some name →
       is_Some (committed (snd run) !! key i (PyStr.join images name)))
  ∧ (∀ k, k ∈ dom (committed (snd run)) →
       ∃ i f, (i < length names)%nat ∧ k = key i f).
Proof. apply create_lmdb_readable. Qed.

End Facts.
End LmdbFacts.

(** ** split_into_sets *)

Module SplitFacts.
Import Crop.

(** Forgetting what the image files hold: names and texts stay. *)
Definition erase (c : content) : content :=
  match c with
  | Image _ => Image (Mono [])
  | Text s => Text s
  end.
Definition erase_dir (e : gmap string content) : gmap string content :=
  erase <$> e.
Definition erase_tree (t : gmap string (gmap string content))
    : gmap string (gmap string content) :=
  erase_dir <$> t.
Definition erase_disk {rng} (w : disk rng) : disk rng :=
  Disk (drand w) (erase_tree (tree w)).

(** A computation that neither reads nor changes what image files hold:
    on the erased disk it gives the same outcome and the erased result. *)
Definition blind {rng A} (m : M (disk rng) A) : Prop :=
  ∀ w, m (erase_disk w) = (fst (m w), erase_disk (snd (m w))).

Section Facts.
Context {rng : Type}.
Variable randbelow : Z → rng → Z * rng.
Variable listdir_order : list string → list string.

Local Abbreviation W := (disk rng).
Local Abbreviation split_into_sets := (split_into_sets randbelow listdir_order).

Lemma blind_ret {A} (a : A) : blind (mret a : M W A).
Proof. by intros w. Qed.

Lemma blind_raise {A} (e : exn) : blind (raise e : M W A).
Proof. by intros w. Qed.

Lemma blind_bind {A B} (m : M W A) (k : A → M W B) :
  blind m → (∀ a, blind (k a)) → blind (m ≫= k).
Proof.
  intros Hm Hk w. unfold mbind, M_bind, bind. rewrite Hm.
  destruct (m w) as [[a|e] w']; cbn [fst snd]; [apply Hk|done].
Qed.

Lemma lookup_erase_tree (t : gmap string (gmap string content)) (d : string) :
  erase_tree t !! d = erase_dir <$> t !! d.
Proof. unfold erase_tree. by rewrite lookup_fmap. Qed.

Lemma blind_listdir (d : string) : blind (listdir listdir_order d : M W _).
Proof.
  intros w. unfold listdir. cbn [erase_disk tree]. rewrite lookup_erase_tree.
  destruct (tree w !! d) as [entries|]; cbn [fmap option_fmap option_map fst snd];
    [|done].
  unfold erase_dir. by rewrite dom_fmap_L.
Qed.

Lemma blind_randbelow_m (n : Z) : blind (randbelow_m randbelow n).
Proof.
  intros w. unfold randbelow_m. cbn [erase_disk drand tree].
  by destruct (randbelow n (drand w)).
Qed.

Lemma blind_swap (x : list nat) (i j : nat) : blind (swap x i j : M W _).
Proof. unfold swap. destruct (x !! i), (x !! j); apply blind_ret || apply blind_raise. Qed.

Lemma blind_shuffle_from (i : nat) (x : list nat) :
  blind (shuffle_from randbelow i x).
Proof.
  revert x. induction i as [|i IH]; intros x; [apply blind_ret|].
  cbn [shuffle_from]. apply blind_bind; [apply blind_randbelow_m|]. intros j.
  apply blind_bind; [apply blind_swap|]. intros x'. apply IH.
Qed.

Lemma blind_cut_off (n : nat) (lit : float) : blind (cut_off n lit : M W _).
Proof. unfold cut_off. destruct (PyFloat.floordiv _ _); apply blind_ret || apply blind_raise. Qed.

Lemma blind_move (src dst file : string) : blind (move src dst file : M W _).
Proof.
  intros w. unfold move. cbn [erase_disk tree drand]. rewrite !lookup_erase_tree.
  destruct (tree w !! src) as [s|]; cbn [fmap option_fmap option_map]; [|done].
  destruct (tree w !! dst) as [d|]; cbn [fmap option_fmap option_map]; [|done].
  unfold erase_dir at 1. rewrite lookup_fmap.
  destruct (s !! file) as [c|]; cbn [fmap option_fmap option_map]; [|done].
  cbn [fst snd]. unfold erase_disk. cbn [tree drand]. f_equal. f_equal.
  unfold erase_tree. rewrite !fmap_insert. unfold erase_dir.
  by rewrite !fmap_insert, fmap_delete.
Qed.

Lemma blind_move_four (dst file : string) : blind (move_four dst file : M W _).
Proof.
  unfold move_four. repeat (apply blind_bind; [apply blind_move|intros _]).
  apply blind_move.
Qed.

Lemma blind_distribute files tc vc count sequence :
  blind (distribute files tc vc count sequence : M W _).
Proof.
  revert count. induction sequence as [|index rest IH]; intros count;
    [apply blind_ret|].
  cbn [distribute]. destruct (files !! index); [|apply blind_raise].
  apply blind_bind; [apply blind_move_four|]. intros _. apply IH.
Qed.

Lemma blind_write_text (d name text : string) : blind (write_text d name text : M W _).
Proof.
  intros w. unfold write_text. cbn [erase_disk tree drand]. rewrite lookup_erase_tree.
  destruct (tree w !! d) as [entries|]; cbn [fmap option_fmap option_map]; [|done].
  cbn [fst snd]. unfold erase_disk. cbn [tree drand]. f_equal. f_equal.
  unfold erase_tree. rewrite !fmap_insert. unfold erase_dir.
  by rewrite !fmap_insert.
Qed.

Lemma blind_label_file (name d : string) :
  blind (label_file listdir_order name d : M W _).
Proof.
  unfold label_file. apply blind_bind; [apply blind_write_text|]. intros _.
  apply blind_bind; [apply blind_listdir|]. intros files. apply blind_write_text.
Qed.

Lemma blind_split_into_sets : blind split_into_sets.
Proof.
  unfold Crop.split_into_sets.
  apply blind_bind; [apply blind_listdir|]. intros files.
  apply blind_bind; [apply blind_shuffle_from|]. intros sequence.
  apply blind_bind; [apply blind_cut_off|]. intros tc.
  apply blind_bind; [apply blind_cut_off|]. intros vc.
  apply blind_bind; [apply blind_distribute|]. intros _.
  apply blind_bind; [apply blind_label_file|]. intros _.
  apply blind_bind; [apply blind_label_file|]. intros _.
  apply blind_label_file.
Qed.

(** C6. Two runs of the splitter that start with the same generator state
    (the same seed) and the same names in every directory, whatever the
    images hold, end the same way, leave the same names in every directory
    (every file is assigned to the same split) and write the same texts,
    the manifests among them. *)
Theorem split_into_sets_two_runs (w1 w2 : W) :
  drand w1 = drand w2 →
  erase_tree (tree w1) = erase_tree (tree w2) →
  let r1 := split_into_sets w1 in
  let r2 := split_into_sets w2 in
  fst r1 = fst r2
  ∧ drand (snd r1) = drand (snd r2)
  ∧ (∀ d, dom <$> tree (snd r1) !! d = dom <$> tree (snd r2) !! d)
  ∧ (∀ d name text,
       tree (snd r1) !! d ≫= (.!! name) = Some (Text text)
       ↔ tree (snd r2) !! d ≫= (.!! name) = Some (Text text)).
Proof.
  intros Hg Ht r1 r2.
  assert (erase_disk w1 = erase_disk w2) as He.
  { unfold erase_disk. by rewrite Hg, Ht. }
  pose proof (blind_split_into_sets w1) as H1.
  pose proof (blind_split_into_sets w2) as H2.
  rewrite He in H1. rewrite H1 in H2. fold r1 r2 in H2.
  pose proof (f_equal fst H2) as Hr. pose proof (f_equal snd H2) as Hw.
  cbn [fst snd] in Hr, Hw.
  pose proof (f_equal drand Hw) as Hd. pose proof (f_equal tree Hw) as Ht'.
  cbn [erase_disk drand tree] in Hd, Ht'.
  split; [done|]. split; [done|].
  assert (∀ d, erase_dir <$> tree (snd r1) !! d = erase_dir <$> tree (snd r2) !! d)
    as Hlook.
  { intros d. rewrite <- !lookup_erase_tree. by rewrite Ht'. }
  split.
  - intros d. specialize (Hlook d).
    destruct (tree (snd r1) !! d) as [e1|], (tree (snd r2) !! d) as [e2|];
      cbn in *; try done.
    injection Hlook as Hlook. f_equal. unfold erase_dir in Hlook.
    by rewrite <- (dom_fmap_L erase e1), <- (dom_fmap_L erase e2), Hlook.
  - assert (∀ (e1 e2 : gmap string content) name text,
              erase <$> e1 = erase <$> e2 →
              e1 !! name = Some (Text text) → e2 !! name = Some (Text text)) as Hone.
    { intros e1 e2 name text Heq Hl.
      assert ((erase <$> e2) !! name = Some (Text text)) as Hl2.
      { rewrite <- Heq, lookup_fmap, Hl. done. }
      rewrite lookup_fmap in Hl2. destruct (e2 !! name) as [[a|s]|]; cbn in Hl2;
        congruence. }
    intros d name text. specialize (Hlook d).
    destruct (tree (snd r1) !! d) as [e1|], (tree (snd r2) !! d) as [e2|];
      cbn in *; try done.
    injection Hlook as Hlook. unfold erase_dir in Hlook. split; apply Hone; done.
Qed.

End Facts.

(** Ten patches. *)
Definition names10 : list string := map (λ i : nat, pretty i +:+ ".png") (seq 0 10).

Definition dir_of (names : list string) : gmap string content :=
  list_to_map (map (λ n, (n, Image (Mono []))) names).

(** The results directory after [convert] made ten patches. *)
Definition tree10 : gmap string (gmap string content) :=
  list_to_map
    ([(FULL_DIR +:+ ORIGINAL_SUBDIR, dir_of names10);
      (FULL_DIR +:+ GT_SUBDIR, dir_of names10);
      (FULL_DIR +:+ RECALL_SUBDIR, dir_of names10);
      (FULL_DIR +:+ PRECISION_SUBDIR, dir_of names10);
      (LABELS_DIR, ∅)]
     ++ map (λ d, (d, ∅))
          (flat_map (λ d, [d +:+ ORIGINAL_SUBDIR; d +:+ GT_SUBDIR;
                           d +:+ RECALL_SUBDIR; d +:+ PRECISION_SUBDIR])
             [TRAIN_DIR; VAL_DIR; TEST_DIR])).

(** A generator that always answers 0, and a system that lists a directory
    in the order of its names. *)
Definition zero_randbelow (n : Z) (g : unit) : Z * unit := (0, g).

(** C5 at ten patches. Both cut-offs are floats: [10 // (1 / .6)] is 5.0,
    not 6, because the double [1 / .6] is above 5/3; so five patches go to
    train, three to val and two to test. *)
Theorem split_ten_patches :
  let run := Crop.split_into_sets zero_randbelow (λ l, l) (Disk tt tree10) in
  PyFloat.floordiv (PyFloat.of_int 10) (1 / PyFloat.lit_0_6)%float = Some 5%float
  ∧ PyFloat.floordiv (PyFloat.of_int 10) (1 / PyFloat.lit_0_8)%float = Some 8%float
  ∧ fst run = Ok tt
  ∧ (λ d, size <$> tree (snd run) !! (d +:+ ORIGINAL_SUBDIR))
      <$> [FULL_DIR; TRAIN_DIR; VAL_DIR; TEST_DIR]
    = [Some 0; Some 5; Some 3; Some 2]%nat.
Proof. vm_compute. repeat split; reflexivity. Qed.

End SplitFacts.

(** ** Document *)

Module DocFacts.
Import Crop Doc PathFacts.

Section Facts.
Context {rng tws rgba layer : Type} `{E : Env rng tws rgba layer}.

Local Abbreviation W := (state rng).

(** The line [dprint] writes. *)
Definition dline (i : Z) (text : string) : string := pretty i +:+ ": " +:+ text.

Definition unsaved : string :=
  "Trying to save document before it has been generated.".

(** The name a save falls back on. *)
Definition default_name (d : Document) (suffix : string) : string :=
  "img_" +:+ pretty (random_seed d) +:+ suffix.
Definition target (d : Document) (file : option string) (suffix : string) : string :=
  PyStr.join (output_dir d) (default (default_name d suffix) file).

(** What a name holds: the content of the regular file it leads to. *)
Definition holds (name : string) (s : W) : option content :=
  match read_file name s with
  | (Ok c, _) => Some c
  | _ => None
  end.

(** Whether a name leads to a directory, and the name [shutil.copy2] copies
    to: into [dest] when that is a directory, onto it otherwise. *)
Definition is_folder (name : string) (s : W) : bool :=
  match isdir name s with
  | (Ok b, _) => b
  | _ => false
  end.
Definition copy_name (src dest : string) (s : W) : string :=
  if is_folder dest s then PyStr.join dest (PyStr.basename src) else dest.

(** *** The file system *)

(** [s'] has the files of [s], and what was there in [s] is there in [s'];
    directories may have been added where nothing was. *)
Definition grows (s s' : W) : Prop :=
  files s' = files s
  ∧ (∀ p, kind_at p s ≠ Absent → kind_at p s' = kind_at p s)
  ∧ py_rand s' = py_rand s ∧ np_rand s' = np_rand s
  ∧ out s' = out s ∧ err s' = err s ∧ self s' = self s.

Lemma grows_refl (s : W) : grows s s.
Proof. by repeat split. Qed.

Lemma grows_trans (s1 s2 s3 : W) : grows s1 s2 → grows s2 s3 → grows s1 s3.
Proof.
  intros (F1 & K1 & A1 & B1 & C1 & D1 & E1) (F2 & K2 & A2 & B2 & C2 & D2 & E2).
  repeat split; try congruence.
  intros p Hp. rewrite K2; [by apply K1|]. by rewrite K1.
Qed.

(** The directories of [s] are directories of [s']. *)
Definition keeps_folders (s s' : W) : Prop :=
  ∀ p, kind_at p s = Folder → kind_at p s' = Folder.

Lemma grows_keeps_folders (s s' : W) : grows s s' → keeps_folders s s'.
Proof.
  intros (_ & K & _) p Hp. rewrite K; [done|]. by rewrite Hp.
Qed.

Lemma kind_folder (s : W) (p : path) :
  kind_at p s = Folder ↔ p = [] ∨ p ∈ folders s.
Proof.
  unfold kind_at, kind_of. destruct p as [|x p]; [by split; [left|]|].
  repeat case_bool_decide; split; (done || auto).
  all: intros [?|?]; done.
Qed.

Lemma same_folders (s s' : W) : folders s' = folders s → keeps_folders s s'.
Proof. intros Hf p. rewrite !kind_folder, Hf. done. Qed.

Lemma walk_keeps (s s' : W) (cur : path) (names : list string) (p : path) :
  keeps_folders s s' →
  walk (files s) (folders s) cur names = Ok p →
  walk (files s') (folders s') cur names = Ok p.
Proof.
  intros Hk. revert cur. induction names as [|name names IH]; intros cur; [done|].
  cbn [walk]. fold (kind_at cur s). fold (kind_at cur s').
  destruct (kind_at cur s) eqn:Hc; try done.
  rewrite (Hk cur Hc).
  destruct (_ || _); [apply IH|]. destruct (String.eqb name ".."); apply IH.
Qed.

Lemma lookup_keeps (s s' : W) (name : string) (p : path) :
  keeps_folders s s' →
  lookup_name name s = Ok p → lookup_name name s' = Ok p.
Proof.
  intros Hk. unfold lookup_name, resolve. destruct name as [|c name]; [done|].
  destruct (Ascii.eqb c "/"); by apply walk_keeps.
Qed.

(** Resolution fails with an OSError only. *)
Lemma walk_error (s : W) (cur : path) (names : list string) (e : exn) :
  walk (files s) (folders s) cur names = Raise e → e ≠ Diverges.
Proof.
  revert cur. induction names as [|name names IH]; intros cur; [done|].
  cbn [walk]. destruct (kind_of _ _ cur); try (by intros [= <-]).
  destruct (_ || _); [apply IH|]. destruct (String.eqb name ".."); apply IH.
Qed.

Lemma lookup_error (name : string) (s : W) (e : exn) :
  lookup_name name s = Raise e → e ≠ Diverges.
Proof.
  unfold lookup_name, resolve. destruct name as [|c name]; [by intros [= <-]|].
  destruct (Ascii.eqb c "/"); apply walk_error.
Qed.

(** Reading a file: the name resolves to a regular file with this content. *)
Lemma holds_spec (name : string) (s : W) (c : content) :
  holds name s = Some c ↔
  ∃ p, lookup_name name s = Ok p ∧ kind_at p s = Regular ∧ files s !! p = Some c.
Proof.
  unfold holds, read_file.
  destruct (lookup_name name s) as [p|e].
  - destruct (kind_at p s) eqn:Hk; destruct (files s !! p) as [c'|] eqn:Hl;
      cbn [fst]; split; try done.
    all: try (intros (q & [= <-] & Hq & Hc); congruence).
    intros [= <-]. by exists p.
  - split; [done|]. by intros (q & [=] & _).
Qed.

Lemma read_file_holds (name : string) (s : W) (c : content) :
  holds name s = Some c → read_file name s = (Ok c, s).
Proof.
  intros (p & Hp & Hk & Hl)%holds_spec. unfold read_file. by rewrite Hp, Hk, Hl.
Qed.

Lemma holds_grows (name : string) (s s' : W) (c : content) :
  grows s s' → holds name s = Some c → holds name s' = Some c.
Proof.
  intros Hg (p & Hp & Hk & Hl)%holds_spec. apply holds_spec. exists p.
  split; [by apply (lookup_keeps s s' name p (grows_keeps_folders _ _ Hg))|].
  destruct Hg as (F & K & _). split; [|by rewrite F].
  rewrite K; [done|]. by rewrite Hk.
Qed.

Lemma kind_regular (s : W) (p : path) :
  kind_at p s = Regular ↔ p ≠ [] ∧ (p ∉ folders s) ∧ p ∈ dom (files s).
Proof.
  unfold kind_at, kind_of. destruct p as [|x p]; [by split; [|intros []]|].
  repeat case_bool_decide; split; (done || auto).
  all: intros (? & ? & ?); done.
Qed.

Lemma kind_absent (s : W) (p : path) :
  kind_at p s = Absent ↔ p ≠ [] ∧ (p ∉ folders s) ∧ (p ∉ dom (files s)).
Proof.
  unfold kind_at, kind_of. destruct p as [|x p]; [by split; [|intros []]|].
  repeat case_bool_decide; split; (done || auto).
  all: intros (? & ? & ?); done.
Qed.

(** [os.mkdir] adds one directory where there was nothing, or fails and
    changes nothing. *)
Lemma mkdir_grows (name : string) (s : W) : grows s (snd (mkdir name s)).
Proof.
  unfold mkdir. destruct (lookup_name (trim name) s) as [p|e]; [|apply grows_refl].
  destruct (kind_at p s) eqn:Hk; try apply grows_refl.
  cbn [snd]. repeat split; try done.
  intros q Hq. cbn [files folders].
  apply kind_absent in Hk as (Hp & Hpf & Hpd).
  assert (q ≠ p) as Hne.
  { intros ->. apply Hq. apply kind_absent. done. }
  unfold kind_at, kind_of. cbn [files folders]. destruct q as [|x q]; [done|].
  destruct (decide (x :: q ∈ folders s)) as [Hin|Hnin].
  - rewrite !bool_decide_true; [done|done|]. apply elem_of_union. by right.
  - rewrite (bool_decide_false (x :: q ∈ folders s)) by done.
    rewrite bool_decide_false; [done|].
    intros [Hq1%elem_of_singleton|Hq2]%elem_of_union; done.
Qed.

Lemma mkdir_ends (name : string) (s : W) : fst (mkdir name s) ≠ Raise Diverges.
Proof.
  unfold mkdir. destruct (lookup_name (trim name) s) as [p|e] eqn:Hp.
  - by destruct (kind_at p s).
  - cbn [fst]. intros [= ->]. by apply (lookup_error _ _ _ Hp).
Qed.

Lemma path_exists_ok (name : string) (s : W) :
  ∃ found, path_exists name s = (Ok found, s).
Proof.
  unfold path_exists, stat_or_absent, stat, mbind, M_bind, bind.
  destruct (lookup_name name s); by eexists.
Qed.

Lemma path_exists_same (name : string) (s : W) : snd (path_exists name s) = s.
Proof. by destruct (path_exists_ok name s) as [found ->]. Qed.

Lemma isdir_same (name : string) (s : W) : snd (isdir name s) = s.
Proof.
  unfold isdir, stat_or_absent, stat, mbind, M_bind, bind.
  by destruct (lookup_name name s).
Qed.

Lemma isdir_ok (name : string) (s : W) : isdir name s = (Ok (is_folder name s), s).
Proof.
  unfold is_folder, isdir, stat_or_absent, stat, mbind, M_bind, bind.
  by destruct (lookup_name name s).
Qed.

(** [os.makedirs] only adds directories, whatever its outcome. *)
Lemma makedirs_from_grows (fuel : nat) (name : string) (s : W) :
  grows s (snd (makedirs_from fuel name s)).
Proof.
  revert name s. induction fuel as [|fuel IH]; intros name s; [apply grows_refl|].
  cbn [makedirs_from].
  destruct (PyStr.split name) as [head tail].
  destruct (if String.eqb tail "" then PyStr.split head else (head, tail))
    as [head' tail'].
  cbv zeta. unfold mbind, M_bind, bind.
  destruct (negb (String.eqb head' "") && negb (String.eqb tail' "")).
  - pose proof (path_exists_same head' s) as Hs.
    destruct (path_exists head' s) as [[found|e] s0]; cbn [snd] in Hs; subst s0;
      [|apply grows_refl].
    destruct found.
    + cbn [mret M_ret ret]. apply mkdir_grows.
    + pose proof (IH head' s) as Hg.
      destruct (makedirs_from fuel head' s) as [[[]|e] s1]; cbn [snd] in Hg.
      * cbn [mret M_ret ret]. destruct (negb (String.eqb tail' ".")).
        -- eapply grows_trans; [exact Hg|apply mkdir_grows].
        -- done.
      * destruct e as [| | | |errno| | | | | |]; try done.
        destruct (errno =? EEXIST); [|done].
        cbn [mret M_ret ret]. destruct (negb (String.eqb tail' ".")).
        -- eapply grows_trans; [exact Hg|apply mkdir_grows].
        -- done.
  - cbn [mret M_ret ret]. apply mkdir_grows.
Qed.

(** [os.makedirs] returns or raises: the length of the name is fuel enough. *)
Lemma makedirs_from_ends (fuel : nat) (name : string) (s : W) :
  (PyStr.len name < fuel)%nat →
  fst (makedirs_from fuel name s) ≠ Raise Diverges.
Proof.
  revert name s. induction fuel as [|fuel IH]; intros name s Hlen; [lia|].
  cbn [makedirs_from].
  pose proof (len_split name) as Hs1.
  destruct (PyStr.split name) as [head tail]. cbn [fst snd] in Hs1.
  assert (∀ head' tail',
            (if String.eqb tail "" then PyStr.split head else (head, tail))
            = (head', tail') →
            negb (String.eqb tail' "") = true → (PyStr.len head' < fuel)%nat) as Hshort.
  { intros head' tail' Heq Hne.
    assert (0 < PyStr.len tail')%nat as Hpos.
    { destruct tail'; [done|]. unfold PyStr.len. cbn. lia. }
    destruct (String.eqb tail "").
    - pose proof (len_split head) as Hs2. rewrite Heq in Hs2. cbn [fst snd] in Hs2.
      lia.
    - injection Heq as <- <-. lia. }
  destruct (if String.eqb tail "" then PyStr.split head else (head, tail))
    as [head' tail'].
  specialize (Hshort head' tail' eq_refl).
  cbv zeta. unfold mbind, M_bind, bind.
  destruct (negb (String.eqb head' "")); cbn [andb];
    [|cbn [mret M_ret ret]; apply mkdir_ends].
  destruct (negb (String.eqb tail' "")) eqn:Ht;
    [|cbn [mret M_ret ret]; apply mkdir_ends].
  destruct (path_exists_ok head' s) as [found ->].
  destruct found; [cbn [mret M_ret ret]; apply mkdir_ends|].
  pose proof (IH head' s (Hshort eq_refl)) as Hrec.
  destruct (makedirs_from fuel head' s) as [[[]|e] s1]; cbn [fst] in Hrec.
  - cbn [mret M_ret ret]. destruct (negb (String.eqb tail' "."));
      [apply mkdir_ends|done].
  - destruct e as [| | | |errno| | | | | |]; try done.
    destruct (errno =? EEXIST); [|done].
    cbn [mret M_ret ret]. destruct (negb (String.eqb tail' "."));
      [apply mkdir_ends|done].
Qed.

Lemma makedirs_exist_ok_ends (d : string) (s : W) :
  fst (makedirs_exist_ok d s) ≠ Raise Diverges.
Proof.
  unfold makedirs_exist_ok, makedirs.
  pose proof (makedirs_from_ends (S (PyStr.len d)) d s ltac:(lia)) as He.
  destruct (makedirs_from _ d s) as [[[]|e] s1]; cbn [fst] in He; [done|].
  destruct e as [| | | |errno| | | | | |]; try done.
  by destruct (errno =? EEXIST).
Qed.

Lemma makedirs_exist_ok_grows (d : string) (s : W) :
  grows s (snd (makedirs_exist_ok d s)).
Proof.
  unfold makedirs_exist_ok, makedirs.
  pose proof (makedirs_from_grows (S (PyStr.len d)) d s) as Hg.
  destruct (makedirs_from _ d s) as [[[]|e] s1]; cbn [snd] in Hg; [done|].
  destruct e as [| | | |errno| | | | | |]; try done.
  by destruct (errno =? EEXIST).
Qed.

(** What a successful [shutil.copy2] leaves: one file made or overwritten,
    away from the source. *)
Lemma copy2_spec (src dst : string) (s : W) (c : content) :
  holds src s = Some c →
  (∃ e, e ≠ Diverges ∧ copy2 src dst s = (Raise e, s))
  ∨ (∃ p q,
       lookup_name src s = Ok p ∧ kind_at p s = Regular ∧ files s !! p = Some c
       ∧ lookup_name (copy_name src dst s) s = Ok q ∧ kind_at q s ≠ Folder
       ∧ p ≠ q
       ∧ copy2 src dst s
         = (Ok tt, State (<[q := c]> (files s)) (folders s) (py_rand s) (np_rand s)
                     (out s) (err s) (self s))).
Proof.
  intros Hc. pose proof Hc as (p & Hp & Hk & Hl)%holds_spec.
  unfold copy2, mbind, M_bind, bind. rewrite isdir_ok. fold (copy_name src dst s).
  set (dst' := copy_name src dst s).
  unfold copyfile, mbind, M_bind, bind, samefile. rewrite Hp, Hk.
  assert (∀ e, write_file dst' c s = (Raise e, s) → e ≠ Diverges) as Hwrite.
  { unfold write_file. intros e. destruct (PyStr.ends_with_slash dst').
    - destruct (lookup_name (trim dst') s) as [q'|e'] eqn:Hq'.
      + by destruct (kind_at q' s); intros [= <-].
      + intros [= <-]. by apply (lookup_error _ _ _ Hq').
    - destruct (lookup_name dst' s) as [q'|e'] eqn:Hq'.
      + by destruct (kind_at q' s); intros [= <-].
      + intros [= <-]. by apply (lookup_error _ _ _ Hq'). }
  assert (∀ q, lookup_name dst' s = Ok q → p ≠ q →
            (∃ e, write_file dst' c s = (Raise e, s))
            ∨ (kind_at q s ≠ Folder
               ∧ write_file dst' c s
                 = (Ok tt, State (<[q := c]> (files s)) (folders s) (py_rand s)
                             (np_rand s) (out s) (err s) (self s)))) as Hcases.
  { intros q Hq Hne. unfold write_file. destruct (PyStr.ends_with_slash dst').
    - left. destruct (lookup_name (trim dst') s) as [q'|e']; [|by eexists].
      destruct (kind_at q' s); by eexists.
    - rewrite Hq. destruct (kind_at q s) eqn:Hkq;
        [by right|left; by eexists|by right]. }
  destruct (lookup_name dst' s) as [q|e] eqn:Hq.
  - destruct (bool_decide_reflect (p = q)) as [->|Hne];
      [left; by exists SameFileError|].
    rewrite (read_file_holds _ _ _ Hc).
    destruct (Hcases q eq_refl Hne) as [[e He]|[Hkq He]].
    + left. exists e. split; [by apply Hwrite|done].
    + right. by exists p, q.
  - rewrite (read_file_holds _ _ _ Hc). left.
    assert (∃ e', write_file dst' c s = (Raise e', s)) as [e' He'].
    { unfold write_file. destruct (PyStr.ends_with_slash dst').
      - destruct (lookup_name (trim dst') s) as [q'|e']; [|by eexists].
        destruct (kind_at q' s); by eexists.
      - rewrite Hq. by eexists. }
    exists e'. split; [by apply Hwrite|done].
Qed.

Lemma is_folder_keeps (name : string) (s s' : W) :
  keeps_folders s s' → keeps_folders s' s →
  is_folder name s' = is_folder name s.
Proof.
  intros H1 H2. unfold is_folder, isdir, stat_or_absent, stat, mbind, M_bind, bind.
  destruct (lookup_name name s) as [p|e] eqn:Hp.
  - rewrite (lookup_keeps s s' _ _ H1 Hp). cbn.
    destruct (kind_at p s) eqn:Hk.
    + destruct (kind_at p s') eqn:Hk'; try done. by rewrite (H2 _ Hk') in Hk.
    + by rewrite (H1 _ Hk).
    + destruct (kind_at p s') eqn:Hk'; try done. by rewrite (H2 _ Hk') in Hk.
  - destruct (lookup_name name s') as [p|e'] eqn:Hp'; [|done].
    by rewrite (lookup_keeps s' s _ _ H2 Hp') in Hp.
Qed.

(** *** save and save_ground_truth *)

(** A run of [save] on a Document with a result whose temporary file is
    there: the output directory is made if need be; then either an
    exception ends the run with no file touched, or the page is copied and
    the temporary file removed. *)
Lemma save_run (file : option string) (s : W) (i : Z) (rest : list Z)
    (r : string) (c : content) :
  identity = i :: rest →
  result (self s) = Some r → holds r s = Some c →
  let dest := target (self s) file ".png" in
  ∃ s1, grows s s1 ∧
    ((∃ e, e ≠ Diverges ∧ save file s = (Raise e, s1))
     ∨ (∃ p q,
          lookup_name r s1 = Ok p ∧ kind_at p s1 = Regular
          ∧ files s !! p = Some c
          ∧ lookup_name (copy_name r dest s1) s1 = Ok q ∧ kind_at q s1 ≠ Folder
          ∧ p ≠ q
          ∧ save file s
            = (Ok tt,
               State (delete p (<[q := c]> (files s))) (folders s1) (py_rand s)
                 (np_rand s) (out s ++ [dline i ("File saved to " +:+ dest)])
                 (err s) (self s)))).
Proof.
  intros Hid Hres Hc dest.
  unfold save, mbind, M_bind, bind, this. rewrite Hres.
  fold (default_name (self s) ".png").
  assert (PyStr.join (output_dir (self s))
            match file with Some f => f | None => default_name (self s) ".png" end
          = dest) as ->.
  { unfold dest, target. by destruct file. }
  pose proof (makedirs_exist_ok_grows (output_dir (self s)) s) as Hg.
  pose proof (makedirs_exist_ok_ends (output_dir (self s)) s) as He.
  destruct (makedirs_exist_ok (output_dir (self s)) s) as [[[]|e] s1];
    cbn [fst snd] in Hg, He; exists s1; (split; [done|]);
    [|left; exists e; split; [congruence|done]].
  pose proof (holds_grows _ _ _ _ Hg Hc) as Hc1.
  destruct Hg as (F & K & A & B & C & D & S).
  destruct (copy2_spec r dest s1 c Hc1)
    as [(e & Hpy & ->)|(p & q & Hp & Hkp & Hlp & Hq & Hkq & Hne & ->)];
    [left; by exists e|].
  right. exists p, q. rewrite F in Hlp. repeat (split; [done|]).
  unfold dprint. rewrite Hid. cbn [modify]. unfold remove.
  cbn [files folders py_rand np_rand out err self].
  set (s2 := State (<[q := c]> (files s1)) (folders s1) (py_rand s1) (np_rand s1)
               (out s1 ++ [pretty i +:+ ": " +:+ "File saved to " +:+ dest])
               (err s1) (self s1)).
  assert (lookup_name r s2 = Ok p) as ->.
  { by apply (lookup_keeps s1 s2 r p (same_folders s1 s2 eq_refl)). }
  assert (kind_at p s2 = Regular) as ->.
  { apply kind_regular. apply kind_regular in Hkp as (P1 & P2 & P3).
    split; [done|]. split; [done|]. cbn [files s2].
    rewrite dom_insert. apply elem_of_union. by right. }
  unfold s2. cbn [files folders py_rand np_rand out err self].
  unfold dline. by rewrite F, A, B, C, D, S.
Qed.

Lemma save_ground_truth_run (file : option string) (s : W) (i : Z) (rest : list Z)
    (r g : string) (c : content) :
  identity = i :: rest →
  result (self s) = Some r → result_ground_truth (self s) = Some g →
  holds g s = Some c →
  let dest := target (self s) file "_gt.png" in
  ∃ s1, grows s s1 ∧
    ((∃ e, e ≠ Diverges ∧ save_ground_truth file s = (Raise e, s1))
     ∨ (∃ p q,
          lookup_name g s1 = Ok p ∧ kind_at p s1 = Regular
          ∧ files s !! p = Some c
          ∧ lookup_name (copy_name g dest s1) s1 = Ok q ∧ kind_at q s1 ≠ Folder
          ∧ p ≠ q
          ∧ save_ground_truth file s
            = (Ok tt,
               State (<[q := c]> (files s)) (folders s1) (py_rand s)
                 (np_rand s) (out s ++ [dline i ("File saved to " +:+ dest)])
                 (err s) (self s)))).
Proof.
  intros Hid Hres Hgt Hc dest.
  unfold save_ground_truth, mbind, M_bind, bind, this. rewrite Hres.
  fold (default_name (self s) "_gt.png").
  assert (PyStr.join (output_dir (self s))
            match file with Some f => f | None => default_name (self s) "_gt.png" end
          = dest) as ->.
  { unfold dest, target. by destruct file. }
  pose proof (makedirs_exist_ok_grows (output_dir (self s)) s) as Hg.
  pose proof (makedirs_exist_ok_ends (output_dir (self s)) s) as He.
  destruct (makedirs_exist_ok (output_dir (self s)) s) as [[[]|e] s1];
    cbn [fst snd] in Hg, He; exists s1; (split; [done|]);
    [|left; exists e; split; [congruence|done]].
  pose proof (holds_grows _ _ _ _ Hg Hc) as Hc1.
  destruct Hg as (F & K & A & B & C & D & S).
  rewrite Hgt.
  destruct (copy2_spec g dest s1 c Hc1)
    as [(e & Hpy & ->)|(p & q & Hp & Hkp & Hlp & Hq & Hkq & Hne & ->)];
    [left; by exists e|].
  right. exists p, q. rewrite F in Hlp. repeat (split; [done|]).
  unfold dprint. rewrite Hid. cbn [modify files folders py_rand np_rand out err self].
  unfold dline. by rewrite F, A, B, C, D, S.
Qed.

(** C8. A Document without a result refuses both saves: one line goes to
    stderr and nothing else changes.  With a result whose temporary file is
    there, [save] either returns normally, and then the page has been
    copied (into the target when that is a directory, onto it otherwise)
    and the temporary file is gone, or raises, and then no file has been
    copied or deleted.  [save_ground_truth] leaves its source where it is
    and as it is, whatever its outcome; when it returns normally the copy
    has been made, and when it raises no file has changed. *)
Theorem save_and_save_ground_truth (file : option string) (s : W) (i : Z) (rest : list Z) :
  identity = i :: rest →
  (result (self s) = None →
     save file s
     = (Ok tt, State (files s) (folders s) (py_rand s) (np_rand s) (out s)
                 (err s ++ [dline i unsaved]) (self s))
     ∧ save_ground_truth file s
       = (Ok tt, State (files s) (folders s) (py_rand s) (np_rand s) (out s)
                   (err s ++ [dline i unsaved]) (self s)))
  ∧ (∀ r c,
       result (self s) = Some r → holds r s = Some c →
       let dest := target (self s) file ".png" in
       let s' := snd (save file s) in
       (fst (save file s) = Ok tt →
        holds r s' = None
        ∧ holds (copy_name r dest s') s' = Some c
        ∧ (∃ p q, p ≠ q ∧ files s !! p = Some c
                  ∧ files s' = delete p (<[q := c]> (files s))))
       ∧ (∀ e, fst (save file s) = Raise e →
          e ≠ Diverges ∧ files s' = files s ∧ holds r s' = Some c))
  ∧ (∀ r g c,
       result (self s) = Some r → result_ground_truth (self s) = Some g →
       holds g s = Some c →
       let dest := target (self s) file "_gt.png" in
       let s' := snd (save_ground_truth file s) in
       holds g s' = Some c
       ∧ (fst (save_ground_truth file s) = Ok tt →
          holds (copy_name g dest s') s' = Some c
          ∧ (∃ q, files s' = <[q := c]> (files s)))
       ∧ (∀ e, fst (save_ground_truth file s) = Raise e →
          e ≠ Diverges ∧ files s' = files s)).
Proof.
  intros Hid. split; [|split].
  - intros Hres. unfold save, save_ground_truth, mbind, M_bind, bind, this.
    rewrite Hres. unfold dprint. rewrite Hid. done.
  - intros r c Hres Hc. cbv zeta.
    destruct (save_run file s i rest r c Hid Hres Hc)
      as (s1 & Hg & [(e & Hpy & ->)|(p & q & Hp & Hkp & Hlp & Hq & Hkq & Hne & ->)]);
      cbn [fst snd]; set (dest := target (self s) file ".png") in *.
    { split; [done|]. intros e' [= <-]. split; [done|]. split; [by destruct Hg|].
      by apply (holds_grows r s s1). }
    split; [|done]. intros _.
    set (s' := State (delete p (<[q := c]> (files s))) (folders s1) (py_rand s)
                 (np_rand s) (out s ++ [dline i ("File saved to " +:+ dest)])
                 (err s) (self s)).
    pose proof (same_folders s1 s' eq_refl) as K1.
    pose proof (same_folders s' s1 eq_refl) as K2.
    apply kind_regular in Hkp as (P1 & P2 & P3).
    split; [|split].
    + destruct (holds r s') as [c'|] eqn:Hh; [|done].
      apply holds_spec in Hh as (p' & Hp' & Hk' & _).
      rewrite (lookup_keeps s1 s' r p K1 Hp) in Hp'. injection Hp' as <-.
      apply kind_regular in Hk' as (_ & _ & Hin). cbn [files s'] in Hin.
      apply elem_of_dom in Hin as [c'' Hin]. by rewrite lookup_delete_eq in Hin.
    + apply holds_spec. exists q.
      unfold copy_name. rewrite (is_folder_keeps dest s1 s' K1 K2).
      fold (copy_name r dest s1).
      split; [by apply (lookup_keeps s1 s' _ q K1)|].
      assert (files s' !! q = Some c) as Hlq.
      { cbn [files s']. rewrite lookup_delete_ne by done. apply lookup_insert_eq. }
      split; [|done]. apply kind_regular.
      split; [intros ->; by apply Hkq|].
      split; [|apply elem_of_dom; by eexists].
      intros Hin. apply Hkq. apply kind_folder. by right.
    + by exists p, q.
  - intros r g c Hres Hgt Hc. cbv zeta.
    destruct (save_ground_truth_run file s i rest r g c Hid Hres Hgt Hc)
      as (s1 & Hg & [(e & Hpy & ->)|(p & q & Hp & Hkp & Hlp & Hq & Hkq & Hne & ->)]);
      cbn [fst snd]; set (dest := target (self s) file "_gt.png") in *.
    { split; [by apply (holds_grows g s s1)|]. split; [done|].
      intros e' [= <-]. split; [done|]. by destruct Hg. }
    set (s' := State (<[q := c]> (files s)) (folders s1) (py_rand s)
                 (np_rand s) (out s ++ [dline i ("File saved to " +:+ dest)])
                 (err s) (self s)).
    pose proof (same_folders s1 s' eq_refl) as K1.
    pose proof (same_folders s' s1 eq_refl) as K2.
    apply kind_regular in Hkp as (P1 & P2 & P3).
    split; [|split; [|done]].
    + apply holds_spec. exists p.
      split; [by apply (lookup_keeps s1 s' _ p K1)|].
      assert (files s' !! p = Some c) as Hl.
      { cbn [files s']. by rewrite lookup_insert_ne. }
      split; [|done]. apply kind_regular.
      split; [done|]. split; [done|]. apply elem_of_dom. by eexists.
    + intros _. split; [|by exists q].
      apply holds_spec. exists q.
      unfold copy_name. rewrite (is_folder_keeps dest s1 s' K1 K2).
      fold (copy_name g dest s1).
      split; [by apply (lookup_keeps s1 s' _ q K1)|].
      assert (files s' !! q = Some c) as Hlq.
      { cbn [files s']. apply lookup_insert_eq. }
      split; [|done]. apply kind_regular.
      split; [intros ->; by apply Hkq|].
      split; [|apply elem_of_dom; by eexists].
      intros Hin. apply Hkq. apply kind_folder. by right.
Qed.

(** Computations that leave the files, the directories, stderr and the
    Document alone. *)
Definition keeps {A} (m : M W A) : Prop :=
  ∀ s, files (snd (m s)) = files s ∧ folders (snd (m s)) = folders s
       ∧ self (snd (m s)) = self s ∧ err (snd (m s)) = err s.

Lemma keeps_ret {A} (a : A) : keeps (mret a : M W A).
Proof. by intros s. Qed.

Lemma keeps_raise {A} (e : exn) : keeps (raise e : M W A).
Proof. by intros s. Qed.

Lemma keeps_bind {A B} (m : M W A) (k : A → M W B) :
  keeps m → (∀ a, keeps (k a)) → keeps (m ≫= k).
Proof.
  intros Hm Hk s. unfold mbind, M_bind, bind.
  destruct (Hm s) as (H1 & H2 & H3 & H4).
  destruct (m s) as [[a|e] s']; cbn [snd] in *.
  - destruct (Hk a s') as (K1 & K2 & K3 & K4). repeat split; congruence.
  - done.
Qed.

Lemma keeps_this : keeps this.
Proof. by intros s. Qed.

Lemma keeps_print (text : string) : keeps (print text).
Proof. by intros s. Qed.

Lemma keeps_dprint_out (text : string) : keeps (dprint false text).
Proof. intros s. unfold dprint. by destruct identity. Qed.

Lemma keeps_os_listdir (d : string) : keeps (os_listdir d).
Proof. unfold os_listdir. destruct (listdir d); apply keeps_ret || apply keeps_raise. Qed.

Lemma keeps_choice (l : list string) : keeps (choice l).
Proof.
  intros s. unfold choice. destruct l as [|x l]; [done|].
  destruct (randbelow _ (py_rand s)) as [r g]. by destruct (_ !! _).
Qed.

Lemma keeps_imread (path : string) : keeps (imread path).
Proof. by intros s. Qed.

Lemma keeps_np_random_random : keeps np_random_random.
Proof. intros s. unfold np_random_random. by destruct (np_random _). Qed.

Lemma keeps_tracker_step shape st : keeps (tracker_step shape st).
Proof.
  intros s. unfold tracker_step.
  by destruct (get_next_word_pos _ _) as [pos [[st' g] n]].
Qed.

Lemma keeps_color_step color : keeps (color_step color).
Proof. intros s. unfold color_step. by destruct (np_randint3 _). Qed.

Lemma keeps_lift_res {A} (r : res A) : keeps (lift_res r).
Proof. destruct r; apply keeps_ret || apply keeps_raise. Qed.

Lemma keeps_text_words fuel folder color st all_words :
  keeps (text_words fuel folder color st all_words).
Proof.
  revert color st all_words. induction fuel as [|fuel IH]; intros color st all_words;
    [apply keeps_raise|].
  cbn [text_words].
  apply keeps_bind; [apply keeps_os_listdir|]. intros names.
  apply keeps_bind; [apply keeps_choice|]. intros name.
  apply keeps_bind; [apply keeps_imread|]. intros word.
  apply keeps_bind; [apply keeps_lift_res|]. intros word'.
  apply keeps_bind; [apply keeps_tracker_step|]. intros [[pos|] st'];
    [|apply keeps_ret].
  apply keeps_bind; [apply keeps_color_step|]. intros color'.
  destruct (get_padded_image _ _). apply IH.
Qed.

Lemma keeps_fade_words fuel folder color st all_words :
  keeps (fade_words fuel folder color st all_words).
Proof.
  revert color st all_words. induction fuel as [|fuel IH]; intros color st all_words;
    [apply keeps_raise|].
  cbn [fade_words].
  apply keeps_bind; [apply keeps_os_listdir|]. intros names.
  apply keeps_bind; [apply keeps_choice|]. intros name.
  apply keeps_bind; [apply keeps_imread|]. intros [word|]; [|apply keeps_raise].
  apply keeps_bind; [apply keeps_lift_res|]. intros word'.
  apply keeps_bind; [apply keeps_tracker_step|]. intros [[pos|] st'];
    [|apply keeps_ret].
  apply keeps_bind; [apply keeps_color_step|]. intros color'.
  destruct (get_padded_image _ _). apply IH.
Qed.

Lemma keeps_add_text_fade fuel img : keeps (_add_text_fade fuel img).
Proof.
  unfold _add_text_fade.
  apply keeps_bind; [apply keeps_this|]. intros d.
  apply keeps_bind; [apply keeps_choice|]. intros folder.
  apply keeps_bind; [apply keeps_fade_words|]. intros [l|]; apply keeps_ret.
Qed.

Lemma imread_same (path : string) (s s' : W) :
  files s' = files s → folders s' = folders s →
  imread path s' = (fst (imread path s), s').
Proof.
  intros Hf Hd. unfold imread, read_file, lookup_name, kind_at.
  rewrite Hf, Hd. cbn [fst]. f_equal.
  destruct (resolve cwd (files s) (folders s) path) as [p|e]; [|done].
  by destruct (kind_of (files s) (folders s) p), (files s !! p).
Qed.

(** A text layer that comes back empty has touched nothing. *)
Lemma add_text_none fuel img (s : W) :
  fst (_add_text fuel img s) = Ok None →
  files (snd (_add_text fuel img s)) = files s
  ∧ self (snd (_add_text fuel img s)) = self s.
Proof.
  unfold _add_text, mbind, M_bind, bind, this.
  pose proof (keeps_choice (word_image_folder_list (self s)) s) as (C1 & _ & C3 & _).
  destruct (choice _ s) as [[folder|e] s1]; cbn [fst snd] in *; [|done].
  pose proof (keeps_text_words fuel folder (53, 52, 46)
                (TextWriterState (shape0 img, shape1 img)) None s1)
    as (T1 & _ & T3 & _).
  destruct (text_words _ _ _ _ _ s1) as [[[l|]|e] s2]; cbn [fst snd] in *;
    [| |done].
  - unfold set_self, imwrite, modify. cbn [fst snd].
    destruct (empty _); [done|]. destruct (negb _); [done|].
    by destruct (write_file _ _ _) as [[[]|e] s3].
  - unfold print, modify, mret, M_ret, ret. cbn [fst snd files self].
    intros _. split; congruence.
Qed.

Lemma add_layers_none fuel img (s : W) :
  fst (add_layers fuel img s) = Ok None →
  files (snd (add_layers fuel img s)) = files s
  ∧ self (snd (add_layers fuel img s)) = self s.
Proof.
  unfold add_layers, mbind, M_bind, bind.
  pose proof (keeps_np_random_random s) as (N1 & _ & N3 & _).
  destruct (np_random_random s) as [[x|e] s1]; cbn [fst snd] in *; [|done].
  assert (keeps (if PrimFloat.ltb x lit_0_3 then _add_text_fade fuel img
                 else mret img)) as Hk.
  { destruct (PrimFloat.ltb x lit_0_3); [apply keeps_add_text_fade|apply keeps_ret]. }
  destruct (Hk s1) as (F1 & _ & F3 & _).
  destruct ((if PrimFloat.ltb x lit_0_3 then _add_text_fade fuel img
             else mret img) s1) as [[img'|e] s2];
    cbn [fst snd] in *; [|done].
  intros Hnone. destruct (add_text_none fuel img' s2 Hnone) as [A1 A3].
  split; congruence.
Qed.

(** C3, in the bypass branch. When the real text layer places no glyph,
    [_add_text] returns None and [create] hands that None to cv2.imwrite:
    the call raises cv2.error.  No page image is written and the result
    stays unset, but [create] does not return normally. *)
Theorem create_raises_after_empty_text_layer
    (fuel : nat) (s s1 : W) (i : Z) (rest : list Z) (bg : string) (img : image) :
  identity = i :: rest →
  (os_listdir BACKGROUND_IMAGES_DIR ≫= choice) s = (Ok bg, s1) →
  fst (imread (PyStr.join BACKGROUND_IMAGES_DIR bg) s1) = Ok (Some img) →
  fst (add_layers fuel img
         (State (files s1) (folders s1) (py_rand s1) (np_rand s1)
            (out s1 ++ [dline i ("Adding text to image "
                                    +:+ PyStr.join BACKGROUND_IMAGES_DIR bg)])
            (err s1) (self s1)))
  = Ok None →
  fst (create fuel true s) = Raise Cv2Error
  ∧ result (self (snd (create fuel true s))) = result (self s)
  ∧ files (snd (create fuel true s)) = files s.
Proof.
  intros Hid Hbg Him Hnone.
  assert (files s1 = files s ∧ self s1 = self s) as [Hf1 Hs1].
  { assert (keeps (os_listdir BACKGROUND_IMAGES_DIR ≫= choice)) as Hk.
    { apply keeps_bind; [apply keeps_os_listdir|]. intros l. apply keeps_choice. }
    destruct (Hk s) as (K1 & _ & K3 & _). rewrite Hbg in K1, K3. done. }
  destruct (add_layers_none _ _ _ Hnone) as [A1 A3]. cbn [files self] in A1, A3.
  unfold dline in *.
  remember (State (files s1) (folders s1) (py_rand s1) (np_rand s1)
              (out s1 ++ [pretty i +:+ ": " +:+ "Adding text to image "
                            +:+ PyStr.join BACKGROUND_IMAGES_DIR bg])
              (err s1) (self s1)) as s1' eqn:Es1.
  assert (create fuel true s = (Raise Cv2Error, snd (add_layers fuel img s1'))) as ->.
  { unfold create. unfold mbind, M_bind, bind in Hbg |- *.
    destruct (os_listdir BACKGROUND_IMAGES_DIR s) as [[names|e] s0]; [|done].
    rewrite Hbg. unfold dprint. rewrite Hid. cbn [modify]. rewrite <- Es1.
    assert (imread (PyStr.join BACKGROUND_IMAGES_DIR bg) s1' = (Ok (Some img), s1'))
      as ->.
    { rewrite <- Him. subst s1'. apply imread_same; reflexivity. }
    destruct (add_layers fuel img s1') as [r s2]. cbn [fst snd] in *. subst r.
    done. }
  cbn [fst snd]. split; [done|]. split; congruence.
Qed.

End Facts.
End DocFacts.

(** ** Concrete runs of [create_lmdb], [split_into_sets] and the Document *)

Module LmdbRuns.
Import Crop LmdbFacts.

(** Twenty-five patches, all readable. *)
Definition names25 : list string := map (λ i : nat, pretty i +:+ ".png") (seq 0 25).
Definition list25 (d : string) : option (list string) := Some names25.
Definition read_any (f : string) : option ndarray := Some (Mono [[0]]).
Definition no_codec (a : ndarray) (cmap_gray : bool) : string := "".

Lemma readable25 : readable read_any "/data/synthetic_trial_final/train/original_images/" names25.
Proof. apply Forall_forall. intros n _. by exists (Mono [[0]]). Qed.

(** C2 at twenty-five files. *)
Lemma create_lmdb_commits_witness :
  let run := create_lmdb list25 read_any no_codec data
               "/data/synthetic_trial_final/train/original_images/" (Store ∅ []) in
  fst run = Ok tt
  ∧ stdout (snd run) = printed 0 25 0 ++ [DoneProcessing]
  ∧ committed (snd run)
    = put_all read_any no_codec data
        "/data/synthetic_trial_final/train/original_images/" 0 names25 ∅
  ∧ size (committed (snd run)) = 25%nat
  ∧ (∀ i name, names25 !! i = Some name →
       is_Some (committed (snd run)
                !! key i (PyStr.join "/data/synthetic_trial_final/train/original_images/" name)))
  ∧ (∀ k, k ∈ dom (committed (snd run)) → ∃ i f, (i < 25)%nat ∧ k = key i f).
Proof.
  apply (create_lmdb_commits list25 read_any no_codec data
           "/data/synthetic_trial_final/train/original_images/" names25).
  - reflexivity.
  - apply readable25.
Defined.

(** The lines that report a commit. *)
Definition is_stat (l : line) : bool :=
  match l with
  | Stat _ => true
  | _ => false
  end.

(** C2 as the claim has it fails: with twenty-five files the store is
    committed three times before the final commit, after the writes of
    index 0, 10 and 20 (1, 11 and 21 entries), not twice; and nothing is
    committed after the tenth write, the one of index 9. *)
Lemma create_lmdb_commits_at_0_10_20 :
  let run := create_lmdb list25 read_any no_codec data
               "/data/synthetic_trial_final/train/original_images/" (Store ∅ []) in
  stdout (snd run)
  = [Stat 1; Info; Processed 10; Stat 11; Info; Processed 20; Stat 21; Info;
     DoneProcessing]
  ∧ length (List.filter is_stat (stdout (snd run))) ≠ 2%nat.
Proof.
  cbv zeta.
  destruct (create_lmdb_readable list25 read_any no_codec data
              "/data/synthetic_trial_final/train/original_images/" names25
              eq_refl readable25) as (_ & -> & _).
  split; [reflexivity|]. vm_compute. lia.
Qed.

End LmdbRuns.

Module SplitRuns.
Import Crop SplitFacts.

(** The ten patches again, with other pixels in every image file. *)
Definition dir_of' (names : list string) : gmap string content :=
  list_to_map (map (λ n, (n, Image (Mono [[255]]))) names).
Definition tree10' : gmap string (gmap string content) :=
  list_to_map
    ([(FULL_DIR +:+ ORIGINAL_SUBDIR, dir_of' names10);
      (FULL_DIR +:+ GT_SUBDIR, dir_of' names10);
      (FULL_DIR +:+ RECALL_SUBDIR, dir_of' names10);
      (FULL_DIR +:+ PRECISION_SUBDIR, dir_of' names10);
      (LABELS_DIR, ∅)]
     ++ map (λ d, (d, ∅))
          (flat_map (λ d, [d +:+ ORIGINAL_SUBDIR; d +:+ GT_SUBDIR;
                           d +:+ RECALL_SUBDIR; d +:+ PRECISION_SUBDIR])
             [TRAIN_DIR; VAL_DIR; TEST_DIR])).

Lemma erase_dir_of (names : list string) :
  erase_dir (dir_of' names) = erase_dir (dir_of names).
Proof.
  unfold erase_dir, dir_of, dir_of'. rewrite <- !list_to_map_fmap.
  f_equal. induction names as [|n names IH]; [done|].
  cbn [map fmap list_fmap] in *. by rewrite IH.
Qed.

Lemma erase_tree10 : erase_tree tree10 = erase_tree tree10'.
Proof.
  unfold erase_tree, tree10, tree10'. rewrite <- !list_to_map_fmap.
  rewrite !fmap_app. cbn [fmap list_fmap prod_map fst snd].
  by rewrite !erase_dir_of.
Qed.

(** C6 at two results directories that differ in every image. *)
Lemma split_into_sets_two_runs_witness :
  let r1 := split_into_sets zero_randbelow (λ l, l) (Disk tt tree10) in
  let r2 := split_into_sets zero_randbelow (λ l, l) (Disk tt tree10') in
  fst r1 = fst r2
  ∧ drand (snd r1) = drand (snd r2)
  ∧ (∀ d, dom <$> tree (snd r1) !! d = dom <$> tree (snd r2) !! d)
  ∧ (∀ d name text,
       tree (snd r1) !! d ≫= (.!! name) = Some (Text text)
       ↔ tree (snd r2) !! d ≫= (.!! name) = Some (Text text)).
Proof.
  apply (split_into_sets_two_runs zero_randbelow (λ l, l)
           (Disk tt tree10) (Disk tt tree10')).
  - reflexivity.
  - apply erase_tree10.
Defined.

End SplitRuns.

Module DocRuns.
Import Crop Doc DocFacts.

(** A process in /work whose layout tracker finds no room for any word;
    [ids] is its [_identity]. *)
Definition process (ids : list Z) : Env unit unit unit unit := {|
  HANDWRITTEN_WORDS_DIR := "words";
  BACKGROUND_IMAGES_DIR := "backgrounds";
  STAIN_IMAGES_DIR := "stains";
  DEFAULT_BASE_OUTPUT_DIR := "out";
  TMP_DIR := "/dev/shm";
  cwd := ["work"];
  identity := ids;
  randbelow := λ n g, (0, g);
  random_unit := λ g, (0x1p-1%float, g);
  seed_rng := λ n, tt;
  urandom_rng := tt;
  np_random := λ g, (0x1p-1%float, g);
  np_randint3 := λ g, ((0, 0, 0), g);
  np_seed_rng := λ n, tt;
  listdir := λ d, Some ["a.png"];
  TextWriterState := λ shape, tt;
  get_next_word_pos := λ shape st, (None, st);
  get_padded_image := λ word st, (tt, st);
  add_alpha_channel := λ word, Ok tt;
  rgba_shape := λ word, (1%nat, 1%nat);
  white_to_alpha := λ word color, word;
  GaussianBlur := λ word, word;
  alpha_composite := λ img l, img;
  cvtColor_BGR2GRAY := channel1;
  haveImageWriter := λ file, String.eqb (PyStr.last4 file) ".png";
  DivaDid := λ xml fs, Some fs;
  tostring := λ root, "";
  format_2f := λ x, ""
|}.

(** The first worker of a pool. *)
#[local] Instance crowded : Env unit unit unit unit := process [1].

Definition page : image := [[(200, 200, 200)]].

(** A Document without a result, and the same after a page was made. *)
Definition fresh : Document := Fields 1 1 None None "out" 7 ["words"].
Definition made : Document :=
  Fields 1 1 (Some "/dev/shm/7_augmented.png") (Some "/dev/shm/7_gt.png") "out" 7
    ["words"].

(** The directories /work, /work/backgrounds and /dev/shm; one background
    before, the two temporary files after. *)
Definition before : state unit :=
  State {[ ["work"; "backgrounds"; "a.png"] := Image (Color page) ]}
    {[ ["work"]; ["work"; "backgrounds"]; ["dev"]; ["dev"; "shm"] ]}
    tt tt [] [] fresh.
Definition after : state unit :=
  State {[ ["dev"; "shm"; "7_augmented.png"] := Image (Color page);
           ["dev"; "shm"; "7_gt.png"] := Image (Mono [[1]]) ]}
    {[ ["work"]; ["work"; "backgrounds"]; ["dev"]; ["dev"; "shm"] ]}
    tt tt [] [] made.

(** C3 at a background on which no word fits. *)
Lemma create_raises_after_empty_text_layer_witness :
  fst (create 1 true before) = Raise Cv2Error
  ∧ result (self (snd (create 1 true before))) = result (self before)
  ∧ files (snd (create 1 true before)) = files before.
Proof.
  apply (create_raises_after_empty_text_layer 1 before before 1 [] "a.png" page).
  - reflexivity.
  - reflexivity.
  - vm_compute. reflexivity.
  - vm_compute. reflexivity.
Defined.

(** C8 at a Document before and after its page was made: the first save
    makes /work/out and moves the page there, the ground truth is copied
    and stays. *)
Lemma save_and_save_ground_truth_witness :
  (save None before
   = (Ok tt, State (files before) (folders before) tt tt [] [dline 1 unsaved] fresh)
   ∧ save_ground_truth None before
     = (Ok tt, State (files before) (folders before) tt tt [] [dline 1 unsaved]
                 fresh))
  ∧ (fst (save None after) = Ok tt
     ∧ holds "/dev/shm/7_augmented.png" (snd (save None after)) = None
     ∧ holds (copy_name "/dev/shm/7_augmented.png" "out/img_7.png"
                (snd (save None after))) (snd (save None after))
       = Some (Image (Color page)))
  ∧ (fst (save_ground_truth None after) = Ok tt
     ∧ holds "/dev/shm/7_gt.png" (snd (save_ground_truth None after))
       = Some (Image (Mono [[1]]))
     ∧ holds (copy_name "/dev/shm/7_gt.png" "out/img_7_gt.png"
                (snd (save_ground_truth None after)))
         (snd (save_ground_truth None after))
       = Some (Image (Mono [[1]]))).
Proof.
  assert (fst (save None after) = Ok tt) as Hsave by (vm_compute; reflexivity).
  assert (fst (save_ground_truth None after) = Ok tt) as Hgt
    by (vm_compute; reflexivity).
  pose proof (save_and_save_ground_truth None before 1 [] eq_refl) as (H1 & _ & _).
  pose proof (save_and_save_ground_truth None after 1 [] eq_refl) as (_ & H2 & H3).
  split; [exact (H1 eq_refl)|]. split.
  - destruct (H2 "/dev/shm/7_augmented.png" (Image (Color page)) eq_refl)
      as [Hok _]; [vm_compute; reflexivity|].
    destruct (Hok Hsave) as (E1 & E2 & _). split; [exact Hsave|]. split; [exact E1|].
    exact E2.
  - destruct (H3 "/dev/shm/7_augmented.png" "/dev/shm/7_gt.png" (Image (Mono [[1]]))
                eq_refl eq_refl) as (E1 & Hok & _); [vm_compute; reflexivity|].
    destruct (Hok Hgt) as (E2 & _). split; [exact Hgt|]. split; [exact E1|].
    exact E2.
Defined.

End DocRuns.

(** ** More about [convert] *)

Module ConvertMore.
Import Crop PyFloatFacts PyStrFacts ArrayFacts ConvertFacts.

Section Facts.
Context {rng : Type}.
Variable randbelow : Z → rng → Z * rng.
Variable imread : string → option image.
Variable Canny_count : image → option Z.
Variable cvtColor_BGR2GRAY : image → gray.
Variable haveImageWriter : string → bool.
Variable writable : string → bool.
Hypothesis randbelow_range :
  ∀ n g, 0 < n → 0 ≤ fst (randbelow n g) < n.

Local Abbreviation convert :=
  (convert randbelow imread Canny_count cvtColor_BGR2GRAY haveImageWriter writable).

(** An original with fewer than 256 rows or fewer than 256 columns is
    passed over: nothing is drawn from the generator and nothing written. *)
Theorem convert_skips_small_originals file grayscale original (w : world rng) :
  imread (ORIGINAL_DIR +:+ file) = Some original →
  (shape0 original < 256)%nat ∨ (shape1 original < 256)%nat →
  convert file grayscale w = (Ok tt, w).
Proof.
  intros Hread Hsmall. unfold Crop.convert.
  destruct (PyStr.contains "gt" file); [done|]. rewrite Hread.
  destruct (Nat.ltb_spec (shape0 original) 256), (Nat.ltb_spec (shape1 original) 256);
    try done. lia.
Qed.

(** A file that cannot be read as an image stops [convert] with an
    AttributeError, and so does a readable original of full size whose
    ground-truth companion is missing; in both cases nothing is written. *)
Theorem convert_raises_on_unreadable_files file grayscale (w : world rng) :
  PyStr.contains "gt" file = false →
  (imread (ORIGINAL_DIR +:+ file) = None →
     convert file grayscale w = (Raise AttributeError, w))
  ∧ (∀ original,
       imread (ORIGINAL_DIR +:+ file) = Some original →
       (256 ≤ shape0 original)%nat → (256 ≤ shape1 original)%nat →
       imread (gt_path file) = None →
       fst (convert file grayscale w) = Raise AttributeError
       ∧ written (snd (convert file grayscale w)) = written w).
Proof.
  intros Hname. split.
  - intros Hread. unfold Crop.convert. by rewrite Hname, Hread.
  - intros original Hread H0 H1 Hgt. unfold Crop.convert.
    rewrite Hname, Hread. fold (gt_path file). rewrite Hgt.
    destruct (Nat.ltb_spec (shape0 original) 256); [lia|].
    destruct (Nat.ltb_spec (shape1 original) 256); [lia|].
    cbn [orb seq Crop.attempts]. unfold mbind, M_bind, bind, randint.
    destruct (Z.leb_spec (Z.of_nat (shape0 original) - 256 - 0 + 1) 0); [lia|].
    destruct (randbelow _ (rand w)) as [r1 g1].
    destruct (Z.leb_spec (Z.of_nat (shape1 original) - 256 - 0 + 1) 0); [lia|].
    cbn [rand written]. by destruct (randbelow _ g1) as [r2 g2].
Qed.

(** On an original that is at least as tall as it is wide, every attempt
    cuts a full 256 x 256 crop, of the image and of the ground truth alike. *)
Theorem crops_of_tall_originals_are_full
    (h wd k : nat) (original gt : image) (g : rng) :
  has_shape h wd original → has_shape h wd gt →
  (256 ≤ wd)%nat → (wd ≤ h)%nat →
  has_shape 256 256 (crop_at randbelow k original g)
  ∧ has_shape 256 256 (gt_at randbelow k original gt g).
Proof.
  intros Hs Hg Hw Hh.
  pose proof (has_shape_shape0 _ _ _ Hs) as E0.
  pose proof (has_shape_shape1 _ _ _ Hs ltac:(lia)) as E1.
  pose proof (draw_range randbelow randbelow_range original
                (rng_after randbelow k original g) ltac:(lia) ltac:(lia)) as Hy.
  fold (offset randbelow k original g) in Hy.
  split.
  - unfold crop_at.
    pose proof (crop_shape h wd (offset randbelow k original g) original Hs
                  ltac:(lia)) as Hc.
    by replace (256 `min` (h - offset randbelow k original g))%nat with 256%nat
      in Hc by lia.
  - unfold gt_at, crop_gt, one_minus, clip01, channel1.
    do 3 apply has_shape_map.
    pose proof (has_shape_slice2 h wd (offset randbelow k original g)
                  (offset randbelow k original g) gt Hg) as Hc.
    replace (256 `min` (h - offset randbelow k original g))%nat with 256%nat
      in Hc by lia.
    by replace (256 `min` (wd - offset randbelow k original g))%nat with 256%nat
      in Hc by lia.
Qed.

(** The ground truth [convert] writes is binary with inverted sense: an
    entry is 1 where channel 1 of the ground-truth file is 0, and 0 where it
    is positive. *)
Theorem crop_gt_is_binary (gt : image) (y : nat) :
  crop_gt gt y
  = map (map (λ p : pixel, if snd (fst p) <=? 0 then 1 else 0))
      (slice2 y (y + 256) y (y + 256) gt)
  ∧ Forall (Forall (λ v, v = 0 ∨ v = 1)) (crop_gt gt y).
Proof.
  assert (crop_gt gt y
          = map (map (λ p : pixel, if snd (fst p) <=? 0 then 1 else 0))
              (slice2 y (y + 256) y (y + 256) gt)) as Heq.
  { unfold crop_gt, one_minus, clip01, channel1. rewrite !map_map.
    apply map_ext. intros row. rewrite !map_map. apply map_ext.
    intros [[b v] r]. cbn [fst snd].
    destruct (Z.leb_spec v 0).
    - replace (Z.max 0 (Z.min v 1)) with 0 by lia. done.
    - replace (Z.max 0 (Z.min v 1)) with 1 by lia. done. }
  split; [done|]. rewrite Heq.
  apply Forall_map, Forall_forall. intros row _.
  apply Forall_map, Forall_forall. intros p _. cbn.
  destruct (_ <=? 0); auto.
Qed.

End Facts.

Import ConvertRuns.

(** A page of 100 rows is passed over. *)
Lemma convert_skips_small_originals_witness :
  convert (fixed_randbelow 0) (read (flat 100 300 0) (flat 100 300 255))
    (λ _, Some 1000) channel1 png_only everywhere "a.png" true start
  = (Ok tt, start).
Proof.
  apply (convert_skips_small_originals (fixed_randbelow 0)
           (read (flat 100 300 0) (flat 100 300 255)) (λ _, Some 1000) channel1
           png_only everywhere "a.png" true (flat 100 300 0) start).
  - reflexivity.
  - left. unfold shape0, flat. rewrite repeat_length. lia.
Defined.

(** A directory in which nothing can be read. *)
Lemma convert_raises_on_unreadable_files_witness :
  convert (fixed_randbelow 0) (λ _, None) (λ _, Some 1000) channel1
    png_only everywhere "a.png" true start
  = (Raise AttributeError, start).
Proof.
  destruct (convert_raises_on_unreadable_files (fixed_randbelow 0) (λ _, None)
              (λ _, Some 1000) channel1 png_only everywhere "a.png" true start)
    as [Hnone _].
  - reflexivity.
  - apply Hnone. reflexivity.
Defined.

(** A page of 300 rows and 256 columns. *)
Lemma crops_of_tall_originals_are_full_witness :
  has_shape 256 256 (crop_at (fixed_randbelow 7) 2 (flat 300 256 0) tt)
  ∧ has_shape 256 256
      (gt_at (fixed_randbelow 7) 2 (flat 300 256 0) (flat 300 256 255) tt).
Proof.
  apply (crops_of_tall_originals_are_full (fixed_randbelow 7)
           (fixed_randbelow_range 7) 300 256 2).
  - apply has_shape_flat.
  - apply has_shape_flat.
  - lia.
  - lia.
Defined.

End ConvertMore.

(** ** More about [create_lmdb] *)

Module LmdbMore.
Import Crop PyStrFacts LmdbFacts.

(** Records of different indices never share a key, whatever the files are
    called; so a later record cannot overwrite an earlier one. *)
Theorem keys_of_different_indices_differ (x y : nat) (f g : string) :
  x ≠ y → key x f ≠ key y g.
Proof. intros Hne Heq. by apply Hne, (key_inj x y f g). Qed.

Section Facts.
Variable listdir : string → option (list string).
Variable imread_unchanged : string → option ndarray.
Variable imsave : ndarray → bool → string.
Variable SerializeToString : DocumentDatum → string.

Local Abbreviation records := (records imread_unchanged imsave SerializeToString).
Local Abbreviation create_lmdb :=
  (create_lmdb listdir imread_unchanged imsave SerializeToString).
Local Abbreviation put_all := (put_all imread_unchanged imsave SerializeToString).
Local Abbreviation readable := (readable imread_unchanged).

(** How many records are committed once [k] writes have succeeded: those up
    to the last index that is a multiple of 10. *)
Definition commit_len (k : nat) : nat :=
  if (k =? 0)%nat then 0%nat else (10 * ((k - 1) / 10) + 1)%nat.

Lemma records_app images l1 l2 x txn w :
  records images x (l1 ++ l2) txn w
  = match records images x l1 txn w with
    | (Ok txn1, w1) => records images (x + length l1) l2 txn1 w1
    | (Raise e, w1) => (Raise e, w1)
    end.
Proof.
  revert x txn w. induction l1 as [|n l1 IH]; intros x txn w.
  - cbn. by rewrite Nat.add_0_r.
  - cbn [app Crop.records length]. unfold mbind, M_bind, bind.
    destruct ((if negb (x =? 0)%nat && (x mod 10 =? 0)%nat
               then print (Processed x) else mret tt) w) as [[[]|e] w0]; [|done].
    destruct (try_reraise _ _ w0) as [[txn0|e] w0']; [|done].
    rewrite IH. by replace (S x + length l1)%nat with (x + S (length l1))%nat by lia.
Qed.

Lemma put_all_app images l1 l2 x txn :
  readable images l1 →
  put_all images x (l1 ++ l2) txn
  = put_all images (x + length l1) l2 (put_all images x l1 txn).
Proof.
  revert x txn. induction l1 as [|n l1 IH]; intros x txn Hr.
  - cbn. by rewrite Nat.add_0_r.
  - apply Forall_cons in Hr as [[a Ha] Hr]. cbn [app LmdbFacts.put_all length].
    rewrite Ha, IH by done.
    by replace (S x + length l1)%nat with (x + S (length l1))%nat by lia.
Qed.

Lemma commit_len_le (k : nat) : (commit_len k ≤ k)%nat.
Proof.
  unfold commit_len. destruct (Nat.eqb_spec k 0); [lia|].
  pose proof (Nat.div_mod (k - 1) 10 ltac:(lia)).
  pose proof (Nat.mod_upper_bound (k - 1) 10 ltac:(lia)). lia.
Qed.

Lemma commit_len_S (k : nat) :
  commit_len (S k) = if (k mod 10 =? 0)%nat then S k else commit_len k.
Proof.
  unfold commit_len. cbn [Nat.eqb]. replace (S k - 1)%nat with k by lia.
  pose proof (Nat.div_mod k 10 ltac:(lia)) as Hk.
  destruct (Nat.eqb_spec (k mod 10) 0) as [Hm|Hm]; [lia|].
  destruct (Nat.eqb_spec k 0) as [->|Hk0]; [done|].
  f_equal. f_equal.
  pose proof (Nat.mod_upper_bound k 10 ltac:(lia)).
  pose proof (Nat.div_mod (k - 1) 10 ltac:(lia)).
  pose proof (Nat.mod_upper_bound (k - 1) 10 ltac:(lia)).
  apply (Nat.div_unique (k - 1) 10 (k / 10) (k mod 10 - 1)); lia.
Qed.

(** What is committed while readable files are put into an empty store. *)
Lemma records_committed images names out0 :
  readable images names →
  fst (records images 0 names ∅ (Store ∅ out0)) = Ok (put_all images 0 names ∅)
  ∧ committed (snd (records images 0 names ∅ (Store ∅ out0)))
    = put_all images 0 (take (commit_len (length names)) names) ∅.
Proof.
  induction names as [|n names IH] using rev_ind; intros Hr; [done|].
  apply Forall_app in Hr as [Hr Hn]. apply Forall_cons in Hn as [[a Ha] _].
  specialize (IH Hr) as [E1 E2].
  assert (keys_below 0 (∅ : gmap string string)) as Hb0.
  { intros k Hk. by rewrite dom_empty_L in Hk. }
  pose proof (put_all_size imread_unchanged imsave SerializeToString images names
                0 ∅ Hr Hb0 map_size_empty) as [Hsz Hkb]. cbn [Nat.add] in Hsz, Hkb.
  rewrite records_app. cbn [Nat.add].
  destruct (records images 0 names ∅ (Store ∅ out0)) as [r w1].
  cbn [fst snd] in E1, E2. subst r.
  rewrite put_all_app by done. cbn [Nat.add LmdbFacts.put_all]. rewrite Ha.
  rewrite length_app. cbn [length]. rewrite Nat.add_1_r, commit_len_S.
  cbn [Crop.records]. unfold mbind, M_bind, bind, try_reraise, process_im.
  rewrite Ha.
  destruct (negb (length names =? 0)%nat && (length names mod 10 =? 0)%nat);
    cbn [print modify mret M_ret ret fst snd stdout committed];
    rewrite (package_readable imsave);
    destruct (length names mod 10 =? 0)%nat eqn:Hc;
    cbn [commit get begin print modify mret M_ret ret fst snd stdout committed];
    (split; [done|]).
  all: try (rewrite take_app_le by (pose proof (commit_len_le (length names)); lia);
            done).
  all: rewrite take_ge by (rewrite length_app; cbn; lia);
       rewrite put_all_app by done; cbn [Nat.add LmdbFacts.put_all];
       by rewrite Ha.
Qed.

(** A file that cannot be read stops the writer: [create_lmdb] raises after
    printing the error and the name of the file, and without the final
    commit.  The store keeps what was committed before: the records up to
    the last index that is a multiple of 10, and nothing of the rest. *)
Theorem create_lmdb_stops_at_unreadable_file images pre bad post :
  listdir images = Some (pre ++ bad :: post) →
  readable images pre →
  imread_unchanged (PyStr.join images bad) = None →
  let run := create_lmdb images (Store ∅ []) in
  fst run = Raise AttributeError
  ∧ committed (snd run)
    = put_all images 0 (take (commit_len (length pre)) pre) ∅
  ∧ size (committed (snd run)) = commit_len (length pre)
  ∧ (∃ before, stdout (snd run)
       = before ++ [Exc AttributeError; Traceback AttributeError;
                    ErrorOccuredOn (PyStr.join images bad)]).
Proof.
  intros Hl Hr Hbad. cbv zeta.
  destruct (records_committed images pre [] Hr) as [E1 E2].
  assert (keys_below 0 (∅ : gmap string string)) as Hb0.
  { intros k Hk. by rewrite dom_empty_L in Hk. }
  assert (readable images (take (commit_len (length pre)) pre)) as Hr'.
  { by apply Forall_take. }
  pose proof (put_all_size imread_unchanged imsave SerializeToString images _
                0 ∅ Hr' Hb0 map_size_empty) as [Hsz _]. cbn [Nat.add] in Hsz.
  rewrite length_take in Hsz.
  pose proof (commit_len_le (length pre)) as Hle.
  unfold Crop.create_lmdb. rewrite Hl.
  unfold mbind, M_bind, bind, begin. cbn [committed].
  rewrite records_app.
  destruct (records images 0 pre ∅ (Store ∅ [])) as [r w1].
  cbn [fst snd] in E1, E2. subst r. cbn [Nat.add Crop.records].
  unfold mbind, M_bind, bind, try_reraise, process_im. rewrite Hbad.
  destruct (negb (length pre =? 0)%nat && (length pre mod 10 =? 0)%nat);
    cbn [print modify mret M_ret ret package raise fst snd stdout committed];
    (split; [done|]); (split; [done|]);
    (split; [rewrite E2, Hsz; lia|]).
  - exists (stdout w1 ++ [Processed (length pre)]). by rewrite <- !app_assoc.
  - exists (stdout w1). by rewrite <- !app_assoc.
Qed.

End Facts.

Lemma keys_of_different_indices_differ_witness : key 0 "a.png" ≠ key 1 "a.png".
Proof. apply keys_of_different_indices_differ. lia. Defined.

(** Thirteen files of which the last but one cannot be read. *)
Definition names13 : list string :=
  map (λ i : nat, pretty i +:+ ".png") (seq 0 12) ++ ["bad.png"; "z.png"].
Definition list13 (d : string) : option (list string) := Some names13.
Definition read_but_bad (f : string) : option ndarray :=
  if String.eqb (PyStr.basename f) "bad.png" then None else Some (Mono [[0]]).

Lemma create_lmdb_stops_at_unreadable_file_witness :
  let pre := map (λ i : nat, pretty i +:+ ".png") (seq 0 12) in
  let run := create_lmdb list13 read_but_bad (λ _ _, "") data "/in" (Store ∅ []) in
  fst run = Raise AttributeError
  ∧ committed (snd run)
    = put_all read_but_bad (λ _ _, "") data "/in" 0
        (take (commit_len (length pre)) pre) ∅
  ∧ size (committed (snd run)) = commit_len (length pre)
  ∧ (∃ before, stdout (snd run)
       = before ++ [Exc AttributeError; Traceback AttributeError;
                    ErrorOccuredOn (PyStr.join "/in" "bad.png")]).
Proof.
  apply (create_lmdb_stops_at_unreadable_file list13 read_but_bad (λ _ _, "") data
           "/in" (map (λ i : nat, pretty i +:+ ".png") (seq 0 12)) "bad.png"
           ["z.png"]).
  - reflexivity.
  - repeat (apply Forall_cons; split; [by eexists|]). apply Forall_nil_2.
  - reflexivity.
Defined.

End LmdbMore.

(** ** More about the Document *)

Module DocMore.
Import Crop Doc DocFacts.

Section Facts.
Context {rng tws rgba layer : Type} `{E : Env rng tws rgba layer}.

Local Abbreviation W := (state rng).

(** A corpus directory that does not exist stops the constructor with an
    OSError before anything is printed, seeded or set. *)
Theorem init_needs_the_corpora fuel stain noise seed output_loc (s : W) :
  is_folder HANDWRITTEN_WORDS_DIR s = false
  ∨ is_folder BACKGROUND_IMAGES_DIR s = false
  ∨ is_folder STAIN_IMAGES_DIR s = false →
  __init__ fuel stain noise seed output_loc s = (Raise (OSError 0), s).
Proof.
  intros Hmiss. unfold __init__, mbind, M_bind, bind.
  rewrite isdir_ok. destruct (is_folder HANDWRITTEN_WORDS_DIR s); [|done].
  cbn [negb]. rewrite isdir_ok.
  destruct (is_folder BACKGROUND_IMAGES_DIR s); [|done].
  cbn [negb]. rewrite isdir_ok.
  destruct (is_folder STAIN_IMAGES_DIR s); [|done].
  by destruct Hmiss as [?|[?|?]].
Qed.

(** Outside a pool worker the process has no number, [dprint] raises
    IndexError, and so does the constructor at its first message: no
    Document can be made in the main process. *)
Theorem init_needs_a_pool_worker fuel stain noise seed output_loc (s : W) :
  identity = [] →
  is_folder HANDWRITTEN_WORDS_DIR s = true →
  is_folder BACKGROUND_IMAGES_DIR s = true →
  is_folder STAIN_IMAGES_DIR s = true →
  fst (__init__ fuel stain noise seed output_loc s) = Raise IndexError
  ∧ (∀ text to_stderr, dprint to_stderr text s = (Raise IndexError, s)).
Proof.
  intros Hid H1 H2 H3. split.
  - unfold __init__, mbind, M_bind, bind.
    rewrite isdir_ok, H1. cbn [negb]. rewrite isdir_ok, H2. cbn [negb].
    rewrite isdir_ok, H3. cbn [negb].
    unfold set_self, modify, dprint. rewrite Hid. reflexivity.
  - intros text to_stderr. unfold dprint. rewrite Hid. reflexivity.
Qed.

(** With a seed given, the constructor leaves a Document without result
    whose seed is the given one, seeds both generators with it and looks for
    words in the one configured directory; a seed outside 0 .. 2^32 - 1 is
    refused by numpy with a ValueError. *)
Theorem init_with_a_seed fuel stain noise (n : Z) output_loc (s : W) i rest :
  identity = i :: rest →
  is_folder HANDWRITTEN_WORDS_DIR s = true →
  is_folder BACKGROUND_IMAGES_DIR s = true →
  is_folder STAIN_IMAGES_DIR s = true →
  (0 ≤ n < 2 ^ 32 →
     __init__ fuel stain noise (Some n) output_loc s
     = (Ok tt,
        State (files s) (folders s) (seed_rng n) (np_seed_rng n)
          (out s ++ [dline i ("Output_dir: " +:+ output_loc);
                     dline i ("Using seed " +:+ pretty n)])
          (err s)
          (Fields stain noise None None output_loc n [HANDWRITTEN_WORDS_DIR])))
  ∧ (¬ (0 ≤ n < 2 ^ 32) →
     fst (__init__ fuel stain noise (Some n) output_loc s) = Raise ValueError).
Proof.
  intros Hid H1 H2 H3.
  assert (∀ r, __init__ fuel stain noise (Some n) output_loc s = r →
          r = (if (0 <=? n) && (n <? 2 ^ 32)
               then (Ok tt,
                     State (files s) (folders s) (seed_rng n) (np_seed_rng n)
                       (out s ++ [dline i ("Output_dir: " +:+ output_loc);
                                  dline i ("Using seed " +:+ pretty n)])
                       (err s)
                       (Fields stain noise None None output_loc n
                          [HANDWRITTEN_WORDS_DIR]))
               else (Raise ValueError,
                     State (files s) (folders s) (seed_rng n) (np_rand s)
                       (out s ++ [dline i ("Output_dir: " +:+ output_loc)])
                       (err s)
                       (Fields stain noise None None output_loc n [])))) as Hrun.
  { intros r <-. unfold __init__, mbind, M_bind, bind.
    rewrite isdir_ok, H1. cbn [negb]. rewrite isdir_ok, H2. cbn [negb].
    rewrite isdir_ok, H3. cbn [negb].
    unfold set_self, modify, dprint. rewrite Hid.
    cbn [modify this set_py_rand self files folders py_rand np_rand out err
           random_seed].
    destruct ((0 <=? n) && (n <? 2 ^ 32));
      cbn [set_np_rand raise modify _gather_data_sources set_self self files
             folders py_rand np_rand out err random_seed stain_level
             text_noisy_level result result_ground_truth output_dir
             word_image_folder_list]; [|done].
    unfold dline. by rewrite <- app_assoc. }
  split; intros Hn; rewrite (Hrun _ eq_refl).
  - destruct (Z.leb_spec 0 n); [|lia]. destruct (Z.ltb_spec n (2 ^ 32)); [|lia]. done.
  - destruct (Z.leb_spec 0 n), (Z.ltb_spec n (2 ^ 32)); try done. lia.
Qed.




(** In the bypass branch a background that cannot be read ends [create]
    quietly: one line is printed, no result is set, no file is written. *)
Theorem create_returns_on_unreadable_background
    (fuel : nat) (s s1 : W) (i : Z) (rest : list Z) (bg : string) :
  identity = i :: rest →
  (os_listdir BACKGROUND_IMAGES_DIR ≫= choice) s = (Ok bg, s1) →
  fst (imread (PyStr.join BACKGROUND_IMAGES_DIR bg) s1) = Ok None →
  create fuel true s
  = (Ok tt,
     State (files s) (folders s) (py_rand s1) (np_rand s) (out s ++
       [dline i ("Adding text to image " +:+ PyStr.join BACKGROUND_IMAGES_DIR bg)])
       (err s) (self s)).
Proof.
  intros Hid Hbg Him.
  assert (keeps (os_listdir BACKGROUND_IMAGES_DIR ≫= choice)) as Hk.
  { apply keeps_bind; [apply keeps_os_listdir|]. intros l. apply keeps_choice. }
  destruct (Hk s) as (K1 & K2 & K3 & K4). rewrite Hbg in K1, K2, K3, K4.
  cbn [snd] in *.
  assert (np_rand s1 = np_rand s ∧ out s1 = out s) as [N O].
  { unfold mbind, M_bind, bind, os_listdir in Hbg.
    destruct (listdir BACKGROUND_IMAGES_DIR) as [l|]; [|done].
    cbn [mret M_ret ret] in Hbg. unfold choice in Hbg.
    destruct l as [|x l]; [done|].
    destruct (randbelow _ (py_rand s)) as [r g].
    destruct (_ !! _); [|done]. by injection Hbg as _ <-. }
  unfold create. unfold mbind, M_bind, bind in Hbg |- *.
  destruct (os_listdir BACKGROUND_IMAGES_DIR s) as [[names|e] s0]; [|done].
  rewrite Hbg. unfold dprint. rewrite Hid. cbn [modify].
  rewrite (imread_same _ s1) by done. rewrite Him.
  unfold dline. by rewrite K1, K2, K3, K4, N, O.
Qed.

(** A name that holds no file cannot be copied. *)
Lemma read_file_fails (name : string) (s : W) :
  holds name s = None →
  ∃ e, read_file name s = (Raise e, s) ∧ e ≠ Diverges.
Proof.
  unfold holds, read_file.
  destruct (lookup_name name s) as [p|e] eqn:Hp.
  - destruct (kind_at p s), (files s !! p); try done; by eexists.
  - intros _. exists e. split; [done|]. by apply (lookup_error _ _ _ Hp).
Qed.

Lemma copy2_fails (src dst : string) (s : W) :
  holds src s = None →
  ∃ e, copy2 src dst s = (Raise e, s) ∧ e ≠ Diverges.
Proof.
  intros Hnone. destruct (read_file_fails src s Hnone) as (e & Hread & Hpy).
  unfold copy2, mbind, M_bind, bind. rewrite isdir_ok.
  unfold copyfile, mbind, M_bind, bind.
  destruct (samefile src _ s) as [[same|e'] s0] eqn:Hsame.
  - assert (s0 = s) as -> by (unfold samefile in Hsame; by injection Hsame).
    destruct same; [by exists SameFileError|]. rewrite Hread. by exists e.
  - unfold samefile in Hsame. done.
Qed.

(** [save] cannot be repeated: after a [save] that returned normally the
    temporary file is gone, so a second [save] raises, and changes no
    file. *)
Theorem save_cannot_be_repeated (file : option string) (s : W) (i : Z)
    (rest : list Z) (r : string) (c : content) :
  identity = i :: rest →
  result (self s) = Some r → holds r s = Some c →
  fst (save file s) = Ok tt →
  let s' := snd (save file s) in
  (∃ e, fst (save file s') = Raise e ∧ e ≠ Diverges)
  ∧ files (snd (save file s')) = files s'.
Proof.
  intros Hid Hres Hc Hok. cbv zeta.
  destruct (save_run file s i rest r c Hid Hres Hc)
    as (s1 & Hg & [(e & _ & He)|(p & q & Hp & Hkp & Hlp & Hq & Hkq & Hne & Hrun)]).
  { rewrite He in Hok. done. }
  rewrite Hrun. cbn [snd].
  set (s' := State (delete p (<[q := c]> (files s))) (folders s1) (py_rand s)
               (np_rand s)
               (out s ++ [dline i ("File saved to " +:+ target (self s) file ".png")])
               (err s) (self s)).
  pose proof (same_folders s1 s' eq_refl) as K1.
  unfold save, mbind, M_bind, bind, this. cbn [self s']. rewrite Hres.
  pose proof (makedirs_exist_ok_grows (output_dir (self s)) s') as Hg2.
  pose proof (makedirs_exist_ok_ends (output_dir (self s)) s') as He2.
  destruct (makedirs_exist_ok (output_dir (self s)) s') as [[[]|e] s2];
    cbn [fst snd] in Hg2, He2.
  2:{ cbn [fst snd]. split; [exists e; split; [done|congruence]|by destruct Hg2]. }
  assert (holds r s2 = None) as Hnone.
  { destruct (holds r s2) as [c'|] eqn:Hh; [|done].
    apply holds_spec in Hh as (p' & Hp' & Hk' & _).
    assert (lookup_name r s2 = Ok p) as Hp2.
    { apply (lookup_keeps s' s2 r p (grows_keeps_folders _ _ Hg2)).
      by apply (lookup_keeps s1 s' r p K1). }
    rewrite Hp2 in Hp'. injection Hp' as <-.
    apply kind_regular in Hk' as (_ & _ & Hin). destruct Hg2 as (F2 & _).
    rewrite F2 in Hin. cbn [files s'] in Hin.
    apply elem_of_dom in Hin as [c'' Hin]. by rewrite lookup_delete_eq in Hin. }
  match goal with
  | |- context [copy2 r ?dst s2] =>
      destruct (copy2_fails r dst s2 Hnone) as (e & -> & Hpy)
  end.
  cbn [fst snd]. split; [by exists e|by destruct Hg2].
Qed.

End Facts.

Import DocRuns.
#[local] Existing Instance crowded.

(** The three corpora under /work, and nothing else. *)
Definition corpora : state unit :=
  State ∅ {[ ["work"]; ["work"; "words"]; ["work"; "backgrounds"];
             ["work"; "stains"] ]} tt tt [] [] fresh.


(** No words and no stains under /work. *)
Lemma init_needs_the_corpora_witness :
  __init__ 12 1 1 None "out" before = (Raise (OSError 0), before).
Proof. apply init_needs_the_corpora. left. vm_compute. reflexivity. Defined.

(** The main process. *)
Lemma init_needs_a_pool_worker_witness :
  fst (__init__ (E := process []) 12 1 1 None "out" corpora) = Raise IndexError
  ∧ (∀ text to_stderr,
       dprint (E := process []) to_stderr text corpora = (Raise IndexError, corpora)).
Proof.
  apply (init_needs_a_pool_worker (E := process [])).
  - reflexivity.
  - vm_compute. reflexivity.
  - vm_compute. reflexivity.
  - vm_compute. reflexivity.
Defined.

Lemma init_with_a_seed_witness :
  __init__ 12 1 1 (Some 7) "out" corpora
  = (Ok tt,
     State (files corpora) (folders corpora) tt tt
       [dline 1 "Output_dir: out"; dline 1 ("Using seed " +:+ pretty 7)] []
       (Fields 1 1 None None "out" 7 ["words"])).
Proof.
  destruct (init_with_a_seed 12 1 1 7 "out" corpora 1 []) as [Hok _].
  - reflexivity.
  - vm_compute. reflexivity.
  - vm_compute. reflexivity.
  - vm_compute. reflexivity.
  - apply Hok. lia.
Defined.


(** No background under /work/backgrounds. *)
Lemma create_returns_on_unreadable_background_witness :
  create 1 true corpora
  = (Ok tt,
     State (files corpora) (folders corpora) tt tt
       [dline 1 "Adding text to image backgrounds/a.png"] [] fresh).
Proof.
  assert (fst (imread (PyStr.join BACKGROUND_IMAGES_DIR "a.png") corpora) = Ok None)
    as Hnone by (vm_compute; reflexivity).
  exact (create_returns_on_unreadable_background 1 corpora corpora 1 [] "a.png"
           eq_refl eq_refl Hnone).
Defined.

Lemma save_cannot_be_repeated_witness :
  (∃ e, fst (save None (snd (save None after))) = Raise e ∧ e ≠ Diverges)
  ∧ files (snd (save None (snd (save None after)))) = files (snd (save None after)).
Proof.
  apply (save_cannot_be_repeated None after 1 [] "/dev/shm/7_augmented.png"
           (Image (Color page))).
  - reflexivity.
  - reflexivity.
  - vm_compute. reflexivity.
  - vm_compute. reflexivity.
Defined.

End DocMore.

(** ** More about [split_into_sets] *)

Module SplitMore.
Import Crop SplitFacts.

Section Facts.
Context {rng : Type}.
Variable randbelow : Z → rng → Z * rng.
Hypothesis randbelow_range :
  ∀ n g, 0 < n → 0 ≤ fst (randbelow n g) < n.

Lemma shuffle_from_permutes (i : nat) (x : list nat) (w : disk rng) :
  (i < length x ∨ i = 0)%nat →
  ∃ y g, shuffle_from randbelow i x w = (Ok y, Disk g (tree w)) ∧ y ≡ₚ x.
Proof.
  revert x w. induction i as [|i IH]; intros x w Hi.
  - exists x, (drand w). by destruct w.
  - destruct Hi as [Hi|]; [|done].
    cbn [shuffle_from]. unfold mbind, M_bind, bind, randbelow_m.
    pose proof (randbelow_range (Z.of_nat (S i) + 1) (drand w) ltac:(lia)) as Hr.
    destruct (randbelow (Z.of_nat (S i) + 1) (drand w)) as [r g]. cbn [fst] in Hr.
    unfold swap.
    destruct (lookup_lt_is_Some_2 x (S i) Hi) as [xi Hxi].
    destruct (lookup_lt_is_Some_2 x (Z.to_nat r) ltac:(lia)) as [xj Hxj].
    rewrite Hxi, Hxj. cbn [mret M_ret ret].
    destruct (IH (<[Z.to_nat r := xi]> (<[S i := xj]> x)) (Disk g (tree w)))
      as (y & g' & Hy & Hperm).
    { left. rewrite !length_insert. lia. }
    exists y, g'. split; [exact Hy|].
    rewrite Hperm. by apply Permutation_insert_swap.
Qed.

(** [random.shuffle], as [split_into_sets] uses it, never fails and gives a
    permutation: every index from 0 to the number of files less one comes
    exactly once in the shuffled sequence, so every patch is moved once and
    no index is out of range.  The directories are not touched. *)
Theorem shuffle_permutes (n : nat) (w : disk rng) :
  ∃ y g, shuffle randbelow (seq 0 n) w = (Ok y, Disk g (tree w))
         ∧ y ≡ₚ seq 0 n
         ∧ NoDup y
         ∧ ∀ index, index ∈ y ↔ (index < n)%nat.
Proof.
  destruct (shuffle_from_permutes (length (seq 0 n) - 1) (seq 0 n) w)
    as (y & g & Hy & Hperm).
  { rewrite length_seq. lia. }
  exists y, g. split; [exact Hy|]. split; [exact Hperm|]. split.
  - rewrite Hperm. apply NoDup_seq.
  - intros index. rewrite Hperm, elem_of_seq. lia.
Qed.

End Facts.

Lemma zero_randbelow_range :
  ∀ (n : Z) (g : unit), 0 < n → 0 ≤ fst (zero_randbelow n g) < n.
Proof. intros n g Hn. cbn. lia. Qed.

Lemma shuffle_permutes_witness :
  ∃ y g, shuffle zero_randbelow (seq 0 10) (Disk tt tree10) = (Ok y, Disk g tree10)
         ∧ y ≡ₚ seq 0 10
         ∧ NoDup y
         ∧ ∀ index, index ∈ y ↔ (index < 10)%nat.
Proof.
  apply (shuffle_permutes zero_randbelow zero_randbelow_range 10 (Disk tt tree10)).
Defined.

End SplitMore.

(** * More about file names, save and _add_text *)

(** ** Names of one component *)

Module PlainFacts.
Import PyStr PyStrFacts PathFacts.












End PlainFacts.

(** ** More about [save] *)

Module SaveMore.
Import Crop Doc DocFacts PyStrFacts PathFacts PlainFacts.

Section Facts.
Context {rng tws rgba layer : Type} `{E : Env rng tws rgba layer}.

Local Abbreviation W := (state rng).






End Facts.
End SaveMore.

(** ** More about [_add_text] *)

Module TextMore.
Import Crop Doc DocFacts.

Section Facts.
Context {rng tws rgba layer : Type} `{E : Env rng tws rgba layer}.

Local Abbreviation W := (state rng).




End Facts.
End TextMore.

(** ** Runs of [save] and [_add_text] *)

Module MoreRuns.
Import Crop Doc DocFacts PlainFacts.

(** A process in /work whose layout tracker has room for one word. *)
#[local] Instance roomy : Env unit bool unit unit := {|
  HANDWRITTEN_WORDS_DIR := "words";
  BACKGROUND_IMAGES_DIR := "backgrounds";
  STAIN_IMAGES_DIR := "stains";
  DEFAULT_BASE_OUTPUT_DIR := "out";
  TMP_DIR := "/dev/shm";
  cwd := ["work"];
  identity := [1];
  randbelow := λ n g, (0, g);
  random_unit := λ g, (0x1p-1%float, g);
  seed_rng := λ n, tt;
  urandom_rng := tt;
  np_random := λ g, (0x1p-1%float, g);
  np_randint3 := λ g, ((0, 0, 0), g);
  np_seed_rng := λ n, tt;
  listdir := λ d, Some ["a.png"];
  TextWriterState := λ shape, true;
  get_next_word_pos := λ shape '(st, g, n),
    ((if st : bool then Some (0%nat, 0%nat) else None), (false, g, n));
  get_padded_image := λ word st, (tt, st);
  add_alpha_channel := λ word,
    match word with Some _ => Ok tt | None => Raise AttributeError end;
  rgba_shape := λ word, (1%nat, 1%nat);
  white_to_alpha := λ word color, word;
  GaussianBlur := λ word, word;
  alpha_composite := λ img l, img;
  cvtColor_BGR2GRAY := channel1;
  haveImageWriter := λ file, String.eqb (PyStr.last4 file) ".png";
  DivaDid := λ xml fs, Some fs;
  tostring := λ root, "";
  format_2f := λ x, ""
|}.



End MoreRuns.

Module SaveRuns.
Import Crop Doc DocFacts PlainFacts DocRuns.

#[local] Existing Instance crowded.


End SaveRuns.
